(** * CAN-bus decision tree: node codec and feature extractor

    A shallow embedding of [SOFTWARE/convert_bin.py]
    ([TreeToBinaryMemConverter]) and [SOFTWARE/convert_sample.py]
    ([CANFeatureConverter]) together with the properties the design
    document states about them.

    Python values are modelled as follows.
    - [int] is [Z]; the bit operators [&], [|], [<<], [>>] are [Z.land],
      [Z.lor], [Z.shiftl], [Z.shiftr] (same two's-complement reading of
      negative numbers).
    - [float] is an IEEE-754 binary64 value, [spec_float] with
      [prec = 53] and [emax = 1024]; arithmetic is the correctly rounded
      arithmetic of [SpecFloat].
    - [str] is [string]; its characters are read as code points below 256.
    - a call that may raise returns a [result]; instance state
      ([self.last_timestamp]) is passed in and returned explicitly. *)

From Stdlib Require Import ZArith Lia Bool List String Ascii.
From Stdlib Require Import Floats.SpecFloat.
From Stdlib Require Import DecimalString.
Import ListNotations.

Local Open Scope Z_scope.

(** ** Exceptions *)

Inductive exn : Type :=
| ValueError
| OverflowError.

Inductive result (A : Type) : Type :=
| Ok (a : A)
| Raise (e : exn).

Arguments Ok {A} a.
Arguments Raise {A} e.

Definition bind {A B : Type} (r : result A) (k : A -> result B) : result B :=
  match r with
  | Ok a => k a
  | Raise e => Raise e
  end.

Notation "x <- r ;; k" := (bind r (fun x => k))
  (at level 61, r at next level, right associativity).

(** ** Python floats *)

Module PyFloat.

Definition prec : Z := 53.
Definition emax : Z := 1024.

(** [float(n)] for an integer [n] in the range of binary64. *)
Definition of_int (n : Z) : spec_float := binary_normalize prec emax n 0 false.

(** A float literal [m * 2^e]. *)
Definition lit (m e : Z) : spec_float := binary_normalize prec emax m e false.

Definition mul : spec_float -> spec_float -> spec_float := SFmul prec emax.
Definition sub : spec_float -> spec_float -> spec_float := SFsub prec emax.

(** [n / d] rounded to the nearest integer, ties to the even one
    ([d] positive). *)
Definition round_half_even_div (n d : Z) : Z :=
  let q := n / d in
  let r := n mod d in
  match 2 * r ?= d with
  | Lt => q
  | Gt => q + 1
  | Eq => if Z.even q then q else q + 1
  end.

(** The integer nearest to [m * 2^e], ties to even. *)
Definition round_half_even_pow2 (m e : Z) : Z :=
  if 0 <=? e then m * 2 ^ e else round_half_even_div m (2 ^ (- e)).

(** [round(x)] with one argument: the nearest [int], ties to even;
    [OverflowError] on an infinity and [ValueError] on a NaN. *)
Definition round (x : spec_float) : result Z :=
  match x with
  | S754_nan => Raise ValueError
  | S754_infinity _ => Raise OverflowError
  | S754_zero _ => Ok 0
  | S754_finite s m e => Ok (cond_Zopp s (round_half_even_pow2 (Zpos m) e))
  end.

(** [max(a, b)] and [min(a, b)] of the builtins: the first argument is
    kept unless the second compares strictly greater (smaller). *)
Definition max (a b : spec_float) : spec_float := if SFltb a b then b else a.
Definition min (a b : spec_float) : spec_float := if SFltb b a then b else a.

End PyFloat.

(** ** Node codec ([convert_bin.py]) *)

(** One row of the tree table, after the conversions at the top of
    [node_to_binary] ([int(...)], [str(...)], [float(...)]). *)
Record node_row : Type := {
  Node : Z;
  Feature : string;
  Threshold : spec_float;
  Left_Child : Z;
  Right_Child : Z;
  Prediction : Z
}.

(** [dict.get(key, default)] on a dictionary with string keys. *)
Fixpoint dict_get (d : list (string * Z)) (key : string) (default : Z) : Z :=
  match d with
  | [] => default
  | (k, v) :: d' => if String.eqb k key then v else dict_get d' key default
  end.

Definition feature_map : list (string * Z) :=
  [ ("00"%string, 0); ("01"%string, 1); ("02"%string, 2);
    ("03"%string, 3); ("04"%string, 4); ("05"%string, 5) ].

(** The [(int_bits, frac_bits)] pair chosen by the [if]/[elif] chain of
    [float_to_fixed_point]. *)
Definition select_format (feature_id : Z) : Z * Z :=
  if feature_id =? 0 then (11, 16)
  else if feature_id =? 1 then (4, 23)
  else if feature_id =? 2 then (8, 19)
  else if feature_id =? 3 then (8, 19)
  else if feature_id =? 4 then (11, 16)
  else if feature_id =? 5 then (0, 27)
  else (14, 13).

Definition float_to_fixed_point (value : spec_float) (feature_id : Z) : result Z :=
  let '(int_bits, frac_bits) := select_format feature_id in
  scaled <- PyFloat.round (PyFloat.mul value (PyFloat.of_int (2 ^ frac_bits))) ;;
  let max_val := 2 ^ 27 - 1 in
  let min_val := 0 in
  let scaled := Z.max min_val (Z.min max_val scaled) in
  Ok (Z.land scaled 0x7FFFFFF).

Definition row_is_leaf (r : node_row) : bool :=
  String.eqb (Feature r) "-1" || ((Left_Child r =? 0) && (Right_Child r =? 0)).

(** The packing expression at the end of [node_to_binary]. *)
Definition pack (node_id feature_id threshold_fixed right_child left_child node_type : Z) : Z :=
  Z.lor (Z.shiftl (Z.land node_id 0xFF) 56)
  (Z.lor (Z.shiftl (Z.land feature_id 0x7) 53)
  (Z.lor (Z.shiftl (Z.land threshold_fixed 0x7FFFFFF) 26)
  (Z.lor (Z.shiftl (Z.land right_child 0xFF) 18)
  (Z.lor (Z.shiftl (Z.land left_child 0xFF) 10)
         (Z.shiftl (Z.land node_type 0xFF) 2))))).

Definition node_to_binary (r : node_row) : result Z :=
  let node_id := Node r in
  let feature := Feature r in
  let threshold := Threshold r in
  let left_child := Left_Child r in
  let right_child := Right_Child r in
  let prediction := Prediction r in
  let is_leaf := row_is_leaf r in
  if is_leaf then
    let feature_id := 0 in
    let threshold_fixed := 0 in
    let node_type := if prediction =? 1 then 0x01 else 0x00 in
    Ok (pack node_id feature_id threshold_fixed right_child left_child node_type)
  else
    let node_type := 0x00 in
    let feature_id := dict_get feature_map feature 0 in
    threshold_fixed <- float_to_fixed_point threshold feature_id ;;
    Ok (pack node_id feature_id threshold_fixed right_child left_child node_type).

Inductive node_kind : Type := Leaf | Internal.

Record decoded_node : Type := {
  node_id : Z;
  feature_id : Z;
  threshold_raw : Z;
  right_child : Z;
  left_child : Z;
  node_type_value : Z;
  node_type : node_kind;
  prediction : option Z;
  reserved : Z
}.

Definition decode_node (node_value : Z) : decoded_node :=
  let node_id := Z.land (Z.shiftr node_value 56) 0xFF in
  let feature_id := Z.land (Z.shiftr node_value 53) 0x7 in
  let threshold := Z.land (Z.shiftr node_value 26) 0x7FFFFFF in
  let right_child := Z.land (Z.shiftr node_value 18) 0xFF in
  let left_child := Z.land (Z.shiftr node_value 10) 0xFF in
  let node_type := Z.land (Z.shiftr node_value 2) 0xFF in
  let reserved := Z.land node_value 0x3 in
  let is_leaf := (node_type =? 1) || ((left_child =? 0) && (right_child =? 0)) in
  {| node_id := node_id;
     feature_id := feature_id;
     threshold_raw := threshold;
     right_child := right_child;
     left_child := left_child;
     node_type_value := node_type;
     node_type := if is_leaf then Leaf else Internal;
     prediction := if is_leaf then Some node_type else None;
     reserved := reserved |}.

(** ** Python strings *)

Module PyStr.

Local Open Scope nat_scope.

Definition code (c : ascii) : N := N_of_ascii c.

(** [str.isspace] on one character, as used by [str.strip()]:
    TAB..CR, FS..US, SPACE, NEL and NBSP. *)
Definition isspace (c : ascii) : bool :=
  let n := code c in
  ((9 <=? n) && (n <=? 13) || (28 <=? n) && (n <=? 31) || (n =? 32)
   || (n =? 133) || (n =? 160))%N.

(** [s.replace(old, '')]: every non-overlapping occurrence of [old],
    found scanning left to right, is deleted.  [skip] counts the
    characters of the current occurrence still to be dropped. *)
Fixpoint remove_from (old : string) (skip : nat) (s : string) : string :=
  match s with
  | EmptyString => EmptyString
  | String c s' =>
      match skip with
      | S k => remove_from old k s'
      | O =>
          if prefix old s then remove_from old (length old - 1) s'
          else String c (remove_from old 0 s')
      end
  end.

Definition remove (old s : string) : string :=
  match old with
  | EmptyString => s
  | _ => remove_from old 0 s
  end.

Fixpoint lstrip (s : string) : string :=
  match s with
  | EmptyString => EmptyString
  | String c s' => if isspace c then lstrip s' else s
  end.

Fixpoint rstrip (s : string) : string :=
  match s with
  | EmptyString => EmptyString
  | String c s' =>
      match rstrip s' with
      | EmptyString => if isspace c then EmptyString else String c EmptyString
      | t => String c t
      end
  end.

Definition strip (s : string) : string := rstrip (lstrip s).

(** The slices [s[:n]], [s[-n:]] and [s[i:i+n]]. *)
Definition first_n (n : nat) (s : string) : string := substring 0 n s.
Definition last_n (n : nat) (s : string) : string := substring (length s - n) n s.
Definition slice (i n : nat) (s : string) : string := substring i n s.

(** [range(start, stop, step)] for a positive [step]. *)
Fixpoint range_from (fuel start stop step : nat) : list nat :=
  match fuel with
  | O => []
  | S fuel' =>
      if start <? stop then start :: range_from fuel' (start + step) stop step
      else []
  end.

Definition range (start stop step : nat) : list nat :=
  range_from stop start stop step.

End PyStr.

(** ** [int(s, 16)] *)

Module PyInt.

(** Characters skipped around the literal: the C [isspace] set, plus the
    two non-ASCII spaces below 256, which [int] first turns into
    [' ']. *)
Definition isspace (c : ascii) : bool :=
  let n := PyStr.code c in
  ((9 <=? n) && (n <=? 13) || (n =? 32) || (n =? 133) || (n =? 160))%N.

Definition hex_value (c : ascii) : option Z :=
  let n := PyStr.code c in
  if ((48 <=? n) && (n <=? 57))%N then Some (Z.of_N n - 48)
  else if ((97 <=? n) && (n <=? 102))%N then Some (Z.of_N n - 87)
  else if ((65 <=? n) && (n <=? 70))%N then Some (Z.of_N n - 55)
  else None.

Fixpoint skip_spaces (s : string) : string :=
  match s with
  | EmptyString => EmptyString
  | String c s' => if isspace c then skip_spaces s' else s
  end.

Definition take_sign (s : string) : bool * string :=
  match s with
  | String c s' =>
      if Ascii.eqb c "+" then (false, s')
      else if Ascii.eqb c "-" then (true, s')
      else (false, s)
  | EmptyString => (false, s)
  end.

Definition starts_with (c : ascii) (s : string) : bool :=
  match s with
  | String c' _ => Ascii.eqb c' c
  | EmptyString => false
  end.

(** An optional [0x]/[0X], after which one underscore is allowed. *)
Definition take_prefix (s : string) : string :=
  match s with
  | String c0 (String c1 s') =>
      if Ascii.eqb c0 "0" && (Ascii.eqb c1 "x" || Ascii.eqb c1 "X") then
        match s' with
        | String c2 s'' => if Ascii.eqb c2 "_" then s'' else s'
        | EmptyString => s'
        end
      else s
  | _ => s
  end.

(** The digit loop: digits and single underscores are consumed; [None]
    on two underscores in a row.  Returns the value, the number of
    digits, whether the last consumed character was an underscore, and
    the rest of the text. *)
Fixpoint scan_digits (s : string) (prev_underscore : bool) (acc : Z) (digits : nat)
  : option (Z * nat * bool * string) :=
  match s with
  | EmptyString => Some (acc, digits, prev_underscore, s)
  | String c s' =>
      if Ascii.eqb c "_" then
        if prev_underscore then None
        else scan_digits s' true acc digits
      else
        match hex_value c with
        | Some d => scan_digits s' false (acc * 16 + d) (S digits)
        | None => Some (acc, digits, prev_underscore, s)
        end
  end.

Definition int16 (s : string) : result Z :=
  let s := skip_spaces s in
  let '(negative, s) := take_sign s in
  let s := take_prefix s in
  if starts_with "_" s then Raise ValueError
  else
    match scan_digits s false 0 0 with
    | None => Raise ValueError
    | Some (acc, digits, prev_underscore, rest) =>
        if prev_underscore then Raise ValueError
        else
          match digits with
          | O => Raise ValueError
          | S _ =>
              match skip_spaces rest with
              | EmptyString => Ok (if negative then - acc else acc)
              | _ => Raise ValueError
              end
          end
    end.

End PyInt.

(** ** Feature extractor ([convert_sample.py]) *)

Record features : Type := {
  arb_id_dec : Z;
  data_length : Z;
  first_byte : Z;
  last_byte : Z;
  byte_sum : Z;
  time_delta : spec_float
}.

(** The instance state of [CANFeatureConverter]. *)
Record converter : Type := { last_timestamp : option spec_float }.

(** [CANFeatureConverter()] and [reset]. *)
Definition new_converter : converter := {| last_timestamp := None |}.
Definition reset (self : converter) : converter := {| last_timestamp := None |}.

(** An arbitration id is a [str] or an [int]. *)
Inductive arb_id : Type :=
| ArbStr (s : string)
| ArbInt (n : Z).

Definition parse_arb_id (arbitration_id : arb_id) : result Z :=
  match arbitration_id with
  | ArbStr s =>
      let arb_id_clean := PyStr.strip (PyStr.remove "0X" (PyStr.remove "0x" s)) in
      PyInt.int16 arb_id_clean
  | ArbInt n => Ok n
  end.

Definition clean_data (data_field : string) : string :=
  PyStr.strip (PyStr.remove " " (PyStr.remove "0X" (PyStr.remove "0x" data_field))).

(** The body of the [for] loop of the [byte_sum] block; an exception
    leaves the loop. *)
Fixpoint byte_sum_loop (data_str : string) (indices : list nat) (byte_sum : Z) : result Z :=
  match indices with
  | [] => Ok byte_sum
  | i :: indices' =>
      if (i + 2 <=? String.length data_str)%nat then
        byte_val <- PyInt.int16 (PyStr.slice i 2 data_str) ;;
        byte_sum_loop data_str indices' (byte_sum + byte_val)
      else byte_sum_loop data_str indices' byte_sum
  end.

(** [try: ... except ValueError: byte_sum = 0]. *)
Definition compute_byte_sum (data_str : string) : result Z :=
  match byte_sum_loop data_str (PyStr.range 0 (String.length data_str) 2) 0 with
  | Raise ValueError => Ok 0
  | r => r
  end.

Definition zero_float : spec_float := S754_zero false.
Definition one_float : spec_float := PyFloat.lit 1 0.

(** The [time_delta] block: the feature value and the new
    [last_timestamp]. *)
Definition compute_time_delta (self : converter) (timestamp : option spec_float)
  : spec_float * converter :=
  match timestamp with
  | Some ts =>
      let delta :=
        match last_timestamp self with
        | Some last =>
            let time_delta := PyFloat.sub ts last in
            let time_delta := PyFloat.max time_delta zero_float in
            PyFloat.min time_delta one_float
        | None => zero_float
        end in
      (delta, {| last_timestamp := Some ts |})
  | None => (zero_float, self)
  end.

(** [convert_single]: the result (a feature record or the exception that
    escapes) and the instance state after the call. *)
Definition convert_single (self : converter) (arbitration_id : arb_id)
    (data_field : string) (timestamp : option spec_float)
  : result features * converter :=
  match parse_arb_id arbitration_id with
  | Raise e => (Raise e, self)
  | Ok arb =>
      let data_str := clean_data data_field in
      let len := String.length data_str in
      let first :=
        if (2 <=? len)%nat then PyInt.int16 (PyStr.first_n 2 data_str) else Ok 0 in
      match first with
      | Raise e => (Raise e, self)
      | Ok fb =>
          let last :=
            if (2 <=? len)%nat then PyInt.int16 (PyStr.last_n 2 data_str) else Ok 0 in
          match last with
          | Raise e => (Raise e, self)
          | Ok lb =>
              match compute_byte_sum data_str with
              | Raise e => (Raise e, self)
              | Ok bs =>
                  let '(delta, self') := compute_time_delta self timestamp in
                  (Ok {| arb_id_dec := arb;
                         data_length := Z.of_nat len;
                         first_byte := fb;
                         last_byte := lb;
                         byte_sum := bs;
                         time_delta := delta |},
                   self')
              end
          end
      end
  end.


(** ** The tables and ranges of the design document *)

(** The six symbolic feature codes and the "no feature" sentinel. *)
Definition feature_names : list string :=
  [ "00"%string; "01"%string; "02"%string; "03"%string; "04"%string; "05"%string ].

Definition sentinel : string := "-1"%string.

(** A synthetic row in the valid ranges: ids and children in [0..255], a
    known feature code or the sentinel, a binary prediction. *)
Definition valid_row (r : node_row) : bool :=
  (0 <=? Node r) && (Node r <=? 255)
  && (0 <=? Left_Child r) && (Left_Child r <=? 255)
  && (0 <=? Right_Child r) && (Right_Child r <=? 255)
  && (existsb (String.eqb (Feature r)) feature_names || String.eqb (Feature r) sentinel)
  && ((Prediction r =? 0) || (Prediction r =? 1)).

(** Fraction bits per feature id, as the format table lists them. *)
Definition fraction_bits (feature_id : Z) : Z :=
  match feature_id with
  | 0 => 16
  | 1 => 23
  | 2 => 19
  | 3 => 19
  | 4 => 16
  | 5 => 27
  | _ => 13
  end.

Definition clamp (x lo hi : Z) : Z :=
  if x <? lo then lo else if hi <? x then hi else x.

(** [float_to_fixed_point] with its format table read through
    [fraction_bits] and its [max]/[min] written as [clamp]: the same float
    product and the same [round], so the same exceptions.  A form of the
    code, used in the proofs; the contract is [quantize_exact] below. *)
Definition quantize_float (value : spec_float) (feature_id : Z) : result Z :=
  rounded <- PyFloat.round
               (PyFloat.mul value (PyFloat.of_int (2 ^ fraction_bits feature_id))) ;;
  Ok (Z.land (clamp rounded 0 (2 ^ 27 - 1)) (Z.ones 27)).

(** A float that is a number of finite size. *)
Definition is_finite (x : spec_float) : bool :=
  match x with
  | S754_zero _ | S754_finite _ _ _ => true
  | _ => false
  end.

Definition is_negative (x : spec_float) : bool := SFltb x (S754_zero false).

(** A well-formed binary64 value: every Python [float] is one. *)
Definition is_binary64 (x : spec_float) : bool :=
  valid_binary PyFloat.prec PyFloat.emax x.

(** The value of a finite binary64 float counted in units of [2^-1074],
    the spacing of the smallest subnormals: every finite float is an
    integer number of them. *)
Definition scaled_int (x : spec_float) : Z :=
  match x with
  | S754_finite s m e => cond_Zopp s (Zpos m * 2 ^ (e + 1074))
  | _ => 0
  end.

(** The scaled product [value * 2^frac_bits] is below [2^1024] in
    magnitude, the bound of binary64. *)
Definition scales_in_range (value : spec_float) (feature_id : Z) : bool :=
  Z.abs (scaled_int value) * 2 ^ fraction_bits feature_id <? 2 ^ (1024 + 1074).

(** [quantize] as the contract words it, for the real number that a
    finite float denotes: look up the fraction bits, round
    [value * 2^fraction_bits] to the nearest integer (ties to even, as
    [round] does), clamp into [0, 2^27 - 1], mask to 27 bits.  The
    arithmetic is exact, so the formula has a value for every finite
    [value]. *)
Definition quantize_exact (value : spec_float) (feature_id : Z) : Z :=
  let rounded :=
    PyFloat.round_half_even_div
      (scaled_int value * 2 ^ fraction_bits feature_id) (2 ^ 1074) in
  Z.land (clamp rounded 0 (2 ^ 27 - 1)) (Z.ones 27).

(** The float [1e308], as [float.hex] prints it:
    [0x1.1ccf385ebc8a0p+1023]. *)
Definition float_1e308 : spec_float := S754_finite false 0x11ccf385ebc8a0 971.

(** The arbitration id as the design document words it: strip the
    surrounding whitespace and an optional [0x]/[0X] prefix, then read
    what is left as a base-16 integer; anything but hexadecimal digits is
    a parse error. *)
Definition strip_hex_prefix (s : string) : string :=
  match s with
  | String c0 (String c1 s') =>
      if Ascii.eqb c0 "0" && (Ascii.eqb c1 "x" || Ascii.eqb c1 "X") then s' else s
  | _ => s
  end.

Fixpoint hex_number (s : string) (acc : Z) : option Z :=
  match s with
  | EmptyString => Some acc
  | String c s' =>
      match PyInt.hex_value c with
      | Some d => hex_number s' (acc * 16 + d)
      | None => None
      end
  end.

Definition parse_arb_id_spec (arbitration_id : arb_id) : result Z :=
  match arbitration_id with
  | ArbStr s =>
      match strip_hex_prefix (PyStr.strip s) with
      | EmptyString => Raise ValueError
      | digits =>
          match hex_number digits 0 with
          | Some n => Ok n
          | None => Raise ValueError
          end
      end
  | ArbInt n => Ok n
  end.

(** A property of every character of a string. *)
Fixpoint string_forallb (p : ascii -> bool) (s : string) : bool :=
  match s with
  | EmptyString => true
  | String c s' => p c && string_forallb p s'
  end.

Definition is_hex_digit (c : ascii) : bool :=
  match PyInt.hex_value c with Some _ => true | None => false end.

(** The characters [int(s, 16)] can consume at all: hexadecimal digits,
    spaces, a sign, an underscore and the [x] of a prefix. *)
Definition int_alphabet (c : ascii) : bool :=
  is_hex_digit c || PyInt.isspace c || Ascii.eqb c "+" || Ascii.eqb c "-"
  || Ascii.eqb c "_" || Ascii.eqb c "x" || Ascii.eqb c "X".

(** The fields of a record can be parsed: [convert_single] returns a
    feature record for it (the parsing looks at neither the state nor the
    timestamp). *)
Definition record_parses (arbitration_id : arb_id) (data_field : string) : bool :=
  match fst (convert_single new_converter arbitration_id data_field None) with
  | Ok _ => true
  | Raise _ => false
  end.

(** The state after a run of records that carry no timestamp. *)
Definition feed_untimed (self : converter) (records : list (arb_id * string))
  : converter :=
  fold_left (fun st r => snd (convert_single st (fst r) (snd r) None)) records self.

(** ** Sample inputs *)

(** A leaf row and an internal row. *)
Definition sample_leaf : node_row :=
  {| Node := 3; Feature := sentinel; Threshold := PyFloat.lit (-2) 0;
     Left_Child := 0; Right_Child := 0; Prediction := 1 |}.

Definition sample_internal : node_row :=
  {| Node := 0; Feature := "03"; Threshold := PyFloat.lit 203 (-1);
     Left_Child := 1; Right_Child := 2; Prediction := 0 |}.

(** A sentinel row with prediction 0 that still names two children. *)
Definition negative_leaf_with_children : node_row :=
  {| Node := 1; Feature := sentinel; Threshold := PyFloat.lit (-2) 0;
     Left_Child := 2; Right_Child := 3; Prediction := 0 |}.

(** A sentinel row with prediction 0 and one non-zero child. *)
Definition sentinel_row_with_child : node_row :=
  {| Node := 7; Feature := sentinel; Threshold := PyFloat.lit (-2) 0;
     Left_Child := 5; Right_Child := 0; Prediction := 0 |}.

(** A row with a real feature and children (0,0). *)
Definition real_feature_no_children : node_row :=
  {| Node := 9; Feature := "02"; Threshold := PyFloat.lit 3 (-1);
     Left_Child := 0; Right_Child := 0; Prediction := 0 |}.

(** The timestamps [100.0], [99.0] and [101.5]. *)
Definition ts_100 : spec_float := PyFloat.lit 100 0.
Definition ts_99 : spec_float := PyFloat.lit 99 0.
Definition ts_101_5 : spec_float := PyFloat.lit 203 (-1).

(** Working records of the rounding of [SpecFloat]: a mantissa with no
    round and sticky bits set. *)
Definition exact_record (m : Z) : shr_record :=
  {| shr_m := m; shr_r := false; shr_s := false |}.

(** * The memory table, the frame converter and the cleaning script

    The rest of [SOFTWARE/convert_bin.py] ([generate_binary_mem_file],
    [_write_metadata], [verify_conversion]) and of
    [SOFTWARE/convert_sample.py] ([convert_dataframe],
    [validate_features]), the extractor of [SOFTWARE/test_model.py]
    ([CANAttackDetector.extract_features]) and [SOFTWARE/clean.py].
    A file is the text written to it. *)

(** ** The conversion loop of [generate_binary_mem_file] *)

(** The conversion loop of [generate_binary_mem_file]: every row is
    encoded and appended to [binary_values]; an exception leaves the
    loop. *)
Fixpoint convert_rows (rows : list node_row) (binary_values : list Z)
  : result (list Z) :=
  match rows with
  | [] => Ok binary_values
  | row :: rows' =>
      node_binary <- node_to_binary row ;;
      convert_rows rows' (binary_values ++ [node_binary])
  end.

(** A row whose id and children do not fit 8 bits. *)
Definition wide_row : node_row :=
  {| Node := 300; Feature := "02"; Threshold := PyFloat.lit 3 (-1);
     Left_Child := 257; Right_Child := -1; Prediction := 0 |}.

(** ** The counters and the address width of [_write_metadata] *)

(** The leaf and internal counters of [_write_metadata]. *)
Fixpoint count_nodes (binary_values : list Z) (leaf_count internal_count : Z)
  : Z * Z :=
  match binary_values with
  | [] => (leaf_count, internal_count)
  | binary_val :: rest =>
      let node_type := Z.land (Z.shiftr binary_val 2) 0xFF in
      let left := Z.land (Z.shiftr binary_val 10) 0xFF in
      let right := Z.land (Z.shiftr binary_val 18) 0xFF in
      if (node_type =? 1) || ((left =? 0) && (right =? 0))
      then count_nodes rest (leaf_count + 1) internal_count
      else count_nodes rest leaf_count (internal_count + 1)
  end.

(** [int.bit_length()]. *)
Definition bit_length (n : Z) : Z :=
  match n with
  | Z0 => 0
  | Zpos p | Zneg p => Z.log2 (Zpos p) + 1
  end.

(** The address width declared for a memory of [num_nodes] words:
    [(num_nodes - 1).bit_length()]. *)
Definition addr_width (num_nodes : Z) : Z := bit_length (num_nodes - 1).

(** Number of words that [decode_node] classifies as leaves. *)
Definition decoded_leaves (binary_values : list Z) : Z :=
  Z.of_nat (List.length
    (filter (fun w => match node_type (decode_node w) with
                      | Leaf => true | Internal => false end) binary_values)).

(** ** [verify_conversion] *)

(** What [verify_conversion] comes to: a verdict, or the [IndexError] of
    an index outside the table. *)
Inductive verify_outcome : Type :=
| Verified (passed : bool)
| IndexErrorRaised.

(** [l[i]] for a list or [df.iloc[i]]: a negative index counts from the
    end; [None] when the index is out of range. *)
Definition py_index {A : Type} (l : list A) (i : Z) : option A :=
  let n := Z.of_nat (List.length l) in
  if (0 <=? i) && (i <? n) then nth_error l (Z.to_nat i)
  else if (- n <=? i) && (i <? 0) then nth_error l (Z.to_nat (n + i))
  else None.

Definition sample_indices : list Z := [0; 1; 2; 10; 50; -1].

(** The [if]/[elif] chain that compares one decoded word with its row:
    the number of errors it adds. *)
Definition sample_errors (node_row : node_row) (binary_val : Z) : Z :=
  let decoded := decode_node binary_val in
  if negb (node_id decoded =? Node node_row) then 1
  else if negb (left_child decoded =? Left_Child node_row) then 1
  else if negb (right_child decoded =? Right_Child node_row) then 1
  else 0.

Fixpoint verify_samples (df_original : list node_row) (binary_values : list Z)
    (indices : list Z) (errors : Z) : option Z :=
  match indices with
  | [] => Some errors
  | i :: indices' =>
      if Z.of_nat (List.length df_original) <=? i
      then verify_samples df_original binary_values indices' errors
      else
        match py_index df_original i with
        | None => None
        | Some node_row =>
            match py_index binary_values i with
            | None => None
            | Some binary_val =>
                verify_samples df_original binary_values indices'
                  (errors + sample_errors node_row binary_val)
            end
        end
  end.

Definition verify_conversion (df_original : list node_row) (binary_values : list Z)
  : verify_outcome :=
  if negb (List.length df_original =? List.length binary_values)%nat
  then Verified false
  else
    match verify_samples df_original binary_values sample_indices 0 with
    | Some errors => Verified (errors =? 0)
    | None => IndexErrorRaised
    end.

(** A value that an 8-bit field holds as it is. *)
Definition fits_byte (x : Z) : Prop := 0 <= x <= 255.

(** A list with the element at position [k] replaced. *)
Definition replace_at {A : Type} (k : nat) (x : A) (l : list A) : list A :=
  firstn k l ++ x :: skipn (S k) l.

(** The error count of one sampled index, 0 for an index the loop skips. *)
Definition error_at (rows : list node_row) (ws : list Z) (i : Z) : Z :=
  if Z.of_nat (List.length rows) <=? i then 0
  else match py_index rows i, py_index ws i with
       | Some r, Some w => sample_errors r w
       | _, _ => 0
       end.

(** A table of three rows and its encoding. *)
Definition sample_table : list node_row :=
  [sample_internal; sample_leaf; real_feature_no_children].

Definition sample_words : list Z :=
  [30592811531764736; 216172782113783812; 648518346341351424].

(** ** The text of a word *)

(** The binary digits of a positive number, most significant first. *)
Fixpoint bin_digits (p : positive) : string :=
  match p with
  | xH => "1"
  | xO p' => bin_digits p' ++ "0"
  | xI p' => bin_digits p' ++ "1"
  end.

Fixpoint zeros (n : nat) : string :=
  match n with
  | O => EmptyString
  | S n' => String "0" (zeros n')
  end.

(** [f"{v:064b}"]: binary digits, zero-filled to 64 characters, the sign
    of a negative number first. *)
Definition format_064b (v : Z) : string :=
  match v with
  | Z0 => zeros 63 ++ "0"
  | Zpos p => zeros (64 - String.length (bin_digits p)) ++ bin_digits p
  | Zneg p => String "-" (zeros (63 - String.length (bin_digits p)) ++ bin_digits p)
  end.

(** The number that a text of binary digits denotes. *)
Fixpoint read_binary (s : string) (acc : Z) : option Z :=
  match s with
  | EmptyString => Some acc
  | String c s' =>
      if Ascii.eqb c "0" then read_binary s' (2 * acc)
      else if Ascii.eqb c "1" then read_binary s' (2 * acc + 1)
      else None
  end.

Definition is_binary_digit (c : ascii) : bool := Ascii.eqb c "0" || Ascii.eqb c "1".

(** ** The memory file and [clean.py] *)

Definition newline : string := String (ascii_of_nat 10) EmptyString.

(** [f"{n}"] and [f"{n:3d}"] for an [int]. *)
Definition format_d (n : Z) : string := NilZero.string_of_int (Z.to_int n).

Fixpoint spaces (n : nat) : string :=
  match n with
  | O => EmptyString
  | S n' => String " " (spaces n')
  end.

Definition format_3d (n : Z) : string :=
  let s := format_d n in spaces (3 - String.length s) ++ s.

(** The comment written after the digits of a node. *)
Definition node_comment (binary_val : Z) : string :=
  let decoded := decode_node binary_val in
  match node_type decoded with
  | Leaf =>
      let pred_label :=
        match prediction decoded with
        | Some 1 => "Attack"
        | _ => "Normal"
        end in
      "Node " ++ format_3d (node_id decoded) ++ ": LEAF -> " ++ pred_label
  | Internal =>
      "Node " ++ format_3d (node_id decoded) ++ ": Feature["
      ++ format_d (feature_id decoded) ++ "] L=" ++ format_3d (left_child decoded)
      ++ " R=" ++ format_3d (right_child decoded)
  end%string.

Definition mem_line (binary_val : Z) : string :=
  (format_064b binary_val ++ "  // " ++ node_comment binary_val ++ newline)%string.

(** The fifteen [write] calls of the header. *)
Definition mem_header (binary_values : list Z) : list string :=
  [ "// Pure Binary Memory Initialization File for FPGA" ++ newline;
    "// Decision Tree Nodes (64-bit pure binary format)" ++ newline;
    "// Total Nodes: " ++ format_d (Z.of_nat (List.length binary_values)) ++ newline;
    "// Format: [NodeID][FeatureID][Threshold][Right][Left][Type][Reserved]" ++ newline;
    "// Each line: 64 binary digits (0 or 1)" ++ newline;
    "//" ++ newline;
    "// Node Structure:" ++ newline;
    "//   [63:56] Node ID (8-bit)" ++ newline;
    "//   [55:53] Feature ID (3-bit)" ++ newline;
    "//   [52:26] Threshold (27-bit fixed-point)" ++ newline;
    "//   [25:18] Right Child (8-bit)" ++ newline;
    "//   [17:10] Left Child (8-bit)" ++ newline;
    "//   [9:2]   Node Type (8-bit: 0x00=Internal, 0x01=Leaf)" ++ newline;
    "//   [1:0]   Reserved (2-bit)" ++ newline;
    "//" ++ newline ++ newline ]%string.

(** The content of a file after the [write] calls [chunks]. *)
Fixpoint written (chunks : list string) : string :=
  match chunks with
  | [] => EmptyString
  | chunk :: chunks' => (chunk ++ written chunks')%string
  end.

(** The text [generate_binary_mem_file] writes for the encoded nodes. *)
Definition mem_file_text (binary_values : list Z) : string :=
  written (mem_header binary_values ++ map mem_line binary_values).

(** The lines of a text file opened for reading: [\r\n] and [\r] are read
    as [\n], every line keeps its [\n], and a last line without one is a
    line too.  [current] is the line read so far. *)
Fixpoint file_lines_from (current : string) (text : string) : list string :=
  match text with
  | EmptyString =>
      match current with
      | EmptyString => []
      | _ => [current]
      end
  | String c text' =>
      if Ascii.eqb c (ascii_of_nat 10) then
        (current ++ newline)%string :: file_lines_from EmptyString text'
      else if Ascii.eqb c (ascii_of_nat 13) then
        match text' with
        | String c' text'' =>
            if Ascii.eqb c' (ascii_of_nat 10) then
              (current ++ newline)%string :: file_lines_from EmptyString text''
            else (current ++ newline)%string :: file_lines_from EmptyString text'
        | EmptyString => [(current ++ newline)%string]
        end
      else file_lines_from (current ++ String c EmptyString) text'
  end.

Definition file_lines (text : string) : list string := file_lines_from EmptyString text.

(** [s.split(sep)[0]] for a separator that is not empty: the text before
    the first occurrence of [sep]. *)
Fixpoint before_first (sep s : string) : string :=
  if prefix sep s then EmptyString
  else
    match s with
    | EmptyString => EmptyString
    | String c s' => String c (before_first sep s')
    end.

(** The body of the loop of [clean.py], [f_out] being the text written so
    far. *)
Definition clean_step (f_out : string) (line : string) : string :=
  let clean_line := PyStr.strip (before_first "//" line) in
  match clean_line with
  | EmptyString => f_out
  | _ => (f_out ++ clean_line ++ newline)%string
  end.

(** [clean.py]: the output file for an input file. *)
Definition clean_file (text : string) : string :=
  fold_left clean_step (file_lines text) EmptyString.

(** No carriage return or line feed. *)
Definition no_line_break (c : ascii) : bool :=
  negb (Ascii.eqb c (ascii_of_nat 10)) && negb (Ascii.eqb c (ascii_of_nat 13)).

(** A line of a text file: a text without line break, and its [\n]. *)
Definition is_line (l : string) : Prop :=
  exists body, l = (body ++ newline)%string /\ string_forallb no_line_break body = true.

(** The sign, a decimal digit or a space. *)
Definition is_decimal_char (c : ascii) : bool :=
  Ascii.eqb c "-" || Ascii.eqb c " " || ((48 <=? N_of_ascii c) && (N_of_ascii c <=? 57))%N.

(** The sign or a binary digit. *)
Definition is_word_char (c : ascii) : bool :=
  Ascii.eqb c "-" || is_binary_digit c.

(** The text [clean.py] keeps of a line. *)
Definition clean_line (line : string) : string :=
  PyStr.strip (before_first "//" line).

Definition is_empty (s : string) : bool :=
  match s with
  | EmptyString => true
  | _ => false
  end.

(** The lines [clean.py] keeps of a file, without their [\n]. *)
Definition clean_lines (text : string) : list string :=
  filter (fun c => negb (is_empty c)) (map clean_line (file_lines text)).

(** The comment marker occurs in the text. *)
Fixpoint has_comment (s : string) : bool :=
  prefix "//" s
  || match s with
     | EmptyString => false
     | String _ s' => has_comment s'
     end.

(** A line as [clean.py] writes it: not empty, no white space around it,
    no comment marker and no line break in it. *)
Definition is_clean (c : string) : bool :=
  negb (is_empty c) && String.eqb (PyStr.strip c) c && negb (has_comment c)
  && string_forallb no_line_break c.

(** ** Time deltas and [validate_features] *)

Definition is_nan (x : spec_float) : bool :=
  match x with
  | S754_nan => true
  | _ => false
  end.

(** A timestamp that is absent or finite. *)
Definition finite_opt (timestamp : option spec_float) : bool :=
  match timestamp with
  | Some ts => is_finite ts
  | None => true
  end.

(** A Python number: an [int] or a [float]. *)
Inductive number : Type :=
| IntNum (n : Z)
| FloatNum (x : spec_float).

(** [a <= b] on numbers. *)
Definition number_le (a b : number) : bool :=
  match a, b with
  | IntNum x, IntNum y => x <=? y
  | IntNum x, FloatNum y => SFleb (PyFloat.of_int x) y
  | FloatNum x, IntNum y => SFleb x (PyFloat.of_int y)
  | FloatNum x, FloatNum y => SFleb x y
  end.

(** The table [checks] of [validate_features]: name, minimum, maximum and
    bit width. *)
Definition checks : list (string * number * number * Z) :=
  [ ("arb_id_dec"%string, IntNum 0, IntNum 2047, 11);
    ("data_length"%string, IntNum 0, IntNum 16, 4);
    ("first_byte"%string, IntNum 0, IntNum 255, 8);
    ("last_byte"%string, IntNum 0, IntNum 255, 8);
    ("byte_sum"%string, IntNum 0, IntNum 2047, 11);
    ("time_delta"%string, IntNum 0, FloatNum one_float, 32) ].

(** [features.get(name, default)] on a feature record. *)
Definition features_get (f : features) (name : string) (default : number) : number :=
  if String.eqb name "arb_id_dec" then IntNum (arb_id_dec f)
  else if String.eqb name "data_length" then IntNum (data_length f)
  else if String.eqb name "first_byte" then IntNum (first_byte f)
  else if String.eqb name "last_byte" then IntNum (last_byte f)
  else if String.eqb name "byte_sum" then IntNum (byte_sum f)
  else if String.eqb name "time_delta" then FloatNum (time_delta f)
  else default.

Fixpoint validate_loop (f : features) (checks : list (string * number * number * Z))
  : bool :=
  match checks with
  | [] => true
  | (feat_name, min_val, max_val, bits) :: checks' =>
      let val := features_get f feat_name (IntNum 0) in
      if negb (number_le min_val val && number_le val max_val) then false
      else validate_loop f checks'
  end.

Definition validate_features (f : features) : bool := validate_loop f checks.

(** The byte values that a text of hexadecimal digits spells, two digits
    per byte; a last digit without a partner is left out. *)
Fixpoint hex_pairs (s : string) : list Z :=
  match s with
  | String c1 (String c2 s') =>
      match PyInt.hex_value c1, PyInt.hex_value c2 with
      | Some a, Some b => (16 * a + b) :: hex_pairs s'
      | _, _ => []
      end
  | _ => []
  end.

Definition sum_list (l : list Z) : Z := fold_right Z.add 0 l.

(** A call of [int(s, 16)] on a text of at most two characters returns a
    number from -15 to 255 when it returns at all. *)
Definition chunk_in_range (s : string) : bool :=
  match PyInt.int16 s with
  | Ok v => (-15 <=? v) && (v <=? 255)
  | Raise _ => true
  end.

(** A hexadecimal digit or the space character. *)
Definition is_hex_or_space (c : ascii) : bool := is_hex_digit c || Ascii.eqb c " ".

(** ** [convert_dataframe] *)

(** A data frame as [convert_dataframe] reads it: the column names, the
    index labels, one per row (integers; a frame that was given no index
    has the labels 0, 1, 2, ...), and for each row the cells under the
    identifier, data and timestamp columns (an identifier cell is a [str]
    or an [int], a data cell a [str], a timestamp cell a [float]; a cell of
    a column that is absent is never read). *)
Record frame : Type := {
  columns : list string;
  index : list Z;
  rows : list (arb_id * string * spec_float)
}.

(** The index [pd.DataFrame(features_list)] gets, and a frame that was
    given no other: 0, 1, ..., [n - 1]. *)
Definition default_index (n : nat) : list Z := map Z.of_nat (seq 0 n).

(** [col in df.columns]. *)
Definition has_column (df : frame) (col : string) : bool :=
  existsb (String.eqb col) (columns df).

(** The loop over the rows; an exception of [convert_single] leaves it. *)
Fixpoint convert_frame_rows (self : converter) (has_timestamp : bool)
    (rows : list (arb_id * string * spec_float)) (features_list : list features)
  : result (list features) * converter :=
  match rows with
  | [] => (Ok features_list, self)
  | (arb, data, ts) :: rows' =>
      match convert_single self arb data (if has_timestamp then Some ts else None) with
      | (Ok features, self') =>
          convert_frame_rows self' has_timestamp rows' (features_list ++ [features])
      | (Raise e, self') => (Raise e, self')
      end
  end.

(** [df_result[col] = features_df[col]] for the six columns of
    [features_df = pd.DataFrame(features_list)]: the assignment aligns on
    the index.  The row of [df_result] with the label [label] gets the
    cells of the record at position [label] of [features_list]; when
    there is no such record its six cells are missing (NaN), here [None].
    (An integer column that gets a missing cell is stored as floats;
    without rows [features_df] has no column and none is assigned.) *)
Definition assigned_record (features_list : list features) (label : Z)
  : option features :=
  if 0 <=? label then nth_error features_list (Z.to_nat label) else None.

Definition assign_features (index : list Z) (features_list : list features)
  : list (option features) :=
  map (assigned_record features_list) index.

(** [convert_dataframe]: the six feature cells of every row of the frame
    that is returned (the copy of [df] with the feature columns assigned),
    or the exception, and the state after the call. *)
Definition convert_dataframe (self : converter) (df : frame)
    (arb_id_col data_col timestamp_col : string)
  : result (list (option features)) * converter :=
  let self := {| last_timestamp := None |} in
  if negb (has_column df arb_id_col) then (Raise ValueError, self)
  else if negb (has_column df data_col) then (Raise ValueError, self)
  else
    let has_timestamp := has_column df timestamp_col in
    match convert_frame_rows self has_timestamp (rows df) [] with
    | (Ok features_list, self') =>
        (Ok (assign_features (index df) features_list), self')
    | (Raise e, self') => (Raise e, self')
    end.

(** ** [CANAttackDetector.extract_features] *)

Record detector : Type := { detector_last_timestamp : option spec_float }.

(** The [_metadata] entry of the result. *)
Record metadata : Type := {
  raw_arb_id : arb_id;
  raw_data : string;
  raw_timestamp : option spec_float;
  data_str_length : Z;
  data_hex : string
}.

(** [try: ... except: byte_sum = 0]: any exception is caught. *)
Definition compute_byte_sum_any (data_str : string) : result Z :=
  match byte_sum_loop data_str (PyStr.range 0 (String.length data_str) 2) 0 with
  | Raise _ => Ok 0
  | r => r
  end.

Definition extract_features (self : detector) (arbitration_id : arb_id)
    (data_field : string) (timestamp : option spec_float)
  : result (features * metadata) * detector :=
  match parse_arb_id arbitration_id with
  | Raise e => (Raise e, self)
  | Ok arb =>
      let data_str := clean_data data_field in
      let len := String.length data_str in
      let first :=
        if (2 <=? len)%nat then PyInt.int16 (PyStr.first_n 2 data_str) else Ok 0 in
      match first with
      | Raise e => (Raise e, self)
      | Ok fb =>
          let last :=
            if (2 <=? len)%nat then PyInt.int16 (PyStr.last_n 2 data_str) else Ok 0 in
          match last with
          | Raise e => (Raise e, self)
          | Ok lb =>
              match compute_byte_sum_any data_str with
              | Raise e => (Raise e, self)
              | Ok bs =>
                  let '(delta, self') :=
                    match timestamp with
                    | Some ts =>
                        let delta :=
                          match detector_last_timestamp self with
                          | Some last =>
                              let time_delta := PyFloat.sub ts last in
                              let time_delta := PyFloat.max time_delta zero_float in
                              PyFloat.min time_delta one_float
                          | None => zero_float
                          end in
                        (delta, {| detector_last_timestamp := Some ts |})
                    | None => (zero_float, self)
                    end in
                  (Ok ({| arb_id_dec := arb;
                          data_length := Z.of_nat len;
                          first_byte := fb;
                          last_byte := lb;
                          byte_sum := bs;
                          time_delta := delta |},
                       {| raw_arb_id := arbitration_id;
                          raw_data := data_field;
                          raw_timestamp := timestamp;
                          data_str_length := Z.of_nat len;
                          data_hex := data_str |}),
                   self')
              end
          end
      end
  end.

(** The five features read from the identifier and the payload. *)
Definition payload_features (f : features) : Z * Z * Z * Z * Z :=
  (arb_id_dec f, data_length f, first_byte f, last_byte f, byte_sum f).

(** The timestamp of the last row, if there is one. *)
Definition last_row_timestamp (rows : list (arb_id * string * spec_float))
  : option spec_float :=
  last (map (fun r => Some (snd r)) rows) None.

(** [min(max(ts - last, 0.0), 1.0)]. *)
Definition clamped_delta (ts last : spec_float) : spec_float :=
  PyFloat.min (PyFloat.max (PyFloat.sub ts last) zero_float) one_float.

(** Every row of the list can be parsed. *)
Definition rows_parse (rows : list (arb_id * string * spec_float)) : bool :=
  forallb (fun r => record_parses (fst (fst r)) (snd (fst r))) rows.

(** A label that the index of [pd.DataFrame(features_list)] does not
    have, for a list of [n] records. *)
Definition label_outside (n : nat) (label : Z) : bool :=
  (label <? 0) || (Z.of_nat n <=? label).

(** A frame of three records with the labels 0, 1, 2, and the same rows
    with the labels 5, 6, 7 (as after dropping the first five rows of a
    longer frame). *)
Definition sample_frame : frame :=
  {| columns := ["timestamp"; "arbitration_id"; "data_field"]%string;
     index := [0; 1; 2];
     rows := [ (ArbStr "0x123", "0102"%string, ts_100);
               (ArbInt 7, "ff"%string, ts_99);
               (ArbStr "1A", EmptyString, ts_101_5) ] |}.

Definition shifted_frame : frame :=
  {| columns := columns sample_frame;
     index := [5; 6; 7];
     rows := rows sample_frame |}.

(** The records of the payload [-f+1], without a timestamp and one and a
    half seconds after a first record. *)
Definition minus_record : features :=
  {| arb_id_dec := 5; data_length := 4; first_byte := -15; last_byte := 1;
     byte_sum := -14; time_delta := zero_float |}.

Definition late_record : features :=
  {| arb_id_dec := 5; data_length := 4; first_byte := -15; last_byte := 1;
     byte_sum := -14; time_delta := one_float |}.

(** * Properties *)

(** ** Bit fields of a packed word *)

Section BitFields.

Lemma testbit_field (x w s m : Z) :
  0 <= w ->
  Z.testbit (Z.shiftl (Z.land x (Z.ones w)) s) m
  = (0 <=? m) && (s <=? m) && (m - s <? w) && Z.testbit x (m - s).
Proof.
  intros Hw.
  destruct (Z.leb_spec 0 m) as [Hm|Hm]; simpl.
  2:{ now rewrite Z.testbit_neg_r. }
  rewrite Z.shiftl_spec by assumption.
  destruct (Z.leb_spec s m) as [Hs|Hs]; simpl.
  2:{ rewrite Z.testbit_neg_r by lia. reflexivity. }
  rewrite Z.land_spec.
  destruct (Z.ltb_spec (m - s) w); simpl.
  - rewrite Z.ones_spec_low by lia. now rewrite andb_true_r.
  - rewrite Z.ones_spec_high by lia. now rewrite andb_false_r.
Qed.

Lemma testbit_unfield (x w s m : Z) :
  0 <= w -> 0 <= s ->
  Z.testbit (Z.land (Z.shiftr x s) (Z.ones w)) m
  = (0 <=? m) && (m <? w) && Z.testbit x (m + s).
Proof.
  intros Hw Hs.
  destruct (Z.leb_spec 0 m) as [Hm|Hm]; simpl.
  2:{ now rewrite Z.testbit_neg_r. }
  rewrite Z.land_spec, Z.shiftr_spec by assumption.
  destruct (Z.ltb_spec m w); simpl.
  - rewrite Z.ones_spec_low by lia. now rewrite andb_true_r.
  - rewrite Z.ones_spec_high by lia. now rewrite andb_false_r.
Qed.

(** Reading back the field that was written. *)
Lemma field_same (x w s : Z) :
  0 <= w -> 0 <= s ->
  Z.land (Z.shiftr (Z.shiftl (Z.land x (Z.ones w)) s) s) (Z.ones w)
  = Z.land x (Z.ones w).
Proof.
  intros Hw Hs. rewrite Z.shiftr_shiftl_l, Z.sub_diag, Z.shiftl_0_r by lia.
  now rewrite <- Z.land_assoc, Z.land_diag.
Qed.

(** Reading a field sees nothing of a field written elsewhere. *)
Lemma field_disjoint (x w s w' s' : Z) :
  0 <= w -> 0 <= s -> 0 <= w' -> s' + w' <= s \/ s + w <= s' ->
  Z.land (Z.shiftr (Z.shiftl (Z.land x (Z.ones w')) s') s) (Z.ones w) = 0.
Proof.
  intros Hw Hs Hw' Hd. apply Z.bits_inj'. intros m Hm.
  rewrite testbit_unfield, testbit_field, Z.bits_0 by lia.
  destruct (Z.leb_spec 0 m), (Z.ltb_spec m w), (Z.leb_spec 0 (m + s)),
    (Z.leb_spec s' (m + s)), (Z.ltb_spec (m + s - s') w');
    simpl; try reflexivity; lia.
Qed.

Lemma field_lor (a b w s : Z) :
  Z.land (Z.shiftr (Z.lor a b) s) (Z.ones w)
  = Z.lor (Z.land (Z.shiftr a s) (Z.ones w)) (Z.land (Z.shiftr b s) (Z.ones w)).
Proof. now rewrite Z.shiftr_lor, Z.land_lor_distr_l. Qed.

Lemma mask_small (x w : Z) : 0 <= w -> 0 <= x < 2 ^ w -> Z.land x (Z.ones w) = x.
Proof. intros Hw Hx. rewrite Z.land_ones by assumption. now apply Z.mod_small. Qed.

Lemma mask_idem (x w : Z) : Z.land (Z.land x (Z.ones w)) (Z.ones w) = Z.land x (Z.ones w).
Proof. now rewrite <- Z.land_assoc, Z.land_diag. Qed.

End BitFields.

Ltac masks_as_ones :=
  change 0x3 with (Z.ones 2);
  change 0x7 with (Z.ones 3);
  change 0xFF with (Z.ones 8);
  change 0x7FFFFFF with (Z.ones 27).

Ltac unpack_field :=
  unfold pack; masks_as_ones;
  rewrite !field_lor;
  rewrite ?field_same by lia;
  rewrite ?field_disjoint by lia;
  rewrite ?Z.lor_0_r, ?Z.lor_0_l; reflexivity.

Section Pack.

Variables n f t r l k : Z.

Lemma pack_node_id :
  Z.land (Z.shiftr (pack n f t r l k) 56) 0xFF = Z.land n 0xFF.
Proof. unpack_field. Qed.

Lemma pack_feature_id :
  Z.land (Z.shiftr (pack n f t r l k) 53) 0x7 = Z.land f 0x7.
Proof. unpack_field. Qed.

Lemma pack_threshold :
  Z.land (Z.shiftr (pack n f t r l k) 26) 0x7FFFFFF = Z.land t 0x7FFFFFF.
Proof. unpack_field. Qed.

Lemma pack_right_child :
  Z.land (Z.shiftr (pack n f t r l k) 18) 0xFF = Z.land r 0xFF.
Proof. unpack_field. Qed.

Lemma pack_left_child :
  Z.land (Z.shiftr (pack n f t r l k) 10) 0xFF = Z.land l 0xFF.
Proof. unpack_field. Qed.

Lemma pack_node_type :
  Z.land (Z.shiftr (pack n f t r l k) 2) 0xFF = Z.land k 0xFF.
Proof. unpack_field. Qed.

Lemma pack_reserved : Z.land (pack n f t r l k) 0x3 = 0.
Proof.
  rewrite <- (Z.shiftr_0_r (pack n f t r l k)).
  unfold pack; masks_as_ones.
  rewrite !field_lor. rewrite ?field_disjoint by lia. reflexivity.
Qed.

(** What [decode_node] reads from a packed word. *)
Lemma decode_pack :
  decode_node (pack n f t r l k) =
  let leaf := (Z.land k 0xFF =? 1)
              || ((Z.land l 0xFF =? 0) && (Z.land r 0xFF =? 0)) in
  {| node_id := Z.land n 0xFF;
     feature_id := Z.land f 0x7;
     threshold_raw := Z.land t 0x7FFFFFF;
     right_child := Z.land r 0xFF;
     left_child := Z.land l 0xFF;
     node_type_value := Z.land k 0xFF;
     node_type := if leaf then Leaf else Internal;
     prediction := if leaf then Some (Z.land k 0xFF) else None;
     reserved := 0 |}.
Proof.
  unfold decode_node.
  rewrite pack_node_id, pack_feature_id, pack_threshold, pack_right_child,
    pack_left_child, pack_node_type, pack_reserved.
  reflexivity.
Qed.

End Pack.

(** ** Encoding and decoding a node *)

Lemma row_is_leaf_spec (r : node_row) :
  row_is_leaf r = true <->
  Feature r = sentinel \/ (Left_Child r = 0 /\ Right_Child r = 0).
Proof.
  unfold row_is_leaf, sentinel.
  rewrite orb_true_iff, andb_true_iff, String.eqb_eq, !Z.eqb_eq. reflexivity.
Qed.

Lemma feature_map_known (i : nat) (name : string) :
  nth_error feature_names i = Some name ->
  dict_get feature_map name 0 = Z.of_nat i.
Proof.
  intros H.
  do 6 (destruct i as [|i]; [injection H as <-; reflexivity|]).
  destruct i; discriminate.
Qed.

Lemma feature_map_unknown (name : string) :
  ~ In name feature_names -> dict_get feature_map name 0 = 0.
Proof.
  intros H. unfold feature_map, dict_get.
  repeat match goal with
  | |- context [String.eqb ?k name] =>
      let E := fresh "E" in
      destruct (String.eqb_spec k name) as [E|E];
      [exfalso; apply H; rewrite <- E; simpl; auto 10|]
  end.
  reflexivity.
Qed.

Lemma feature_map_range (name : string) : 0 <= dict_get feature_map name 0 <= 5.
Proof.
  unfold feature_map, dict_get.
  repeat match goal with
  | |- context [String.eqb ?k name] => destruct (String.eqb k name); [lia|]
  end.
  lia.
Qed.

Lemma float_to_fixed_point_masked (v : spec_float) (fid q : Z) :
  float_to_fixed_point v fid = Ok q -> Z.land q 0x7FFFFFF = q.
Proof.
  unfold float_to_fixed_point. destruct (select_format fid) as [ib fb].
  destruct (PyFloat.round _) as [s|e]; simpl; [|discriminate].
  intros [= <-]. change 0x7FFFFFF with (Z.ones 27). apply mask_idem.
Qed.

(** C6.  For every row, [node_to_binary] fills the packed fields by the
    leaf rule: a leaf (sentinel feature, or both children 0) gets feature
    id 0, threshold bits 0 and node type 1 when the prediction is 1 and 0
    otherwise; any other row gets node type 0, the numeric id of its
    feature name (0 for an unknown name) and the quantized threshold as
    threshold bits, an exception of the quantization being passed on. *)
Theorem node_to_binary_fields (r : node_row) :
  let fid := dict_get feature_map (Feature r) 0 in
  (forall i, nth_error feature_names i = Some (Feature r) -> fid = Z.of_nat i)
  /\ (~ In (Feature r) feature_names -> fid = 0)
  /\ (Feature r = sentinel \/ (Left_Child r = 0 /\ Right_Child r = 0) ->
      exists w, node_to_binary r = Ok w
        /\ feature_id (decode_node w) = 0
        /\ threshold_raw (decode_node w) = 0
        /\ node_type_value (decode_node w) = (if Prediction r =? 1 then 1 else 0))
  /\ (~ (Feature r = sentinel \/ (Left_Child r = 0 /\ Right_Child r = 0)) ->
      match float_to_fixed_point (Threshold r) fid with
      | Ok q =>
          exists w, node_to_binary r = Ok w
            /\ feature_id (decode_node w) = fid
            /\ threshold_raw (decode_node w) = q
            /\ node_type_value (decode_node w) = 0
      | Raise e => node_to_binary r = Raise e
      end).
Proof.
  intros fid. split; [|split; [|split]].
  - intros i Hi. now apply feature_map_known.
  - apply feature_map_unknown.
  - intros Hleaf. apply row_is_leaf_spec in Hleaf.
    unfold node_to_binary. rewrite Hleaf.
    eexists. split; [reflexivity|].
    rewrite decode_pack. cbn [feature_id threshold_raw node_type_value].
    split; [reflexivity|]. split; [reflexivity|].
    now destruct (Prediction r =? 1).
  - intros Hint. rewrite <- row_is_leaf_spec in Hint.
    apply not_true_is_false in Hint.
    unfold node_to_binary. rewrite Hint. fold fid.
    destruct (float_to_fixed_point (Threshold r) fid) as [q|e] eqn:Hq;
      cbn [bind]; [|reflexivity].
    eexists. split; [reflexivity|].
    rewrite decode_pack. cbn [feature_id threshold_raw node_type_value].
    split; [|split; [|reflexivity]].
    + change 0x7 with (Z.ones 3). apply mask_small; [lia|].
      pose proof (feature_map_range (Feature r)) as Hr. fold fid in Hr.
      change (2 ^ 3) with 8. lia.
    + now apply float_to_fixed_point_masked in Hq.
Qed.

Lemma node_to_binary_fields_witness :
  (exists w, node_to_binary sample_leaf = Ok w
     /\ feature_id (decode_node w) = 0
     /\ threshold_raw (decode_node w) = 0
     /\ node_type_value (decode_node w) = 1)
  /\ (exists w, node_to_binary sample_internal = Ok w
     /\ feature_id (decode_node w) = 3
     /\ threshold_raw (decode_node w) = 53215232
     /\ node_type_value (decode_node w) = 0).
Proof.
  split.
  - exact (proj1 (proj2 (proj2 (node_to_binary_fields sample_leaf)))
             (or_introl eq_refl)).
  - assert (Hn : ~ (Feature sample_internal = sentinel
                    \/ (Left_Child sample_internal = 0
                        /\ Right_Child sample_internal = 0))).
    { intros [H|[H _]]; discriminate. }
    exact (proj2 (proj2 (proj2 (node_to_binary_fields sample_internal))) Hn).
Defined.

Lemma node_to_binary_unfold (r : node_row) :
  node_to_binary r =
  if row_is_leaf r then
    Ok (pack (Node r) 0 0 (Right_Child r) (Left_Child r)
          (if Prediction r =? 1 then 1 else 0))
  else
    q <- float_to_fixed_point (Threshold r) (dict_get feature_map (Feature r) 0) ;;
    Ok (pack (Node r) (dict_get feature_map (Feature r) 0) q
          (Right_Child r) (Left_Child r) 0).
Proof. reflexivity. Qed.

Lemma byte_small (x : Z) : 0 <= x <= 255 -> Z.land x 0xFF = x.
Proof. intros H. change 0xFF with (Z.ones 8). apply mask_small; lia. Qed.

Lemma valid_row_spec (r : node_row) :
  valid_row r = true ->
  0 <= Node r <= 255 /\ 0 <= Left_Child r <= 255 /\ 0 <= Right_Child r <= 255
  /\ (In (Feature r) feature_names \/ Feature r = sentinel)
  /\ (Prediction r = 0 \/ Prediction r = 1).
Proof.
  unfold valid_row. rewrite !andb_true_iff, !orb_true_iff, !Z.leb_le, !Z.eqb_eq.
  rewrite String.eqb_eq, existsb_exists.
  intros [[[[[[[H1 H2] H3] H4] H5] H6] H7] H8].
  repeat (split; [lia|]). split; [|exact H8].
  destruct H7 as [[name [Hin Heq]]|H7]; [left|right; exact H7].
  apply String.eqb_eq in Heq. now subst name.
Qed.

(** How [decode_node] classifies a packed word. *)
Lemma decode_pack_kind (n f t r l k : Z) :
  node_type (decode_node (pack n f t r l k)) = Leaf <->
  Z.land k 0xFF = 1 \/ (Z.land l 0xFF = 0 /\ Z.land r 0xFF = 0).
Proof.
  rewrite decode_pack. cbn [node_type].
  rewrite <- !Z.eqb_eq, <- andb_true_iff, <- orb_true_iff.
  destruct (_ || _); split; intros H; try reflexivity; discriminate.
Qed.

(** C1, the part that fails: a sentinel row with a non-zero child and
    prediction 0 is a leaf for the encoder, and its word is decoded as an
    internal node. *)
Lemma roundtrip_classification_counterexample :
  valid_row negative_leaf_with_children = true
  /\ row_is_leaf negative_leaf_with_children = true
  /\ exists w, node_to_binary negative_leaf_with_children = Ok w
       /\ node_id (decode_node w) = 1
       /\ node_type (decode_node w) = Internal.
Proof.
  split; [reflexivity|]. split; [reflexivity|].
  eexists. split; [reflexivity|]. split; reflexivity.
Qed.

(** C1, amended.  For every row in the valid ranges the encoder raises
    only when the row is internal and the quantization of its threshold
    raises; otherwise decoding the word gives back [node_id],
    [left_child] and [right_child], and the word is classified as a leaf
    exactly when both children are 0 or the row has the sentinel feature
    and prediction 1. *)
Theorem decode_encode_roundtrip (r : node_row) :
  valid_row r = true ->
  match node_to_binary r with
  | Ok w =>
      node_id (decode_node w) = Node r
      /\ left_child (decode_node w) = Left_Child r
      /\ right_child (decode_node w) = Right_Child r
      /\ (node_type (decode_node w) = Leaf <->
          (Left_Child r = 0 /\ Right_Child r = 0)
          \/ (Feature r = sentinel /\ Prediction r = 1))
  | Raise e =>
      row_is_leaf r = false
      /\ float_to_fixed_point (Threshold r) (dict_get feature_map (Feature r) 0)
         = Raise e
  end.
Proof.
  intros Hv. apply valid_row_spec in Hv.
  destruct Hv as (Hn & Hl & Hr & Hf & Hp).
  rewrite node_to_binary_unfold.
  destruct (row_is_leaf r) eqn:Hleaf.
  - rewrite decode_pack_kind, decode_pack.
    cbn [node_id left_child right_child].
    rewrite !byte_small by lia.
    split; [reflexivity|]. split; [reflexivity|]. split; [reflexivity|].
    apply row_is_leaf_spec in Hleaf.
    destruct (Z.eqb_spec (Prediction r) 1) as [E|E].
    + rewrite byte_small by lia. intuition lia.
    + rewrite byte_small by lia. intuition lia.
  - destruct (float_to_fixed_point _ _) as [q|e]; cbn [bind]; [|split; reflexivity].
    rewrite decode_pack_kind, decode_pack.
    cbn [node_id left_child right_child].
    rewrite !byte_small by lia.
    split; [reflexivity|]. split; [reflexivity|]. split; [reflexivity|].
    assert (Hnl : ~ (Feature r = sentinel \/ (Left_Child r = 0 /\ Right_Child r = 0))).
    { rewrite <- row_is_leaf_spec, Hleaf. discriminate. }
    intuition lia.
Qed.

Lemma decode_encode_roundtrip_witness :
  match node_to_binary sample_internal with
  | Ok w =>
      node_id (decode_node w) = 0
      /\ left_child (decode_node w) = 1
      /\ right_child (decode_node w) = 2
      /\ (node_type (decode_node w) = Leaf <->
          (Left_Child sample_internal = 0 /\ Right_Child sample_internal = 0)
          \/ (Feature sample_internal = sentinel /\ Prediction sample_internal = 1))
  | Raise e =>
      row_is_leaf sample_internal = false
      /\ float_to_fixed_point (Threshold sample_internal)
           (dict_get feature_map (Feature sample_internal) 0) = Raise e
  end.
Proof. exact (decode_encode_roundtrip sample_internal eq_refl). Defined.

(** C2, the part that fails: a sentinel row with prediction 0 and a
    non-zero child is not decoded as a leaf. *)
Lemma sentinel_leaf_counterexample :
  Feature sentinel_row_with_child = sentinel
  /\ exists w, node_to_binary sentinel_row_with_child = Ok w
       /\ node_type (decode_node w) <> Leaf.
Proof.
  split; [reflexivity|].
  eexists. split; [reflexivity|]. vm_compute. discriminate.
Qed.

(** C2, amended.  A row with the sentinel feature is always encoded, and
    its word is decoded as a leaf exactly when its prediction is 1 or both
    children are 0 (as the 8-bit fields hold them); a row whose children
    are (0,0) is always encoded and decoded as a leaf, whatever its
    feature. *)
Theorem leaf_rows_after_roundtrip (r : node_row) :
  (Feature r = sentinel ->
   exists w, node_to_binary r = Ok w
     /\ (node_type (decode_node w) = Leaf <->
         Prediction r = 1
         \/ (Z.land (Left_Child r) 0xFF = 0 /\ Z.land (Right_Child r) 0xFF = 0)))
  /\ (Left_Child r = 0 -> Right_Child r = 0 ->
      exists w, node_to_binary r = Ok w /\ node_type (decode_node w) = Leaf).
Proof.
  split.
  - intros Hs.
    assert (Hleaf : row_is_leaf r = true) by (apply row_is_leaf_spec; now left).
    rewrite node_to_binary_unfold, Hleaf.
    eexists. split; [reflexivity|].
    rewrite decode_pack_kind.
    destruct (Z.eqb_spec (Prediction r) 1) as [E|E].
    + change (Z.land 1 0xFF) with 1. tauto.
    + change (Z.land 0 0xFF) with 0. intuition lia.
  - intros Hl Hr.
    assert (Hleaf : row_is_leaf r = true) by (apply row_is_leaf_spec; now right).
    rewrite node_to_binary_unfold, Hleaf.
    eexists. split; [reflexivity|].
    rewrite decode_pack_kind, Hl, Hr. right. split; reflexivity.
Qed.

Lemma leaf_rows_after_roundtrip_witness :
  (exists w, node_to_binary sample_leaf = Ok w
     /\ (node_type (decode_node w) = Leaf <->
         Prediction sample_leaf = 1
         \/ (Z.land (Left_Child sample_leaf) 0xFF = 0
             /\ Z.land (Right_Child sample_leaf) 0xFF = 0)))
  /\ (exists w, node_to_binary real_feature_no_children = Ok w
        /\ node_type (decode_node w) = Leaf).
Proof.
  split.
  - exact (proj1 (leaf_rows_after_roundtrip sample_leaf) eq_refl).
  - exact (proj2 (leaf_rows_after_roundtrip real_feature_no_children) eq_refl eq_refl).
Defined.

(** ** Rounding to the nearest integer, ties to even *)

Section HalfEven.

Import PyFloat.

Variable d : Z.
Hypothesis d_pos : 0 < d.

Lemma round_half_even_div_cases (n : Z) :
  round_half_even_div n d = n / d \/ round_half_even_div n d = n / d + 1.
Proof.
  unfold round_half_even_div.
  destruct (2 * (n mod d) ?= d); [destruct (Z.even (n / d))|..]; auto.
Qed.

Lemma round_half_even_div_mono (n1 n2 : Z) :
  n1 <= n2 -> round_half_even_div n1 d <= round_half_even_div n2 d.
Proof.
  intros Hle.
  assert (Hq : n1 / d <= n2 / d) by (apply Z.div_le_mono; lia).
  destruct (Z.eq_dec (n1 / d) (n2 / d)) as [E|E].
  - assert (Hr : n1 mod d <= n2 mod d).
    { rewrite !Z.mod_eq by lia. rewrite E. lia. }
    unfold round_half_even_div. rewrite E.
    destruct (Z.compare_spec (2 * (n1 mod d)) d),
             (Z.compare_spec (2 * (n2 mod d)) d);
      destruct (Z.even (n2 / d)); lia.
  - destruct (round_half_even_div_cases n1), (round_half_even_div_cases n2); lia.
Qed.

Lemma round_half_even_div_exact (a : Z) : round_half_even_div (a * d) d = a.
Proof.
  unfold round_half_even_div.
  rewrite Z.div_mul, Z.mod_mul by lia.
  destruct (Z.compare_spec (2 * 0) d); try lia. 
Qed.

Lemma round_half_even_div_scale (a c : Z) :
  0 < c -> round_half_even_div (a * c) (d * c) = round_half_even_div a d.
Proof.
  intros Hc. unfold round_half_even_div.
  rewrite Z.div_mul_cancel_r, Z.mul_mod_distr_r by lia.
  replace (2 * (a mod d * c)) with ((2 * (a mod d)) * c) by ring.
  rewrite <- Zmult_compare_compat_r by lia. reflexivity.
Qed.

Lemma round_half_even_div_opp (n : Z) :
  round_half_even_div (- n) d = - round_half_even_div n d.
Proof.
  unfold round_half_even_div.
  destruct (Z.eq_dec (n mod d) 0) as [E|E].
  - rewrite Z.div_opp_l_z, Z.mod_opp_l_z, E by (assumption || lia).
    destruct (Z.compare_spec (2 * 0) d); try lia.
  - rewrite Z.div_opp_l_nz, Z.mod_opp_l_nz by (assumption || lia).
    pose proof (Z.mod_pos_bound n d d_pos) as Hb.
    replace (- (n / d) - 1) with (- Z.succ (n / d)) by lia.
    rewrite Z.even_opp, Z.even_succ, <- Z.negb_even.
    destruct (Z.compare_spec (2 * (d - n mod d)) d),
             (Z.compare_spec (2 * (n mod d)) d);
      try lia; destruct (Z.even (n / d)); simpl; lia.
Qed.

End HalfEven.

(** ** Binary64 products with a power of two *)

Section Binary64.

Local Abbreviation fexp := (SpecFloat.fexp PyFloat.prec PyFloat.emax).
Local Abbreviation bounded := (SpecFloat.bounded PyFloat.prec PyFloat.emax).

Lemma fexp_eq (x : Z) : fexp x = Z.max (x - 53) (-1074).
Proof. reflexivity. Qed.

Lemma digits2_pos_size (m : positive) : digits2_pos m = Pos.size m.
Proof. induction m; simpl; congruence. Qed.

Lemma digits2_bounds (m : positive) :
  2 ^ (Zpos (digits2_pos m) - 1) <= Zpos m < 2 ^ Zpos (digits2_pos m).
Proof.
  rewrite digits2_pos_size.
  pose proof (Pos.size_gt m) as Hgt. pose proof (Pos.size_le m) as Hle.
  apply Pos2Z.pos_lt_pos in Hgt. apply Pos2Z.pos_le_pos in Hle.
  rewrite Pos2Z.inj_pow in Hgt, Hle.
  change (Zpos m~0) with (2 * Zpos m) in Hle.
  split; [|exact Hgt].
  replace (Zpos (Pos.size m)) with (Z.succ (Zpos (Pos.size m) - 1)) in Hle by lia.
  rewrite Z.pow_succ_r in Hle by lia. lia.
Qed.

Lemma digits2_unique (m : positive) (d : Z) :
  2 ^ (d - 1) <= Zpos m < 2 ^ d -> Zpos (digits2_pos m) = d.
Proof.
  intros [Hlo Hhi]. destruct (digits2_bounds m) as [Glo Ghi].
  set (d0 := Zpos (digits2_pos m)) in *.
  assert (0 < d).
  { destruct (Z.ltb_spec 0 d); [assumption|].
    rewrite (Z.pow_neg_r 2 (d - 1)) in Hlo by lia.
    destruct (Z.eq_dec d 0) as [->|]; [simpl in Hhi; lia|].
    rewrite Z.pow_neg_r in Hhi by lia. lia. }
  destruct (Z.lt_trichotomy d0 d) as [L|[E|G]]; [|exact E|].
  - assert (2 ^ d0 <= 2 ^ (d - 1)) by (apply Z.pow_le_mono_r; lia). lia.
  - assert (2 ^ d <= 2 ^ (d0 - 1)) by (apply Z.pow_le_mono_r; lia). lia.
Qed.

Lemma Zdigits2_mul_pow2 (m : positive) (j : Z) :
  0 <= j -> Zdigits2 (Zpos m * 2 ^ j) = Zpos (digits2_pos m) + j.
Proof.
  intros Hj. destruct (digits2_bounds m) as [Glo Ghi].
  assert (Hp : 0 < 2 ^ j) by (apply Z.pow_pos_nonneg; lia).
  destruct (Zpos m * 2 ^ j) as [|p|p] eqn:E; try lia.
  change (Zdigits2 (Zpos p)) with (Zpos (digits2_pos p)).
  apply digits2_unique. rewrite <- E.
  replace (Zpos (digits2_pos m) + j - 1) with (Zpos (digits2_pos m) - 1 + j) by lia.
  rewrite !Z.pow_add_r by lia. nia.
Qed.

Lemma iter_pos_nat {A : Type} (f : A -> A) (p : positive) (x : A) :
  iter_pos f p x = Nat.iter (Pos.to_nat p) f x.
Proof.
  revert x. induction p as [p IH|p IH|]; intros x; cbn [iter_pos].
  - rewrite !IH, Pos2Nat.inj_xI.
    replace (S (2 * Pos.to_nat p))%nat with (Pos.to_nat p + (Pos.to_nat p + 1))%nat by lia.
    rewrite !Nat.iter_add. reflexivity.
  - rewrite !IH, Pos2Nat.inj_xO.
    replace (2 * Pos.to_nat p)%nat with (Pos.to_nat p + Pos.to_nat p)%nat by lia.
    rewrite Nat.iter_add. reflexivity.
  - reflexivity.
Qed.

Lemma shr_1_double (a : Z) : 0 < a -> shr_1 (exact_record (2 * a)) = exact_record a.
Proof. destruct a; try lia. reflexivity. Qed.

Lemma shr_1_iter (n : nat) (a : Z) :
  0 < a -> Nat.iter n shr_1 (exact_record (a * 2 ^ Z.of_nat n)) = exact_record a.
Proof.
  revert a. induction n as [|n IH]; intros a Ha.
  - simpl. now rewrite Z.mul_1_r.
  - rewrite Nat2Z.inj_succ, Z.pow_succ_r by lia.
    replace (a * (2 * 2 ^ Z.of_nat n)) with ((2 * a) * 2 ^ Z.of_nat n) by ring.
    rewrite Nat.iter_succ, IH by lia. now apply shr_1_double.
Qed.

Lemma shr_exact (m : positive) (j n e : Z) :
  0 <= n <= j ->
  shr (exact_record (Zpos m * 2 ^ j)) e n = (exact_record (Zpos m * 2 ^ (j - n)), e + n).
Proof.
  intros Hn. destruct n as [|p|p]; try lia.
  - simpl. now rewrite Z.sub_0_r, Z.add_0_r.
  - unfold shr. rewrite iter_pos_nat. f_equal.
    replace (Zpos m * 2 ^ j)
      with ((Zpos m * 2 ^ (j - Zpos p)) * 2 ^ Z.of_nat (Pos.to_nat p)).
    + apply shr_1_iter. apply Z.mul_pos_pos; [lia|]. apply Z.pow_pos_nonneg; lia.
    + rewrite positive_nat_Z, <- Z.mul_assoc, <- Z.pow_add_r by lia.
      do 2 f_equal. lia.
Qed.

Lemma shr_fexp_exact (m : positive) (j ex : Z) :
  0 <= j ->
  0 <= fexp (Zpos (digits2_pos m) + j + ex) - ex <= j ->
  shr_fexp PyFloat.prec PyFloat.emax (Zpos m * 2 ^ j) ex loc_Exact
  = (exact_record (Zpos m * 2 ^ (j - (fexp (Zpos (digits2_pos m) + j + ex) - ex))),
     fexp (Zpos (digits2_pos m) + j + ex)).
Proof.
  intros Hj Hn. unfold shr_fexp.
  rewrite Zdigits2_mul_pow2 by assumption.
  change (shr_record_of_loc (Zpos m * 2 ^ j) loc_Exact)
    with (exact_record (Zpos m * 2 ^ j)).
  rewrite shr_exact by assumption. f_equal. lia.
Qed.

Lemma bounded_spec (m : positive) (e : Z) :
  bounded m e = true ->
  -1074 <= e <= 971 /\ Zpos (digits2_pos m) <= 53
  /\ (e = -1074 \/ Zpos (digits2_pos m) = 53).
Proof.
  unfold SpecFloat.bounded, canonical_mantissa.
  rewrite andb_true_iff, Z.eqb_eq, Z.leb_le, fexp_eq.
  change (PyFloat.emax - PyFloat.prec) with 971. lia.
Qed.

(** Multiplying a binary64 number by a power of two is exact: only the
    exponent moves (a subnormal is renormalized), and the product is an
    infinity once it leaves the range. *)
Lemma mul_pow2_finite (s : bool) (m : positive) (e k : Z) :
  bounded m e = true -> 0 <= k ->
  PyFloat.mul (S754_finite s m e) (S754_finite false 4503599627370496 (k - 52))
  = let e' := Z.max (Zpos (digits2_pos m) + e + k - 53) (-1074) in
    if e' <=? 971
    then S754_finite s (Z.to_pos (Zpos m * 2 ^ (e + k - e'))) e'
    else S754_infinity s.
Proof.
  intros Hb Hk. apply bounded_spec in Hb. destruct Hb as (He & Hd & Hc).
  pose proof (Pos2Z.is_pos (digits2_pos m)) as Hd0.
  unfold PyFloat.mul, SFmul. rewrite xorb_false_r.
  change (Zpos (m * 4503599627370496)) with (Zpos m * 2 ^ 52).
  unfold binary_round_aux.
  rewrite shr_fexp_exact by (rewrite ?fexp_eq; lia).
  cbv beta iota.
  change (shr_m (exact_record ?x)) with x.
  change (loc_of_shr_record (exact_record ?x)) with loc_Exact.
  cbn [round_nearest_even].
  set (e1 := fexp (Zpos (digits2_pos m) + 52 + (e + (k - 52)))).
  set (j1 := 52 - (e1 - (e + (k - 52)))).
  assert (He1 : e1 = Z.max (Zpos (digits2_pos m) + e + k - 53) (-1074)).
  { unfold e1. rewrite fexp_eq. f_equal. lia. }
  assert (Hj1 : 0 <= j1) by (unfold j1; lia).
  assert (Hf : fexp (Zpos (digits2_pos m) + j1 + e1) = e1).
  { rewrite fexp_eq. unfold j1. lia. }
  rewrite shr_fexp_exact by (rewrite ?Hf; lia).
  rewrite Hf. cbv beta iota.
  change (shr_m (exact_record ?x)) with x.
  replace (j1 - (e1 - e1)) with j1 by lia.
  cbv zeta. rewrite <- He1.
  replace (e + k - e1) with j1 by (unfold j1; lia).
  change (PyFloat.emax - PyFloat.prec) with 971.
  assert (Hpos : 0 < Zpos m * 2 ^ j1).
  { apply Z.mul_pos_pos; [lia|]. apply Z.pow_pos_nonneg; lia. }
  destruct (Zpos m * 2 ^ j1) as [|p|p]; try lia.
  reflexivity.
Qed.

End Binary64.

(** ** Threshold quantization *)

Section Quantize.

Local Abbreviation valid := (valid_binary PyFloat.prec PyFloat.emax).
Local Abbreviation bounded := (SpecFloat.bounded PyFloat.prec PyFloat.emax).

Lemma pow2_pos (n : Z) : 0 <= n -> 0 < 2 ^ n.
Proof. intros. apply Z.pow_pos_nonneg; lia. Qed.

Lemma cond_Zopp_round (s : bool) (n d : Z) :
  0 < d ->
  cond_Zopp s (PyFloat.round_half_even_div n d)
  = PyFloat.round_half_even_div (cond_Zopp s n) d.
Proof.
  intros Hd. destruct s; simpl; [|reflexivity].
  symmetry. now apply round_half_even_div_opp.
Qed.

Lemma round_half_even_pow2_scaled (m e : Z) :
  -1074 <= e ->
  PyFloat.round_half_even_pow2 m e
  = PyFloat.round_half_even_div (m * 2 ^ (e + 1074)) (2 ^ 1074).
Proof.
  intros He. unfold PyFloat.round_half_even_pow2.
  destruct (Z.leb_spec 0 e) as [H|H].
  - rewrite Z.pow_add_r, Z.mul_assoc by lia.
    symmetry. apply round_half_even_div_exact. now apply pow2_pos.
  - replace (2 ^ 1074) with (2 ^ (- e) * 2 ^ (e + 1074)).
    + symmetry. apply round_half_even_div_scale; apply pow2_pos; lia.
    + rewrite <- Z.pow_add_r by lia. f_equal. lia.
Qed.

(** [round] of a finite float is the half-even rounding of its value. *)
Lemma round_finite (x : spec_float) :
  valid x = true -> is_finite x = true ->
  PyFloat.round x = Ok (PyFloat.round_half_even_div (scaled_int x) (2 ^ 1074)).
Proof.
  intros Hv Hf. destruct x as [s|s| |s m e]; try discriminate.
  - reflexivity.
  - apply bounded_spec in Hv. unfold PyFloat.round, scaled_int.
    rewrite round_half_even_pow2_scaled by lia.
    rewrite cond_Zopp_round by (apply pow2_pos; lia). reflexivity.
Qed.

Lemma abs_cond_Zopp (s : bool) (n : Z) : Z.abs (cond_Zopp s n) = Z.abs n.
Proof. destruct s; simpl; [apply Z.abs_opp|reflexivity]. Qed.

Lemma cond_Zopp_mul (s : bool) (a b : Z) : cond_Zopp s a * b = cond_Zopp s (a * b).
Proof. destruct s; simpl; lia. Qed.

(** The product of a finite float and [2^k]: exact when it stays below
    [2^1024], an infinity otherwise. *)
Lemma mul_pow2_scaled (x : spec_float) (k : Z) :
  valid x = true -> is_finite x = true -> 0 <= k ->
  let p := PyFloat.mul x (S754_finite false 4503599627370496 (k - 52)) in
  if Z.abs (scaled_int x) * 2 ^ k <? 2 ^ (1024 + 1074)
  then valid p = true /\ is_finite p = true /\ scaled_int p = scaled_int x * 2 ^ k
  else exists s, p = S754_infinity s.
Proof.
  intros Hv Hf Hk p. destruct x as [s|s| |s m e]; try discriminate.
  - subst p. simpl. repeat split; reflexivity.
  - subst p. rewrite mul_pow2_finite by assumption.
    cbv zeta. apply bounded_spec in Hv. destruct Hv as (He & Hd & Hc).
    destruct (digits2_bounds m) as [Glo Ghi].
    pose proof (Pos2Z.is_pos (digits2_pos m)) as Hd0.
    set (d := Zpos (digits2_pos m)) in *.
    set (e1 := Z.max (d + e + k - 53) (-1074)).
    unfold scaled_int at 1. rewrite abs_cond_Zopp.
    rewrite Z.abs_eq
      by (apply Z.mul_nonneg_nonneg; [lia|apply Z.lt_le_incl, pow2_pos; lia]).
    rewrite <- Z.mul_assoc, <- Z.pow_add_r by lia.
    assert (Hm : 0 < Zpos m * 2 ^ (e + k - e1)).
    { apply Z.mul_pos_pos; [lia|]. apply pow2_pos. lia. }
    destruct (Z.leb_spec e1 971) as [Hle|Hgt].
    + assert (Hlt : Zpos m * 2 ^ (e + 1074 + k) < 2 ^ (1024 + 1074)).
      { apply Z.lt_le_trans with (2 ^ d * 2 ^ (e + 1074 + k)).
        - apply Z.mul_lt_mono_pos_r; [apply pow2_pos; lia|assumption].
        - rewrite <- Z.pow_add_r by lia. apply Z.pow_le_mono_r; lia. }
      apply Z.ltb_lt in Hlt. rewrite Hlt.
      split; [|split; [reflexivity|]].
      * unfold valid_binary, SpecFloat.bounded, canonical_mantissa.
        apply andb_true_iff. split; [apply Z.eqb_eq|apply Z.leb_le; exact Hle].
        rewrite fexp_eq.
        assert (Hdig : Zpos (digits2_pos (Z.to_pos (Zpos m * 2 ^ (e + k - e1))))
                       = d + (e + k - e1)).
        { unfold d. rewrite <- (Zdigits2_mul_pow2 m (e + k - e1)) by lia.
          destruct (Zpos m * 2 ^ (e + k - e1)) as [|q|q]; try lia. reflexivity. }
        rewrite Hdig. lia.
      * unfold scaled_int. rewrite Z2Pos.id by assumption.
        rewrite cond_Zopp_mul. f_equal.
        rewrite <- !Z.mul_assoc, <- !Z.pow_add_r by lia. do 2 f_equal. lia.
    + assert (Hge : 2 ^ (1024 + 1074) <= Zpos m * 2 ^ (e + 1074 + k)).
      { apply Z.le_trans with (2 ^ (d - 1) * 2 ^ (e + 1074 + k)).
        - rewrite <- Z.pow_add_r by lia. apply Z.pow_le_mono_r; lia.
        - apply Z.mul_le_mono_nonneg_r; [apply Z.lt_le_incl, pow2_pos; lia|assumption]. }
      apply Z.ltb_ge in Hge. rewrite Hge. now exists s.
Qed.

Lemma fraction_bits_cases (fid : Z) :
  fraction_bits fid = 13 \/ fraction_bits fid = 16 \/ fraction_bits fid = 19
  \/ fraction_bits fid = 23 \/ fraction_bits fid = 27.
Proof.
  destruct fid as [|p|p]; simpl; auto.
  do 3 (destruct p as [p|p|]; simpl; auto).
Qed.

Lemma select_format_fraction_bits (fid : Z) :
  snd (select_format fid) = fraction_bits fid.
Proof.
  unfold select_format.
  repeat match goal with
  | |- context [fid =? ?n] => destruct (Z.eqb_spec fid n) as [->|?]; [reflexivity|]
  end.
  destruct fid as [|p|p]; try reflexivity; try lia.
  do 3 (destruct p as [p|p|]; try reflexivity; try lia).
Qed.

Lemma of_int_pow2 (fid : Z) :
  PyFloat.of_int (2 ^ fraction_bits fid)
  = S754_finite false 4503599627370496 (fraction_bits fid - 52).
Proof.
  destruct (fraction_bits_cases fid) as [E|[E|[E|[E|E]]]]; rewrite E;
    vm_compute; reflexivity.
Qed.

Lemma clamp_max_min (x : Z) : Z.max 0 (Z.min (2 ^ 27 - 1) x) = clamp x 0 (2 ^ 27 - 1).
Proof.
  unfold clamp. change (2 ^ 27 - 1) with 134217727.
  destruct (Z.ltb_spec x 0), (Z.ltb_spec 134217727 x); lia.
Qed.

Lemma clamp_range (x : Z) : 0 <= clamp x 0 (2 ^ 27 - 1) < 2 ^ 27.
Proof.
  unfold clamp. change (2 ^ 27 - 1) with 134217727. change (2 ^ 27) with 134217728.
  destruct (Z.ltb_spec x 0), (Z.ltb_spec 134217727 x); lia.
Qed.

Lemma clamp_mono (x y : Z) : x <= y -> clamp x 0 (2 ^ 27 - 1) <= clamp y 0 (2 ^ 27 - 1).
Proof.
  unfold clamp. change (2 ^ 27 - 1) with 134217727.
  destruct (Z.ltb_spec x 0), (Z.ltb_spec 134217727 x),
    (Z.ltb_spec y 0), (Z.ltb_spec 134217727 y); lia.
Qed.

Lemma clamp_masked (x : Z) :
  Z.land (clamp x 0 (2 ^ 27 - 1)) (Z.ones 27) = clamp x 0 (2 ^ 27 - 1).
Proof. apply mask_small; [lia|apply clamp_range]. Qed.

Lemma float_to_fixed_point_float (value : spec_float) (fid : Z) :
  float_to_fixed_point value fid = quantize_float value fid.
Proof.
  unfold float_to_fixed_point, quantize_float.
  pose proof (select_format_fraction_bits fid) as Hf.
  destruct (select_format fid) as [ib fb]. simpl in Hf. subst fb.
  destruct (PyFloat.round _) as [r|e]; [|reflexivity].
  cbn [bind]. now rewrite clamp_max_min.
Qed.

(** On a finite binary64 value the float computation of [quantize] is the
    exact one while the scaled value stays below [2^1024]; beyond, the
    product is an infinity and [round] raises. *)
Lemma quantize_float_exact (value : spec_float) (fid : Z) :
  valid value = true -> is_finite value = true ->
  quantize_float value fid
  = if scales_in_range value fid then Ok (quantize_exact value fid)
    else Raise OverflowError.
Proof.
  intros Hv Hf. unfold quantize_float, scales_in_range, quantize_exact.
  rewrite of_int_pow2.
  assert (Hk : 0 <= fraction_bits fid)
    by (destruct (fraction_bits_cases fid) as [E|[E|[E|[E|E]]]]; lia).
  pose proof (mul_pow2_scaled value (fraction_bits fid) Hv Hf Hk) as H.
  cbv zeta in H.
  destruct (Z.abs (scaled_int value) * 2 ^ fraction_bits fid <? 2 ^ (1024 + 1074)).
  - destruct H as (Hv' & Hf' & Hs).
    rewrite (round_finite _ Hv' Hf'), Hs. reflexivity.
  - destruct H as [s ->]. reflexivity.
Qed.

Lemma quantize_float_not_finite (value : spec_float) (fid : Z) :
  is_finite value = false -> exists e, quantize_float value fid = Raise e.
Proof.
  intros Hf. unfold quantize_float. rewrite of_int_pow2.
  destruct value as [s|s| |s m e]; try discriminate.
  - now exists OverflowError.
  - now exists ValueError.
Qed.

(** What a successful call tells about its argument. *)
Lemma float_to_fixed_point_ok (value : spec_float) (fid q : Z) :
  valid value = true ->
  float_to_fixed_point value fid = Ok q ->
  is_finite value = true /\ scales_in_range value fid = true
  /\ q = quantize_exact value fid.
Proof.
  intros Hv Hq. rewrite float_to_fixed_point_float in Hq.
  destruct (is_finite value) eqn:Hf.
  - rewrite quantize_float_exact in Hq by assumption.
    destruct (scales_in_range value fid); [|discriminate].
    injection Hq as <-. auto.
  - destruct (quantize_float_not_finite value fid Hf) as [e He].
    rewrite He in Hq. discriminate.
Qed.

(** The order of finite floats is the order of their values. *)
Lemma scaled_lt_of_exponent_lt (m1 m2 : positive) (e1 e2 : Z) :
  bounded m1 e1 = true -> bounded m2 e2 = true -> e1 < e2 ->
  Zpos m1 * 2 ^ (e1 + 1074) < Zpos m2 * 2 ^ (e2 + 1074).
Proof.
  intros H1 H2 Hlt.
  apply bounded_spec in H1. apply bounded_spec in H2.
  destruct H1 as (He1 & Hd1 & _). destruct H2 as (He2 & _ & Hc2).
  assert (Hd2 : Zpos (digits2_pos m2) = 53) by lia.
  destruct (digits2_bounds m1) as [_ Hhi]. destruct (digits2_bounds m2) as [Hlo _].
  rewrite Hd2 in Hlo.
  assert (Hm1 : Zpos m1 < 2 ^ 53).
  { apply Z.lt_le_trans with (2 ^ Zpos (digits2_pos m1)); [assumption|].
    apply Z.pow_le_mono_r; lia. }
  apply Z.lt_le_trans with (2 ^ 53 * 2 ^ (e1 + 1074)).
  - apply Z.mul_lt_mono_pos_r; [apply pow2_pos; lia|assumption].
  - apply Z.le_trans with (2 ^ (53 - 1) * 2 ^ (e2 + 1074)).
    + rewrite <- !Z.pow_add_r by lia. apply Z.pow_le_mono_r; lia.
    + apply Z.mul_le_mono_nonneg_r; [apply Z.lt_le_incl, pow2_pos; lia|assumption].
Qed.

Lemma SFleb_scaled_int (x y : spec_float) :
  valid x = true -> valid y = true ->
  is_finite x = true -> is_finite y = true ->
  SFleb x y = true -> scaled_int x <= scaled_int y.
Proof.
  intros Hx Hy Fx Fy Hle.
  destruct x as [sx|sx| |sx mx ex]; try discriminate;
  destruct y as [sy|sy| |sy my ey]; try discriminate.
  - unfold SFleb, SFcompare in Hle. destruct sy; [discriminate|].
    cbn [scaled_int cond_Zopp].
    apply Z.mul_nonneg_nonneg; [lia|]. apply Z.lt_le_incl, pow2_pos.
    apply bounded_spec in Hy. lia.
  - unfold SFleb, SFcompare in Hle. destruct sx; [|discriminate].
    cbn [scaled_int cond_Zopp].
    assert (0 <= Zpos mx * 2 ^ (ex + 1074)).
    { apply Z.mul_nonneg_nonneg; [lia|]. apply Z.lt_le_incl, pow2_pos.
      apply bounded_spec in Hx. lia. }
    lia.
  - cbn [valid_binary] in Hx, Hy.
    assert (Px : 0 < Zpos mx * 2 ^ (ex + 1074)).
    { apply Z.mul_pos_pos; [lia|]. apply pow2_pos.
      apply bounded_spec in Hx. lia. }
    assert (Py : 0 < Zpos my * 2 ^ (ey + 1074)).
    { apply Z.mul_pos_pos; [lia|]. apply pow2_pos.
      apply bounded_spec in Hy. lia. }
    unfold SFleb, SFcompare in Hle. cbn [scaled_int].
    destruct sx, sy; cbn [cond_Zopp]; try lia; try discriminate.
    + destruct (Z.compare_spec ex ey) as [E|L|G]; try discriminate.
      * subst ey. change (Pos.compare_cont Eq mx my) with (Pos.compare mx my) in Hle.
        destruct (Pos.compare_spec mx my) as [E|L|G]; try discriminate.
        -- subst my. lia.
        -- apply Pos2Z.pos_lt_pos in G.
           assert (0 < 2 ^ (ex + 1074)) by (apply pow2_pos; apply bounded_spec in Hx; lia).
           nia.
      * pose proof (scaled_lt_of_exponent_lt my mx ey ex Hy Hx G). lia.
    + destruct (Z.compare_spec ex ey) as [E|L|G]; try discriminate.
      * subst ey. change (Pos.compare_cont Eq mx my) with (Pos.compare mx my) in Hle.
        destruct (Pos.compare_spec mx my) as [E|L|G]; try discriminate.
        -- subst my. lia.
        -- apply Pos2Z.pos_lt_pos in L.
           assert (0 < 2 ^ (ex + 1074)) by (apply pow2_pos; apply bounded_spec in Hx; lia).
           nia.
      * pose proof (scaled_lt_of_exponent_lt mx my ex ey Hx Hy L). lia.
Qed.

Lemma quantize_exact_mono (x y : spec_float) (fid : Z) :
  scaled_int x <= scaled_int y -> quantize_exact x fid <= quantize_exact y fid.
Proof.
  intros Hle. unfold quantize_exact. rewrite !clamp_masked.
  apply clamp_mono. apply round_half_even_div_mono; [apply pow2_pos; lia|].
  apply Z.mul_le_mono_nonneg_r; [|assumption].
  apply Z.lt_le_incl, pow2_pos.
  destruct (fraction_bits_cases fid) as [E|[E|[E|[E|E]]]]; lia.
Qed.

End Quantize.

(** C3, the part that fails: for the finite value [1e308] the formula of
    the contract has the value [2^27 - 1] (the scaled rounding is clamped),
    and the call raises [OverflowError] instead of returning it. *)
Lemma quantize_formula_counterexample :
  is_binary64 float_1e308 = true
  /\ is_finite float_1e308 = true
  /\ quantize_exact float_1e308 0 = 2 ^ 27 - 1
  /\ float_to_fixed_point float_1e308 0 = Raise OverflowError.
Proof.
  split; [reflexivity|]. split; [reflexivity|].
  split; vm_compute; reflexivity.
Qed.

(** C3, amended.  For every feature id, [quantize] returns exactly on the
    finite values whose scaled product [value * 2^fraction_bits] stays
    within the binary64 range (magnitude below [2^1024]), and what it
    returns there is the formula of the contract computed exactly:
    [value * 2^fraction_bits] rounded to the nearest integer (ties to
    even), clamped into [0, 2^27 - 1] and masked to 27 bits, with 16, 23,
    19, 19, 16 and 27 fraction bits for the features 0 to 5 and 13 for any
    other id.  On every other value it raises instead of saturating:
    [ValueError] on NaN, [OverflowError] on an infinity and on a finite
    value above the range. *)
Theorem quantize_contract (value : spec_float) (fid : Z) :
  is_binary64 value = true ->
  float_to_fixed_point value fid
  = if is_finite value && scales_in_range value fid
    then Ok (quantize_exact value fid)
    else Raise match value with
               | S754_nan => ValueError
               | _ => OverflowError
               end.
Proof.
  intros Hv. rewrite float_to_fixed_point_float.
  destruct (is_finite value) eqn:Hf; cbn [andb].
  - rewrite quantize_float_exact by assumption.
    destruct (scales_in_range value fid); [reflexivity|].
    destruct value; try reflexivity; discriminate Hf.
  - unfold quantize_float. rewrite of_int_pow2.
    destruct value as [s|s| |s m e]; try discriminate Hf; reflexivity.
Qed.

Lemma quantize_contract_witness :
  float_to_fixed_point (PyFloat.lit 203 (-1)) 0
  = (if is_finite (PyFloat.lit 203 (-1)) && scales_in_range (PyFloat.lit 203 (-1)) 0
     then Ok (quantize_exact (PyFloat.lit 203 (-1)) 0)
     else Raise match PyFloat.lit 203 (-1) with
                | S754_nan => ValueError
                | _ => OverflowError
                end)
  /\ quantize_exact (PyFloat.lit 203 (-1)) 0 = 6651904.
Proof.
  split.
  - exact (quantize_contract (PyFloat.lit 203 (-1)) 0 eq_refl).
  - vm_compute. reflexivity.
Defined.

(** Saturation where the product is in range: a rounding above
    [2^27 - 1] gives [2^27 - 1], a negative value gives [0]. *)
Lemma quantize_saturates_high (value : spec_float) (fid : Z) :
  is_binary64 value = true -> is_finite value = true ->
  scales_in_range value fid = true ->
  2 ^ 27 - 1 < PyFloat.round_half_even_div
                 (scaled_int value * 2 ^ fraction_bits fid) (2 ^ 1074) ->
  float_to_fixed_point value fid = Ok (2 ^ 27 - 1).
Proof.
  intros Hv Hf Hr Hbig.
  rewrite float_to_fixed_point_float, quantize_float_exact, Hr by assumption.
  f_equal. unfold quantize_exact. rewrite clamp_masked. unfold clamp.
  change (2 ^ 27 - 1) with 134217727 in *.
  destruct (Z.ltb_spec (PyFloat.round_half_even_div
              (scaled_int value * 2 ^ fraction_bits fid) (2 ^ 1074)) 0); [lia|].
  destruct (Z.ltb_spec 134217727 (PyFloat.round_half_even_div
              (scaled_int value * 2 ^ fraction_bits fid) (2 ^ 1074))); lia.
Qed.

Lemma negative_scaled_int (value : spec_float) :
  is_finite value = true -> is_negative value = true -> scaled_int value <= 0.
Proof.
  intros Hf Hn. destruct value as [s|s| |s m e]; try discriminate.
  unfold is_negative, SFltb, SFcompare in Hn.
  destruct s; [|discriminate]. cbn [scaled_int cond_Zopp].
  pose proof (Z.pow_nonneg 2 (e + 1074)). nia.
Qed.

Lemma quantize_negative (value : spec_float) (fid : Z) :
  is_binary64 value = true -> is_finite value = true ->
  scales_in_range value fid = true -> is_negative value = true ->
  float_to_fixed_point value fid = Ok 0.
Proof.
  intros Hv Hf Hr Hn.
  rewrite float_to_fixed_point_float, quantize_float_exact, Hr by assumption.
  f_equal. pose proof (negative_scaled_int value Hf Hn) as Hs.
  pose proof (quantize_exact_mono value (S754_zero false) fid Hs) as Hm.
  change (quantize_exact (S754_zero false) fid) with 0 in Hm.
  unfold quantize_exact in *. rewrite clamp_masked in *.
  pose proof (clamp_range (PyFloat.round_half_even_div
                (scaled_int value * 2 ^ fraction_bits fid) (2 ^ 1074))).
  lia.
Qed.

(** [1e308] and [-1e308] are finite numbers whose scaled product
    overflows to an infinity for every feature id: [round] raises
    [OverflowError] before the clamp is reached. *)
Lemma quantize_raises_on_1e308 (fid : Z) :
  float_to_fixed_point float_1e308 fid = Raise OverflowError
  /\ float_to_fixed_point (SFopp float_1e308) fid = Raise OverflowError.
Proof.
  rewrite !float_to_fixed_point_float. unfold quantize_float.
  destruct (fraction_bits_cases fid) as [E|[E|[E|[E|E]]]]; rewrite E;
    split; vm_compute; reflexivity.
Qed.

(** C4, the part that fails: the finite value [1e308] makes the call
    raise instead of returning [2^27 - 1], and the negative value
    [-1e308] makes it raise instead of returning [0]. *)
Lemma quantize_never_raises_counterexample :
  is_binary64 float_1e308 = true
  /\ is_finite float_1e308 = true
  /\ float_to_fixed_point float_1e308 5 = Raise OverflowError
  /\ is_negative (SFopp float_1e308) = true
  /\ float_to_fixed_point (SFopp float_1e308) 5 = Raise OverflowError.
Proof. repeat split; vm_compute; reflexivity. Qed.

(** C4, amended.  For every feature id and every finite value whose
    scaled product stays within the binary64 range, [quantize] returns, the
    result lies in [0, 2^27 - 1], a scaled rounding above [2^27 - 1] gives
    exactly [2^27 - 1] and a negative value gives exactly [0]. *)
Theorem quantize_saturation (value : spec_float) (fid : Z) :
  is_binary64 value = true -> is_finite value = true ->
  scales_in_range value fid = true ->
  exists q,
    float_to_fixed_point value fid = Ok q
    /\ 0 <= q <= 2 ^ 27 - 1
    /\ (2 ^ 27 - 1 < PyFloat.round_half_even_div
                       (scaled_int value * 2 ^ fraction_bits fid) (2 ^ 1074) ->
        q = 2 ^ 27 - 1)
    /\ (is_negative value = true -> q = 0).
Proof.
  intros Hv Hf Hr. exists (quantize_exact value fid).
  assert (Hq : float_to_fixed_point value fid = Ok (quantize_exact value fid)).
  { rewrite float_to_fixed_point_float, quantize_float_exact by assumption.
    now rewrite Hr. }
  split; [exact Hq|]. split; [|split].
  - unfold quantize_exact. rewrite clamp_masked.
    pose proof (clamp_range (PyFloat.round_half_even_div
                  (scaled_int value * 2 ^ fraction_bits fid) (2 ^ 1074))).
    lia.
  - intros Hbig.
    pose proof (quantize_saturates_high value fid Hv Hf Hr Hbig) as E.
    rewrite Hq in E. now injection E.
  - intros Hn.
    pose proof (quantize_negative value fid Hv Hf Hr Hn) as E.
    rewrite Hq in E. now injection E.
Qed.

Lemma quantize_saturation_witness :
  (exists q, float_to_fixed_point (PyFloat.lit 5000 0) 0 = Ok q
     /\ 0 <= q <= 2 ^ 27 - 1
     /\ (2 ^ 27 - 1 < PyFloat.round_half_even_div
                        (scaled_int (PyFloat.lit 5000 0) * 2 ^ fraction_bits 0)
                        (2 ^ 1074) ->
         q = 2 ^ 27 - 1)
     /\ (is_negative (PyFloat.lit 5000 0) = true -> q = 0))
  /\ (exists q, float_to_fixed_point (PyFloat.lit (-3) (-1)) 5 = Ok q
     /\ 0 <= q <= 2 ^ 27 - 1
     /\ (2 ^ 27 - 1 < PyFloat.round_half_even_div
                        (scaled_int (PyFloat.lit (-3) (-1)) * 2 ^ fraction_bits 5)
                        (2 ^ 1074) ->
         q = 2 ^ 27 - 1)
     /\ (is_negative (PyFloat.lit (-3) (-1)) = true -> q = 0)).
Proof.
  split.
  - exact (quantize_saturation (PyFloat.lit 5000 0) 0 eq_refl eq_refl eq_refl).
  - exact (quantize_saturation (PyFloat.lit (-3) (-1)) 5 eq_refl eq_refl eq_refl).
Defined.

(** C5.  For a fixed feature id [quantize] is non-decreasing: whenever it
    returns on two floats [v1 <= v2], the first result is at most the
    second.  (It returns exactly on the finite floats whose scaled product
    stays in range, see [quantize_contract].) *)
Theorem quantize_monotone (v1 v2 : spec_float) (fid q1 q2 : Z) :
  is_binary64 v1 = true -> is_binary64 v2 = true ->
  SFleb v1 v2 = true ->
  float_to_fixed_point v1 fid = Ok q1 ->
  float_to_fixed_point v2 fid = Ok q2 ->
  q1 <= q2.
Proof.
  intros Hv1 Hv2 Hle H1 H2.
  apply float_to_fixed_point_ok in H1; [|assumption].
  apply float_to_fixed_point_ok in H2; [|assumption].
  destruct H1 as (Hf1 & _ & ->). destruct H2 as (Hf2 & _ & ->).
  apply quantize_exact_mono. now apply SFleb_scaled_int.
Qed.

Lemma quantize_monotone_witness : 786432 <= 53215232.
Proof.
  apply (quantize_monotone (PyFloat.lit 3 (-1)) (PyFloat.lit 203 (-1)) 2);
    vm_compute; reflexivity.
Defined.

(** ** Feature extraction *)

Section Extractor.

Variable self : converter.
Variable arbitration_id : arb_id.
Variable data_field : string.

(** The two outcomes of a call: an exception of the field parsing, which
    leaves the state alone, or a record whose [time_delta] and new state
    are those of the [time_delta] block. *)
Lemma convert_single_cases (timestamp : option spec_float) :
  (exists e, convert_single self arbitration_id data_field timestamp = (Raise e, self))
  \/ (exists f,
        convert_single self arbitration_id data_field timestamp
          = (Ok f, snd (compute_time_delta self timestamp))
        /\ time_delta f = fst (compute_time_delta self timestamp)).
Proof.
  unfold convert_single.
  destruct (parse_arb_id arbitration_id) as [arb|e]; [|left; now exists e].
  cbv zeta.
  destruct (if (2 <=? String.length (clean_data data_field))%nat
            then PyInt.int16 (PyStr.first_n 2 (clean_data data_field))
            else Ok 0) as [fb|e]; [|left; now exists e].
  destruct (if (2 <=? String.length (clean_data data_field))%nat
            then PyInt.int16 (PyStr.last_n 2 (clean_data data_field))
            else Ok 0) as [lb|e]; [|left; now exists e].
  destruct (compute_byte_sum (clean_data data_field)) as [bs|e]; [|left; now exists e].
  right. destruct (compute_time_delta self timestamp) as [delta self'].
  eexists. split; reflexivity.
Qed.

End Extractor.

(** Whether a call raises depends on the record only. *)
Lemma convert_single_parses (a : arb_id) (d : string) :
  record_parses a d = true ->
  forall (self : converter) (timestamp : option spec_float),
  exists f,
    convert_single self a d timestamp = (Ok f, snd (compute_time_delta self timestamp))
    /\ time_delta f = fst (compute_time_delta self timestamp).
Proof.
  unfold record_parses, convert_single. intros H self timestamp.
  destruct (parse_arb_id a) as [arb|e]; [|discriminate].
  cbv zeta in *.
  destruct (if (2 <=? String.length (clean_data d))%nat
            then PyInt.int16 (PyStr.first_n 2 (clean_data d))
            else Ok 0) as [fb|e]; [|discriminate].
  destruct (if (2 <=? String.length (clean_data d))%nat
            then PyInt.int16 (PyStr.last_n 2 (clean_data d))
            else Ok 0) as [lb|e]; [|discriminate].
  destruct (compute_byte_sum (clean_data d)) as [bs|e]; [|discriminate].
  destruct (compute_time_delta self timestamp) as [delta self'].
  eexists. split; reflexivity.
Qed.

Lemma convert_single_raises (a : arb_id) (d : string) :
  record_parses a d = false ->
  forall (self : converter) (timestamp : option spec_float),
  exists e, convert_single self a d timestamp = (Raise e, self).
Proof.
  unfold record_parses, convert_single. intros H self timestamp.
  destruct (parse_arb_id a) as [arb|e]; [|now exists e].
  cbv zeta in *.
  destruct (if (2 <=? String.length (clean_data d))%nat
            then PyInt.int16 (PyStr.first_n 2 (clean_data d))
            else Ok 0) as [fb|e]; [|now exists e].
  destruct (if (2 <=? String.length (clean_data d))%nat
            then PyInt.int16 (PyStr.last_n 2 (clean_data d))
            else Ok 0) as [lb|e]; [|now exists e].
  destruct (compute_byte_sum (clean_data d)) as [bs|e]; [|now exists e].
  discriminate.
Qed.

(** C8.  On a fresh converter, three records that parse, with the
    timestamps 100.0, 99.0 and 101.5 in this order, get the time deltas
    0.0, 0.0 and 1.0; after each of them [last_timestamp] is the timestamp
    of that record. *)
Theorem time_delta_clamping (a1 a2 a3 : arb_id) (d1 d2 d3 : string) :
  record_parses a1 d1 = true ->
  record_parses a2 d2 = true ->
  record_parses a3 d3 = true ->
  exists f1 f2 f3,
    convert_single new_converter a1 d1 (Some ts_100)
      = (Ok f1, {| last_timestamp := Some ts_100 |})
    /\ time_delta f1 = zero_float
    /\ convert_single {| last_timestamp := Some ts_100 |} a2 d2 (Some ts_99)
      = (Ok f2, {| last_timestamp := Some ts_99 |})
    /\ time_delta f2 = zero_float
    /\ convert_single {| last_timestamp := Some ts_99 |} a3 d3 (Some ts_101_5)
      = (Ok f3, {| last_timestamp := Some ts_101_5 |})
    /\ time_delta f3 = one_float.
Proof.
  intros H1 H2 H3.
  destruct (convert_single_parses a1 d1 H1 new_converter (Some ts_100))
    as (f1 & E1 & T1).
  destruct (convert_single_parses a2 d2 H2 {| last_timestamp := Some ts_100 |}
              (Some ts_99)) as (f2 & E2 & T2).
  destruct (convert_single_parses a3 d3 H3 {| last_timestamp := Some ts_99 |}
              (Some ts_101_5)) as (f3 & E3 & T3).
  exists f1, f2, f3.
  rewrite E1, E2, E3, T1, T2, T3.
  repeat split; vm_compute; reflexivity.
Qed.

Lemma time_delta_clamping_witness :
  exists f1 f2 f3,
    convert_single new_converter (ArbStr "0x123") "0102" (Some ts_100)
      = (Ok f1, {| last_timestamp := Some ts_100 |})
    /\ time_delta f1 = zero_float
    /\ convert_single {| last_timestamp := Some ts_100 |} (ArbInt 7) "ff" (Some ts_99)
      = (Ok f2, {| last_timestamp := Some ts_99 |})
    /\ time_delta f2 = zero_float
    /\ convert_single {| last_timestamp := Some ts_99 |} (ArbStr "1A") "" (Some ts_101_5)
      = (Ok f3, {| last_timestamp := Some ts_101_5 |})
    /\ time_delta f3 = one_float.
Proof.
  exact (time_delta_clamping (ArbStr "0x123") (ArbInt 7) (ArbStr "1A")
           "0102" "ff" "" eq_refl eq_refl eq_refl).
Defined.

Lemma feed_untimed_state (records : list (arb_id * string)) (self : converter) :
  feed_untimed self records = self.
Proof.
  unfold feed_untimed. revert self.
  induction records as [|[a d] records IH]; intros self; [reflexivity|].
  cbn [fold_left fst snd].
  destruct (convert_single_cases self a d None) as [[e E]|(f & E & _)];
    rewrite E; apply IH.
Qed.

(** C9.  A call without a timestamp leaves [last_timestamp] as it was,
    and returns [time_delta = 0.0] whenever the record parses (it raises
    otherwise); so after any run of records without timestamps a record
    with a timestamp is handled exactly as it would have been before the
    run: its delta is taken against the last record that had a timestamp,
    and it becomes the new [last_timestamp]. *)
Theorem no_timestamp_keeps_state (self : converter) (a : arb_id) (d : string) :
  snd (convert_single self a d None) = self
  /\ match fst (convert_single self a d None) with
     | Ok f => record_parses a d = true /\ time_delta f = zero_float
     | Raise _ => record_parses a d = false
     end
  /\ forall (between : list (arb_id * string)) (a' : arb_id) (d' : string)
        (ts : spec_float),
       convert_single (feed_untimed self between) a' d' (Some ts)
       = convert_single self a' d' (Some ts)
       /\ (record_parses a' d' = true ->
           exists f,
             convert_single (feed_untimed self between) a' d' (Some ts)
             = (Ok f, {| last_timestamp := Some ts |})
             /\ time_delta f =
                match last_timestamp self with
                | Some last =>
                    PyFloat.min (PyFloat.max (PyFloat.sub ts last) zero_float)
                      one_float
                | None => zero_float
                end).
Proof.
  split; [|split].
  - destruct (convert_single_cases self a d None) as [[e E]|(f & E & _)];
      now rewrite E.
  - destruct (record_parses a d) eqn:Hp.
    + destruct (convert_single_parses a d Hp self None) as (f & E & T).
      rewrite E. split; [reflexivity|exact T].
    + destruct (convert_single_raises a d Hp self None) as [e E].
      now rewrite E.
  - intros between a' d' ts. rewrite feed_untimed_state.
    split; [reflexivity|]. intros Hp.
    destruct (convert_single_parses a' d' Hp self (Some ts)) as (f & E & T).
    exists f. split; [exact E|exact T].
Qed.

Lemma no_timestamp_keeps_state_witness :
  exists f,
    convert_single
      (feed_untimed {| last_timestamp := Some ts_100 |}
         [(ArbStr "0x123", "0102"%string); (ArbInt 5, "zz"%string)])
      (ArbStr "1A") "ff" (Some ts_101_5)
    = (Ok f, {| last_timestamp := Some ts_101_5 |})
    /\ time_delta f = one_float.
Proof.
  exact (proj2 (proj2 (proj2 (no_timestamp_keeps_state
                         {| last_timestamp := Some ts_100 |} (ArbInt 0) ""))
                  [(ArbStr "0x123", "0102"%string); (ArbInt 5, "zz"%string)]
                  (ArbStr "1A") "ff"%string ts_101_5) eq_refl).
Defined.

(** ** Parse errors in the data field *)

Lemma int16_raises_value_error (s : string) (e : exn) :
  PyInt.int16 s = Raise e -> e = ValueError.
Proof.
  unfold PyInt.int16.
  destruct (PyInt.take_sign (PyInt.skip_spaces s)) as [negative s1].
  repeat match goal with
  | |- context [match ?x with _ => _ end] => destruct x
  end; congruence.
Qed.

Local Open Scope string_scope.

Section Alphabet.

Lemma skip_spaces_alphabet (s : string) :
  string_forallb int_alphabet (PyInt.skip_spaces s) = true ->
  string_forallb int_alphabet s = true.
Proof.
  induction s as [|c s IH]; [reflexivity|].
  cbn [PyInt.skip_spaces]. destruct (PyInt.isspace c) eqn:Hc; [|auto].
  intros H. cbn [string_forallb]. rewrite (IH H), andb_true_r.
  unfold int_alphabet. rewrite Hc. now rewrite orb_true_r.
Qed.

Lemma skip_spaces_empty (s : string) :
  PyInt.skip_spaces s = EmptyString -> string_forallb int_alphabet s = true.
Proof.
  intros H. apply skip_spaces_alphabet. now rewrite H.
Qed.

Lemma take_sign_alphabet (s : string) :
  string_forallb int_alphabet (snd (PyInt.take_sign s)) = true ->
  string_forallb int_alphabet s = true.
Proof.
  destruct s as [|c s]; [auto|]. cbn [PyInt.take_sign].
  destruct (Ascii.eqb c "+") eqn:Hp; [|destruct (Ascii.eqb c "-") eqn:Hm];
    cbn [snd string_forallb]; intros H; try exact H;
    rewrite H, andb_true_r; unfold int_alphabet; rewrite ?Hp, ?Hm;
    now rewrite ?orb_true_r.
Qed.

Lemma take_prefix_alphabet (s : string) :
  string_forallb int_alphabet (PyInt.take_prefix s) = true ->
  string_forallb int_alphabet s = true.
Proof.
  destruct s as [|c0 [|c1 s']]; try (intros H; exact H).
  cbn [PyInt.take_prefix].
  destruct (Ascii.eqb c0 "0" && (Ascii.eqb c1 "x" || Ascii.eqb c1 "X")) eqn:Hp;
    [|intros H; exact H].
  apply andb_true_iff in Hp. destruct Hp as [H0 Hx].
  apply Ascii.eqb_eq in H0. subst c0.
  assert (A1 : int_alphabet c1 = true).
  { unfold int_alphabet. apply orb_true_iff in Hx.
    destruct Hx as [-> | ->]; now rewrite ?orb_true_r. }
  intros H. cbn [string_forallb]. rewrite A1.
  change (int_alphabet "0") with true. cbn [andb].
  destruct s' as [|c2 s'']; [reflexivity|].
  destruct (Ascii.eqb c2 "_") eqn:Hu; [|exact H].
  cbn [string_forallb]. rewrite H, andb_true_r.
  unfold int_alphabet. rewrite Hu. now rewrite ?orb_true_r.
Qed.

Lemma scan_digits_alphabet (s : string) (prev : bool) (acc : Z) (k : nat)
    (a : Z) (d : nat) (p : bool) (rest : string) :
  PyInt.scan_digits s prev acc k = Some (a, d, p, rest) ->
  string_forallb int_alphabet rest = true ->
  string_forallb int_alphabet s = true.
Proof.
  revert prev acc k. induction s as [|c s IH]; intros prev acc k H Hr.
  - reflexivity.
  - cbn [PyInt.scan_digits] in H. cbn [string_forallb].
    destruct (Ascii.eqb c "_") eqn:Hu.
    + destruct prev; [discriminate|].
      rewrite (IH _ _ _ H Hr), andb_true_r.
      unfold int_alphabet. rewrite Hu. now rewrite ?orb_true_r.
    + destruct (PyInt.hex_value c) as [v|] eqn:Hv.
      * rewrite (IH _ _ _ H Hr), andb_true_r.
        unfold int_alphabet, is_hex_digit. now rewrite Hv.
      * injection H as _ _ _ <-. exact Hr.
Qed.

(** A text that [int(s, 16)] accepts is written in its alphabet. *)
Lemma int16_alphabet (s : string) (n : Z) :
  PyInt.int16 s = Ok n -> string_forallb int_alphabet s = true.
Proof.
  unfold PyInt.int16. intros H.
  apply skip_spaces_alphabet, take_sign_alphabet.
  destruct (PyInt.take_sign (PyInt.skip_spaces s)) as [negative s1].
  cbn [snd]. apply take_prefix_alphabet.
  destruct (PyInt.starts_with "_" (PyInt.take_prefix s1)); [discriminate|].
  destruct (PyInt.scan_digits (PyInt.take_prefix s1) false 0 0)
    as [[[[a d] p] rest]|] eqn:Hs; [|discriminate].
  destruct p; [discriminate|]. destruct d; [discriminate|].
  destruct (PyInt.skip_spaces rest) eqn:Hrest; [|discriminate].
  eapply scan_digits_alphabet; [exact Hs|]. now apply skip_spaces_empty.
Qed.

End Alphabet.

Local Close Scope string_scope.

(** A text with a character outside that alphabet is rejected. *)
Lemma foreign_character_rejected (s : string) :
  string_forallb int_alphabet s = false -> PyInt.int16 s = Raise ValueError.
Proof.
  intros H. destruct (PyInt.int16 s) as [n|e] eqn:E.
  - apply int16_alphabet in E. congruence.
  - now rewrite (int16_raises_value_error _ _ E).
Qed.

(** A chunk that does not parse makes the [byte_sum] loop raise. *)
Lemma byte_sum_loop_raises (data_str : string) (indices : list nat) (i : nat) :
  In i indices -> (i + 2 <= String.length data_str)%nat ->
  (exists e, PyInt.int16 (PyStr.slice i 2 data_str) = Raise e) ->
  forall acc, byte_sum_loop data_str indices acc = Raise ValueError.
Proof.
  intros Hin Hlen [e He].
  induction indices as [|j indices IH]; intros acc; [contradiction|].
  cbn [byte_sum_loop].
  destruct (Nat.leb_spec (j + 2) (String.length data_str)) as [Hj|Hj].
  - destruct (PyInt.int16 (PyStr.slice j 2 data_str)) as [v|e'] eqn:Ej; cbn [bind].
    + destruct Hin as [->|Hin]; [congruence|]. now apply IH.
    + now rewrite (int16_raises_value_error _ _ Ej).
  - destruct Hin as [->|Hin]; [lia|]. now apply IH.
Qed.

(** The [byte_sum] loop raises nothing but [ValueError], which the block
    catches: the block always has a value. *)
Lemma byte_sum_loop_value_error (s : string) (indices : list nat) :
  forall (acc : Z) (e : exn), byte_sum_loop s indices acc = Raise e -> e = ValueError.
Proof.
  induction indices as [|i indices IH]; intros acc e H; [discriminate|].
  cbn [byte_sum_loop] in H.
  destruct (i + 2 <=? String.length s)%nat; [|now apply IH in H].
  destruct (PyInt.int16 (PyStr.slice i 2 s)) as [b|e'] eqn:Hb.
  - cbn [bind] in H. now apply IH in H.
  - cbn [bind] in H. injection H as <-. now apply int16_raises_value_error in Hb.
Qed.

Lemma compute_byte_sum_returns (data_str : string) :
  exists byte_sum, compute_byte_sum data_str = Ok byte_sum.
Proof.
  unfold compute_byte_sum.
  destruct (byte_sum_loop data_str _ 0) as [v|e] eqn:H; [now exists v|].
  apply byte_sum_loop_value_error in H. subst e. now exists 0.
Qed.

Lemma parse_arb_id_raises (a : arb_id) (e : exn) :
  parse_arb_id a = Raise e -> e = ValueError.
Proof.
  destruct a as [s|n]; cbn [parse_arb_id]; [|discriminate].
  apply int16_raises_value_error.
Qed.

(** C10, the part that fails: ["-f"] is not two hexadecimal digits, but
    [int("-f", 16)] is [-15].  The payload ["-f01"] gives a record, with
    [first_byte = -15]; and in ["-fzz01"] the chunk ["zz"] resets
    [byte_sum] to 0 although the first two characters are malformed. *)
Lemma signed_edge_byte_counterexample :
  string_forallb is_hex_digit "-f" = false
  /\ PyStr.first_n 2 (clean_data "-f01") = "-f"%string
  /\ convert_single new_converter (ArbStr "123") "-f01" None
     = (Ok {| arb_id_dec := 291; data_length := 4; first_byte := -15;
              last_byte := 1; byte_sum := -14; time_delta := zero_float |},
        new_converter)
  /\ PyStr.first_n 2 (clean_data "-fzz01") = "-f"%string
  /\ convert_single new_converter (ArbStr "123") "-fzz01" None
     = (Ok {| arb_id_dec := 291; data_length := 6; first_byte := -15;
              last_byte := 1; byte_sum := 0; time_delta := zero_float |},
        new_converter).
Proof.
  split; [reflexivity|]. split; [vm_compute; reflexivity|].
  split; [vm_compute; reflexivity|]. split; vm_compute; reflexivity.
Qed.

(** C10, amended.  When the cleaned data field has at least two characters
    and [int(..., 16)] rejects its first two or its last two characters,
    as it does whenever one of them is no hexadecimal digit, white space,
    sign, underscore or [x], [convert_single] raises [ValueError], returns
    no record and keeps its state, whatever the state and the timestamp.
    In every other case with an identifier that parses it returns a
    record, whose [first_byte] and [last_byte] are what [int] made of the
    two characters: a pair that [int] accepts need not be two hexadecimal
    digits.  The [byte_sum] block is different: a chunk that is rejected
    there makes the sum 0, and a record that is returned carries
    [byte_sum = 0]. *)
Theorem malformed_edge_bytes_raise (self : converter) (a : arb_id) (d : string)
    (timestamp : option spec_float) :
  let data_str := clean_data d in
  let first :=
    if (2 <=? String.length data_str)%nat
    then PyInt.int16 (PyStr.first_n 2 data_str) else Ok 0 in
  let last :=
    if (2 <=? String.length data_str)%nat
    then PyInt.int16 (PyStr.last_n 2 data_str) else Ok 0 in
  ((2 <= String.length data_str)%nat ->
   (exists e, PyInt.int16 (PyStr.first_n 2 data_str) = Raise e)
   \/ (exists e, PyInt.int16 (PyStr.last_n 2 data_str) = Raise e) ->
   convert_single self a d timestamp = (Raise ValueError, self))
  /\ ((2 <= String.length data_str)%nat ->
      string_forallb int_alphabet (PyStr.first_n 2 data_str) = false
      \/ string_forallb int_alphabet (PyStr.last_n 2 data_str) = false ->
      convert_single self a d timestamp = (Raise ValueError, self))
  /\ (forall n fb lb,
        parse_arb_id a = Ok n -> first = Ok fb -> last = Ok lb ->
        exists f,
          convert_single self a d timestamp
          = (Ok f, snd (compute_time_delta self timestamp))
          /\ first_byte f = fb /\ last_byte f = lb)
  /\ (forall i,
        In i (PyStr.range 0 (String.length data_str) 2) ->
        (i + 2 <= String.length data_str)%nat ->
        (exists e, PyInt.int16 (PyStr.slice i 2 data_str) = Raise e) ->
        compute_byte_sum data_str = Ok 0
        /\ forall f self', convert_single self a d timestamp = (Ok f, self') ->
                           byte_sum f = 0).
Proof.
  intros data_str first last.
  assert (Hraise :
    (2 <= String.length data_str)%nat ->
    (exists e, PyInt.int16 (PyStr.first_n 2 data_str) = Raise e)
    \/ (exists e, PyInt.int16 (PyStr.last_n 2 data_str) = Raise e) ->
    convert_single self a d timestamp = (Raise ValueError, self)).
  { intros Hlen Hbad. unfold convert_single. fold data_str.
    destruct (parse_arb_id a) as [arb|e] eqn:Ea;
      [|now rewrite (parse_arb_id_raises a e Ea)].
    cbv zeta. apply Nat.leb_le in Hlen. rewrite Hlen.
    destruct (PyInt.int16 (PyStr.first_n 2 data_str)) as [fb|e] eqn:Ef;
      [|now rewrite (int16_raises_value_error _ _ Ef)].
    destruct (PyInt.int16 (PyStr.last_n 2 data_str)) as [lb|e] eqn:El;
      [|now rewrite (int16_raises_value_error _ _ El)].
    destruct Hbad as [[e He]|[e He]]; discriminate. }
  split; [exact Hraise|]. split; [|split].
  - intros Hlen [Hbad|Hbad]; apply Hraise; try assumption;
      [left|right]; exists ValueError; now apply foreign_character_rejected.
  - intros n fb lb Ha Hfirst Hlast. unfold convert_single. fold data_str.
    rewrite Ha. cbv zeta. fold first. fold last. rewrite Hfirst, Hlast.
    destruct (compute_byte_sum_returns data_str) as [bs ->].
    destruct (compute_time_delta self timestamp) as [delta st].
    eexists. split; [reflexivity|]. split; reflexivity.
  - intros i Hin Hlen Hbad.
    assert (Hsum : compute_byte_sum data_str = Ok 0).
    { unfold compute_byte_sum.
      now rewrite (byte_sum_loop_raises data_str _ i Hin Hlen Hbad). }
    split; [exact Hsum|].
    intros f self'. unfold convert_single. fold data_str.
    destruct (parse_arb_id a) as [arb|e]; [|discriminate].
    cbv zeta.
    destruct (if (2 <=? String.length data_str)%nat
              then PyInt.int16 (PyStr.first_n 2 data_str)
              else Ok 0) as [fb|e]; [|discriminate].
    destruct (if (2 <=? String.length data_str)%nat
              then PyInt.int16 (PyStr.last_n 2 data_str)
              else Ok 0) as [lb|e]; [|discriminate].
    rewrite Hsum.
    destruct (compute_time_delta self timestamp) as [delta st].
    intros [= <- _]. reflexivity.
Qed.

Lemma malformed_edge_bytes_raise_witness :
  convert_single new_converter (ArbStr "123") "zz01" None
  = (Raise ValueError, new_converter)
  /\ convert_single new_converter (ArbStr "123") "01zz" None
     = (Raise ValueError, new_converter)
  /\ (exists f,
        convert_single new_converter (ArbStr "123") "-f01" None
        = (Ok f, snd (compute_time_delta new_converter None))
        /\ first_byte f = -15 /\ last_byte f = 1)
  /\ compute_byte_sum (clean_data "01zz02") = Ok 0
  /\ (forall f self',
        convert_single new_converter (ArbStr "123") "01zz02" None = (Ok f, self') ->
        byte_sum f = 0).
Proof.
  split; [|split; [|split]].
  - apply (proj1 (malformed_edge_bytes_raise new_converter (ArbStr "123") "zz01" None)).
    + vm_compute. lia.
    + left. exists ValueError. reflexivity.
  - apply (proj1 (proj2 (malformed_edge_bytes_raise new_converter (ArbStr "123")
                           "01zz" None))).
    + vm_compute. lia.
    + right. reflexivity.
  - apply (proj1 (proj2 (proj2 (malformed_edge_bytes_raise new_converter (ArbStr "123")
                                  "-f01" None))) 291 (-15) 1);
      vm_compute; reflexivity.
  - apply (proj2 (proj2 (proj2 (malformed_edge_bytes_raise new_converter (ArbStr "123")
                                  "01zz02" None))) 2%nat).
    + vm_compute. auto.
    + vm_compute. lia.
    + exists ValueError. reflexivity.
Defined.

(** ** The arbitration id *)

Local Open Scope string_scope.

Section HexText.

(** A property of characters decided for all 256 of them. *)
Lemma ascii_forall (p : ascii -> bool) :
  forallb (fun n => p (ascii_of_nat n)) (seq 0 256) = true ->
  forall c, p c = true.
Proof.
  intros H c. rewrite forallb_forall in H.
  specialize (H (nat_of_ascii c)). rewrite ascii_nat_embedding in H.
  apply H. apply in_seq. pose proof (nat_ascii_bounded c). lia.
Qed.

(** A hexadecimal digit is no space, sign, underscore or [x]. *)
Lemma hex_digit_class (c : ascii) :
  is_hex_digit c = true ->
  PyStr.isspace c = false /\ PyInt.isspace c = false
  /\ Ascii.eqb c "x" = false /\ Ascii.eqb c "X" = false
  /\ Ascii.eqb c "_" = false /\ Ascii.eqb c "+" = false
  /\ Ascii.eqb c "-" = false.
Proof.
  intros H.
  pose proof (ascii_forall
    (fun c => implb (is_hex_digit c)
       (negb (PyStr.isspace c) && negb (PyInt.isspace c)
        && negb (Ascii.eqb c "x") && negb (Ascii.eqb c "X")
        && negb (Ascii.eqb c "_") && negb (Ascii.eqb c "+")
        && negb (Ascii.eqb c "-"))) ltac:(vm_compute; reflexivity) c) as A.
  cbv beta in A. rewrite H in A. cbn [implb] in A.
  rewrite !andb_true_iff, !negb_true_iff in A. tauto.
Qed.

Lemma space_class (c : ascii) :
  PyStr.isspace c = true ->
  Ascii.eqb c "0" = false /\ Ascii.eqb c "x" = false /\ Ascii.eqb c "X" = false.
Proof.
  intros H.
  pose proof (ascii_forall
    (fun c => implb (PyStr.isspace c)
       (negb (Ascii.eqb c "0") && negb (Ascii.eqb c "x")
        && negb (Ascii.eqb c "X"))) ltac:(vm_compute; reflexivity) c) as A.
  cbv beta in A. rewrite H in A. cbn [implb] in A.
  rewrite !andb_true_iff, !negb_true_iff in A. tauto.
Qed.


Lemma prefix_cons (a c : ascii) (p s : string) :
  prefix (String a p) (String c s) = if Ascii.eqb a c then prefix p s else false.
Proof.
  cbn [prefix]. destruct (ascii_dec a c) as [->|N].
  - now rewrite Ascii.eqb_refl.
  - apply Ascii.eqb_neq in N. now rewrite N.
Qed.

Lemma remove_from_0 (old : string) (c : ascii) (s : string) :
  PyStr.remove_from old 0 (String c s)
  = if prefix old (String c s) then PyStr.remove_from old (length old - 1) s
    else String c (PyStr.remove_from old 0 s).
Proof. reflexivity. Qed.

Lemma remove_from_S (old : string) (k : nat) (c : ascii) (s : string) :
  PyStr.remove_from old (S k) (String c s) = PyStr.remove_from old k s.
Proof. reflexivity. Qed.

(** Deleting a two-character pattern whose second character does not
    occur changes nothing. *)
Lemma remove_absent (a b : ascii) (s : string) :
  string_forallb (fun c => negb (Ascii.eqb c b)) s = true ->
  PyStr.remove (String a (String b EmptyString)) s = s.
Proof.
  unfold PyStr.remove. induction s as [|c s IH]; intros H; [reflexivity|].
  cbn [string_forallb] in H. apply andb_true_iff in H. destruct H as [Hc Hs].
  rewrite remove_from_0, prefix_cons.
  destruct (Ascii.eqb a c).
  - destruct s as [|c' s']; [reflexivity|].
    rewrite prefix_cons. pose proof Hs as Hs'.
    cbn [string_forallb] in Hs'. apply andb_true_iff in Hs'. destruct Hs' as [Hc' _].
    apply negb_true_iff in Hc'. rewrite Ascii.eqb_sym, Hc'.
    now rewrite IH.
  - now rewrite IH.
Qed.

Lemma remove_head (a b : ascii) (s : string) :
  PyStr.remove (String a (String b EmptyString)) (String a (String b s))
  = PyStr.remove (String a (String b EmptyString)) s.
Proof.
  unfold PyStr.remove. rewrite remove_from_0, !prefix_cons, !Ascii.eqb_refl.
  replace (prefix EmptyString s) with true by (destruct s; reflexivity).
  cbn [length Nat.sub]. now rewrite remove_from_S.
Qed.

Lemma remove_skip (a b c : ascii) (s : string) :
  Ascii.eqb c a = false ->
  PyStr.remove (String a (String b EmptyString)) (String c s)
  = String c (PyStr.remove (String a (String b EmptyString)) s).
Proof.
  intros H. unfold PyStr.remove.
  now rewrite remove_from_0, prefix_cons, Ascii.eqb_sym, H.
Qed.

Lemma rstrip_spaces (w : string) :
  string_forallb PyStr.isspace w = true -> PyStr.rstrip w = EmptyString.
Proof.
  induction w as [|c w IH]; intros H; [reflexivity|].
  cbn [string_forallb] in H. apply andb_true_iff in H. destruct H as [Hc Hw].
  cbn [PyStr.rstrip]. now rewrite IH, Hc.
Qed.

Lemma rstrip_app_spaces (u w : string) :
  string_forallb PyStr.isspace w = true -> PyStr.rstrip (u ++ w) = PyStr.rstrip u.
Proof.
  intros Hw. induction u as [|c u IH]; [now apply rstrip_spaces|].
  cbn [append PyStr.rstrip]. now rewrite IH.
Qed.

Lemma rstrip_no_space (u : string) :
  string_forallb (fun c => negb (PyStr.isspace c)) u = true -> PyStr.rstrip u = u.
Proof.
  induction u as [|c u IH]; intros H; [reflexivity|].
  cbn [string_forallb] in H. apply andb_true_iff in H. destruct H as [Hc Hu].
  apply negb_true_iff in Hc.
  cbn [PyStr.rstrip]. rewrite IH, Hc by assumption. now destruct u.
Qed.

(** A string is its right-stripped part followed by spaces. *)
Lemma rstrip_decompose (t : string) :
  exists w, t = PyStr.rstrip t ++ w /\ string_forallb PyStr.isspace w = true.
Proof.
  induction t as [|c t (w & E & Hw)]; [now exists EmptyString|].
  cbn [PyStr.rstrip]. destruct (PyStr.rstrip t) as [|c' r] eqn:Hr.
  - cbn [append] in E. subst t. destruct (PyStr.isspace c) eqn:Hc.
    + exists (String c w). split; [reflexivity|].
      cbn [string_forallb]. now rewrite Hc.
    + now exists w.
  - exists w. split; [|exact Hw]. cbn [append]. f_equal. exact E.
Qed.


Lemma string_forallb_app (p : ascii -> bool) (u w : string) :
  string_forallb p (u ++ w) = string_forallb p u && string_forallb p w.
Proof.
  induction u as [|c u IH]; [reflexivity|].
  cbn [append string_forallb]. now rewrite IH, andb_assoc.
Qed.

Lemma string_forallb_impl (p q : ascii -> bool) (s : string) :
  (forall c, p c = true -> q c = true) ->
  string_forallb p s = true -> string_forallb q s = true.
Proof.
  intros Hpq. induction s as [|c s IH]; [reflexivity|].
  cbn [string_forallb]. rewrite !andb_true_iff. intros [Hc Hs].
  split; [now apply Hpq|now apply IH].
Qed.

Lemma hex_number_digits (ds : string) (acc n : Z) :
  hex_number ds acc = Some n -> string_forallb is_hex_digit ds = true.
Proof.
  revert acc. induction ds as [|c ds IH]; intros acc H; [reflexivity|].
  cbn [hex_number] in H. cbn [string_forallb]. unfold is_hex_digit at 1.
  destruct (PyInt.hex_value c) as [d|]; [|discriminate].
  now apply IH in H.
Qed.

(** The digit loop reads a run of hexadecimal digits to its end. *)
Lemma scan_digits_hex (ds : string) (prev : bool) (acc : Z) (k : nat) (n : Z) :
  hex_number ds acc = Some n ->
  PyInt.scan_digits ds prev acc k
  = Some (n, (k + length ds)%nat,
          match ds with EmptyString => prev | _ => false end, EmptyString).
Proof.
  revert prev acc k. induction ds as [|c ds IH]; intros prev acc k H.
  - cbn in *. injection H as <-. now rewrite Nat.add_0_r.
  - pose proof (hex_number_digits _ _ _ H) as Hall.
    cbn [string_forallb] in Hall. apply andb_true_iff in Hall.
    destruct Hall as [Hc _]. apply hex_digit_class in Hc.
    destruct Hc as (_ & _ & _ & _ & Hu & _ & _).
    cbn [hex_number] in H. cbn [PyInt.scan_digits]. rewrite Hu.
    destruct (PyInt.hex_value c) as [d|]; [|discriminate].
    rewrite (IH false _ (S k) H). cbn [length].
    rewrite Nat.add_succ_r. now destruct ds.
Qed.

Lemma int16_hex_digits (ds : string) (n : Z) :
  ds <> EmptyString -> hex_number ds 0 = Some n -> PyInt.int16 ds = Ok n.
Proof.
  intros Hne H. destruct ds as [|c ds]; [contradiction|].
  pose proof (hex_number_digits _ _ _ H) as Hall.
  cbn [string_forallb] in Hall. apply andb_true_iff in Hall.
  destruct Hall as [Hc Hds]. apply hex_digit_class in Hc.
  destruct Hc as (_ & Hsp & _ & _ & Hu & Hplus & Hminus).
  unfold PyInt.int16. cbn [PyInt.skip_spaces]. rewrite Hsp.
  cbn [PyInt.take_sign]. rewrite Hplus, Hminus.
  assert (Hp : PyInt.take_prefix (String c ds) = String c ds).
  { destruct ds as [|c1 ds']; [reflexivity|].
    cbn [string_forallb] in Hds. apply andb_true_iff in Hds.
    destruct Hds as [Hc1 _]. apply hex_digit_class in Hc1.
    destruct Hc1 as (_ & _ & Hx & HX & _).
    cbn [PyInt.take_prefix]. now rewrite Hx, HX, andb_false_r. }
  rewrite Hp. cbn [PyInt.starts_with]. rewrite Hu.
  rewrite (scan_digits_hex _ false 0 0%nat n H).
  reflexivity.
Qed.

Lemma lstrip_idem (s : string) : PyStr.lstrip (PyStr.lstrip s) = PyStr.lstrip s.
Proof.
  induction s as [|c s IH]; [reflexivity|].
  cbn [PyStr.lstrip]. destruct (PyStr.isspace c) eqn:Hc; [exact IH|].
  cbn [PyStr.lstrip]. now rewrite Hc.
Qed.

(** Leading spaces play no part in the cleaning of the arbitration id. *)
Lemma clean_lstrip (s : string) :
  PyStr.strip (PyStr.remove "0X" (PyStr.remove "0x" s))
  = PyStr.strip (PyStr.remove "0X" (PyStr.remove "0x" (PyStr.lstrip s))).
Proof.
  induction s as [|c s IH]; [reflexivity|].
  cbn [PyStr.lstrip]. destruct (PyStr.isspace c) eqn:Hc; [|reflexivity].
  destruct (space_class c Hc) as (H0 & _ & _).
  rewrite !remove_skip by assumption.
  unfold PyStr.strip in *. cbn [PyStr.lstrip]. now rewrite Hc.
Qed.

Lemma hex_no_x (s : string) :
  string_forallb is_hex_digit s = true ->
  string_forallb (fun c => negb (Ascii.eqb c "x")) s = true
  /\ string_forallb (fun c => negb (Ascii.eqb c "X")) s = true
  /\ string_forallb (fun c => negb (PyStr.isspace c)) s = true.
Proof.
  intros H. repeat split;
    (eapply string_forallb_impl; [|exact H]); intros c Hc;
    apply hex_digit_class in Hc;
    destruct Hc as (Hs & _ & Hx & HX & _); now rewrite ?Hs, ?Hx, ?HX.
Qed.

Lemma space_no_x (s : string) :
  string_forallb PyStr.isspace s = true ->
  string_forallb (fun c => negb (Ascii.eqb c "x")) s = true
  /\ string_forallb (fun c => negb (Ascii.eqb c "X")) s = true.
Proof.
  intros H. split;
    (eapply string_forallb_impl; [|exact H]); intros c Hc;
    apply space_class in Hc; destruct Hc as (_ & Hx & HX); now rewrite ?Hx, ?HX.
Qed.

(** Digits followed by spaces are left alone by the two deletions, and
    stripped to the digits. *)
Lemma clean_digits (ds w : string) :
  ds <> EmptyString ->
  string_forallb is_hex_digit ds = true ->
  string_forallb PyStr.isspace w = true ->
  PyStr.strip (PyStr.remove "0X" (PyStr.remove "0x" (ds ++ w))) = ds.
Proof.
  intros Hne Hds Hw.
  destruct (hex_no_x ds Hds) as (Hx & HX & Hsp).
  destruct (space_no_x w Hw) as (Wx & WX).
  rewrite (remove_absent "0" "x"), (remove_absent "0" "X")
    by (rewrite string_forallb_app, ?Hx, ?HX, ?Wx, ?WX; reflexivity).
  unfold PyStr.strip.
  assert (Hl : PyStr.lstrip (ds ++ w) = ds ++ w).
  { destruct ds as [|c ds']; [contradiction|].
    cbn [string_forallb] in Hsp. apply andb_true_iff in Hsp.
    destruct Hsp as [Hc _]. apply negb_true_iff in Hc.
    cbn [append PyStr.lstrip]. now rewrite Hc. }
  rewrite Hl, rstrip_app_spaces by assumption. now apply rstrip_no_space.
Qed.

(** Every text that is hexadecimal in the sense of the design document is
    parsed by [convert_single], to the same number. *)
Lemma hex_text_is_parsed (s : string) (n : Z) :
  parse_arb_id_spec (ArbStr s) = Ok n -> parse_arb_id (ArbStr s) = Ok n.
Proof.
  unfold parse_arb_id_spec, parse_arb_id. intros H.
  rewrite clean_lstrip.
  unfold PyStr.strip in H.
  destruct (rstrip_decompose (PyStr.lstrip s)) as (w & E & Hw).
  set (body := PyStr.rstrip (PyStr.lstrip s)) in *.
  rewrite E.
  assert (Hds : exists ds, strip_hex_prefix body = ds /\ ds <> EmptyString
                           /\ hex_number ds 0 = Some n).
  { exists (strip_hex_prefix body). split; [reflexivity|].
    destruct (strip_hex_prefix body) as [|c ds'] eqn:Hd; [discriminate|].
    split; [discriminate|].
    destruct (hex_number (String c ds') 0); [now injection H as ->|discriminate]. }
  destruct Hds as (ds & Hstrip & Hne & Hnum).
  pose proof (hex_number_digits _ _ _ Hnum) as Hall.
  assert (Hclean : PyStr.strip (PyStr.remove "0X" (PyStr.remove "0x" (body ++ w))) = ds).
  { unfold strip_hex_prefix in Hstrip.
    destruct body as [|c0 [|c1 rest]];
      try (subst ds; now apply clean_digits).
    destruct (Ascii.eqb c0 "0" && (Ascii.eqb c1 "x" || Ascii.eqb c1 "X")) eqn:Hp;
      [|subst ds; now apply clean_digits].
    subst rest. apply andb_true_iff in Hp. destruct Hp as [H0 Hx].
    apply Ascii.eqb_eq in H0. subst c0.
    apply orb_true_iff in Hx. destruct Hx as [Hx|Hx];
      apply Ascii.eqb_eq in Hx; subst c1; cbn [append].
    - rewrite remove_head. now apply clean_digits.
    - destruct (hex_no_x ds Hall) as (Dx & _ & _).
      destruct (space_no_x w Hw) as (Wx & _).
      rewrite (remove_absent "0" "x")
        by (cbn [string_forallb]; rewrite string_forallb_app, Dx, Wx; reflexivity).
      rewrite remove_head.
      pose proof (clean_digits ds w Hne Hall Hw) as C.
      rewrite (remove_absent "0" "x") in C
        by (rewrite string_forallb_app, Dx, Wx; reflexivity).
      exact C. }
  rewrite Hclean. now apply int16_hex_digits.
Qed.

End HexText.

Local Close Scope string_scope.

(** C7, where the code departs from it: ["10x2"] is not a hexadecimal
    number (the base-16 parser rejects it, and so does the reading of the
    design document), but [convert_single] deletes the inner ["0x"] and
    returns the arbitration id [0x12 = 18]. *)
Theorem arb_id_inner_prefix_accepted :
  PyInt.int16 "10x2" = Raise ValueError
  /\ parse_arb_id_spec (ArbStr "10x2") = Raise ValueError
  /\ parse_arb_id (ArbStr "10x2") = Ok 18
  /\ exists f, convert_single new_converter (ArbStr "10x2") "0102" None
               = (Ok f, new_converter)
               /\ arb_id_dec f = 18.
Proof.
  split; [reflexivity|]. split; [reflexivity|]. split; [reflexivity|].
  eexists. split; reflexivity.
Qed.

(** * Properties of the table, the converter and the cleaning script *)

(** ** The words of the table *)

Section PackedWord.

Lemma land_ones_range (x w : Z) : 0 <= w -> 0 <= Z.land x (Z.ones w) < 2 ^ w.
Proof.
  intros Hw. rewrite Z.land_ones by assumption. apply Z.mod_pos_bound.
  apply Z.pow_pos_nonneg; lia.
Qed.

Lemma pack_testbit_high (n f t r l k m : Z) :
  64 <= m -> Z.testbit (pack n f t r l k) m = false.
Proof.
  intros Hm. unfold pack. masks_as_ones.
  rewrite !Z.lor_spec, !testbit_field by lia.
  repeat match goal with
  | |- context [m - ?s <? ?w] =>
      destruct (Z.ltb_spec (m - s) w); [lia|]
  end.
  now rewrite !andb_false_r.
Qed.

Lemma pack_nonneg (n f t r l k : Z) : 0 <= pack n f t r l k.
Proof.
  unfold pack. masks_as_ones.
  repeat (apply Z.lor_nonneg; split);
    apply Z.shiftl_nonneg; apply land_ones_range; lia.
Qed.

Lemma pack_range (n f t r l k : Z) : 0 <= pack n f t r l k < 2 ^ 64.
Proof.
  split; [apply pack_nonneg|].
  destruct (Z.eq_dec (pack n f t r l k) 0) as [E|E]; [rewrite E; reflexivity|].
  apply Z.log2_lt_pow2; [pose proof (pack_nonneg n f t r l k); lia|].
  destruct (Z.ltb_spec (Z.log2 (pack n f t r l k)) 64) as [H|H]; [assumption|].
  pose proof (Z.bit_log2 (pack n f t r l k)) as B.
  rewrite pack_testbit_high in B by assumption.
  pose proof (pack_nonneg n f t r l k). discriminate B. lia.
Qed.

Lemma node_to_binary_packed (r : node_row) (w : Z) :
  node_to_binary r = Ok w ->
  exists f t k, w = pack (Node r) f t (Right_Child r) (Left_Child r) k.
Proof.
  rewrite node_to_binary_unfold.
  destruct (row_is_leaf r).
  - intros [= <-]. eauto.
  - destruct (float_to_fixed_point _ _) as [q|e]; cbn [bind]; [|discriminate].
    intros [= <-]. eauto.
Qed.

(** X1.  Every word the encoder returns is a 64-bit value whose two reserved
    bits are 0, whatever the row holds. *)
Theorem node_to_binary_word_range (r : node_row) (w : Z) :
  node_to_binary r = Ok w ->
  0 <= w < 2 ^ 64 /\ Z.land w 0x3 = 0 /\ reserved (decode_node w) = 0.
Proof.
  intros H. destruct (node_to_binary_packed r w H) as (f & t & k & ->).
  split; [apply pack_range|]. split; [apply pack_reserved|].
  rewrite decode_pack. reflexivity.
Qed.

Lemma node_to_binary_word_range_witness :
  0 <= 3188601312803292160 < 2 ^ 64
  /\ Z.land 3188601312803292160 0x3 = 0
  /\ reserved (decode_node 3188601312803292160) = 0.
Proof.
  exact (node_to_binary_word_range wide_row 3188601312803292160
           ltac:(vm_compute; reflexivity)).
Defined.

Lemma decode_encode_low_bits (r : node_row) (w : Z) :
  node_to_binary r = Ok w ->
  node_id (decode_node w) = Node r mod 256
  /\ left_child (decode_node w) = Left_Child r mod 256
  /\ right_child (decode_node w) = Right_Child r mod 256.
Proof.
  intros H. destruct (node_to_binary_packed r w H) as (f & t & k & ->).
  rewrite decode_pack. cbn [node_id left_child right_child].
  change 0xFF with (Z.ones 8). rewrite !Z.land_ones by lia.
  change (2 ^ 8) with 256. auto.
Qed.

(** X2.  Ids and children outside [0..255] are kept modulo 256: the decoder
    sees the low 8 bits only. *)
Theorem decode_encode_modulo (r : node_row) (w : Z) :
  node_to_binary r = Ok w ->
  node_id (decode_node w) = Node r mod 256
  /\ left_child (decode_node w) = Left_Child r mod 256
  /\ right_child (decode_node w) = Right_Child r mod 256.
Proof.
  intros H. destruct (node_to_binary_packed r w H) as (f & t & k & ->).
  rewrite decode_pack. cbn [node_id left_child right_child].
  change 0xFF with (Z.ones 8). rewrite !Z.land_ones by lia.
  change (2 ^ 8) with 256. auto.
Qed.

Lemma decode_encode_modulo_witness :
  node_id (decode_node 3188601312803292160) = 300 mod 256
  /\ left_child (decode_node 3188601312803292160) = 257 mod 256
  /\ right_child (decode_node 3188601312803292160) = (-1) mod 256.
Proof.
  exact (decode_encode_modulo wide_row 3188601312803292160
           ltac:(vm_compute; reflexivity)).
Defined.

End PackedWord.

Ltac decide_comparisons :=
  repeat match goal with
  | |- context [?a <=? ?b] =>
      first [ replace (a <=? b) with true by (symmetry; apply Z.leb_le; lia)
            | replace (a <=? b) with false by (symmetry; apply Z.leb_gt; lia) ]
  | |- context [?a <? ?b] =>
      first [ replace (a <? b) with true by (symmetry; apply Z.ltb_lt; lia)
            | replace (a <? b) with false by (symmetry; apply Z.ltb_ge; lia) ]
  end.

Section Repack.

Lemma testbit_above (w m : Z) : 0 <= w < 2 ^ 64 -> 64 <= m -> Z.testbit w m = false.
Proof.
  intros Hw Hm. destruct (Z.eq_dec w 0) as [->|N]; [apply Z.bits_0|].
  apply Z.bits_above_log2; [lia|].
  assert (Z.log2 w < 64) by (apply Z.log2_lt_pow2; lia). lia.
Qed.

Lemma testbit_reserved (w m : Z) :
  Z.land w 0x3 = 0 -> 0 <= m < 2 -> Z.testbit w m = false.
Proof.
  intros H Hm. pose proof (f_equal (fun x => Z.testbit x m) H) as B.
  cbv beta in B. rewrite Z.land_spec, Z.bits_0 in B.
  assert (T : Z.testbit 3 m = true).
  { assert (m = 0 \/ m = 1) as [-> | ->] by lia; reflexivity. }
  rewrite T, andb_true_r in B. exact B.
Qed.

(** X3.  Packing the decoded fields again gives the word back: the six fields
    cover bits 2 to 63 without gap or overlap. *)
Theorem pack_decode (w : Z) :
  0 <= w < 2 ^ 64 -> Z.land w 0x3 = 0 ->
  let d := decode_node w in
  pack (node_id d) (feature_id d) (threshold_raw d)
       (right_child d) (left_child d) (node_type_value d) = w.
Proof.
  intros Hw Hr d. subst d. unfold decode_node.
  cbn [node_id feature_id threshold_raw right_child left_child node_type_value].
  unfold pack. masks_as_ones.
  apply Z.bits_inj'. intros m Hm.
  rewrite !Z.lor_spec, !testbit_field by lia.
  rewrite !testbit_unfield by lia.
  assert (C : m < 2 \/ 2 <= m < 10 \/ 10 <= m < 18 \/ 18 <= m < 26
              \/ 26 <= m < 53 \/ 53 <= m < 56 \/ 56 <= m < 64 \/ 64 <= m) by lia.
  destruct C as [C|[C|[C|[C|[C|[C|[C|C]]]]]]]; decide_comparisons;
    cbn [andb orb]; rewrite ?orb_false_r;
    try (f_equal; lia).
  - symmetry. apply testbit_reserved; [assumption|lia].
  - symmetry. now apply testbit_above.
Qed.

Lemma pack_decode_witness :
  let d := decode_node 3188601312803292160 in
  pack (node_id d) (feature_id d) (threshold_raw d)
       (right_child d) (left_child d) (node_type_value d) = 3188601312803292160.
Proof.
  exact (pack_decode 3188601312803292160 ltac:(lia) ltac:(vm_compute; reflexivity)).
Defined.

End Repack.

(** ** The table and its metadata *)

Section Table.

Lemma convert_rows_acc (rows : list node_row) (acc : list Z) :
  convert_rows rows acc =
  match convert_rows rows [] with
  | Ok ws => Ok (acc ++ ws)
  | Raise e => Raise e
  end.
Proof.
  revert acc. induction rows as [|row rows IH]; intros acc.
  - cbn. now rewrite app_nil_r.
  - cbn [convert_rows]. destruct (node_to_binary row) as [w|e]; cbn [bind]; [|reflexivity].
    rewrite (IH (acc ++ [w])), (IH ([] ++ [w])).
    destruct (convert_rows rows []) as [ws|e]; [|reflexivity].
    now rewrite <- app_assoc.
Qed.

Lemma convert_rows_cases (rows : list node_row) :
  match convert_rows rows [] with
  | Ok binary_values =>
      Forall2 (fun row w => node_to_binary row = Ok w) rows binary_values
      /\ List.length binary_values = List.length rows
  | Raise e =>
      exists before row after,
        rows = before ++ row :: after
        /\ Forall (fun r => exists w, node_to_binary r = Ok w) before
        /\ node_to_binary row = Raise e
  end.
Proof.
  induction rows as [|row rows IH].
  - cbn. split; [constructor|reflexivity].
  - cbn [convert_rows]. destruct (node_to_binary row) as [w|e] eqn:Hw; cbn [bind].
    + rewrite convert_rows_acc.
      destruct (convert_rows rows []) as [ws|e].
      * destruct IH as [HF HL]. cbn. split; [now constructor|now rewrite HL].
      * destruct IH as (before & r & after & -> & HB & Hr).
        exists (row :: before), r, after. split; [reflexivity|].
        split; [|exact Hr]. constructor; [now exists w|exact HB].
    + exists [], row, rows. split; [reflexivity|]. split; [constructor|exact Hw].
Qed.

(** X4.  The conversion loop returns one word per row, in row order, each the
    encoding of its row; it raises exactly when some row does, with the
    exception of the first such row. *)
Theorem convert_rows_table (rows : list node_row) :
  match convert_rows rows [] with
  | Ok binary_values =>
      Forall2 (fun row w => node_to_binary row = Ok w) rows binary_values
      /\ List.length binary_values = List.length rows
  | Raise e =>
      exists before row after,
        rows = before ++ row :: after
        /\ Forall (fun r => exists w, node_to_binary r = Ok w) before
        /\ node_to_binary row = Raise e
  end.
Proof.
  induction rows as [|row rows IH].
  - cbn. split; [constructor|reflexivity].
  - cbn [convert_rows]. destruct (node_to_binary row) as [w|e] eqn:Hw; cbn [bind].
    + rewrite convert_rows_acc.
      destruct (convert_rows rows []) as [ws|e].
      * destruct IH as [HF HL]. cbn. split; [now constructor|now rewrite HL].
      * destruct IH as (before & r & after & -> & HB & Hr).
        exists (row :: before), r, after. split; [reflexivity|].
        split; [|exact Hr]. constructor; [now exists w|exact HB].
    + exists [], row, rows. split; [reflexivity|]. split; [constructor|exact Hw].
Qed.

Lemma count_nodes_acc (ws : list Z) (l i : Z) :
  count_nodes ws l i
  = (l + decoded_leaves ws,
     i + (Z.of_nat (List.length ws) - decoded_leaves ws)).
Proof.
  revert l i. induction ws as [|w ws IH]; intros l i.
  - cbn. f_equal; lia.
  - cbn [count_nodes]. unfold decoded_leaves in *. cbn [filter].
    set (leaf := (Z.land (Z.shiftr w 2) 0xFF =? 1)
                 || ((Z.land (Z.shiftr w 10) 0xFF =? 0)
                     && (Z.land (Z.shiftr w 18) 0xFF =? 0))).
    assert (Hk : match node_type (decode_node w) with
                 | Leaf => true | Internal => false end = leaf).
    { unfold decode_node. cbn [node_type]. fold leaf. now destruct leaf. }
    rewrite Hk. destruct leaf; rewrite IH; cbn [List.length];
      rewrite ?Nat2Z.inj_succ; f_equal; lia.
Qed.

(** X5.  The metadata counters add up to the number of words, and the leaf
    counter counts exactly the words that [decode_node] calls leaves. *)
Theorem metadata_counts (binary_values : list Z) :
  let '(leaf_count, internal_count) := count_nodes binary_values 0 0 in
  leaf_count + internal_count = Z.of_nat (List.length binary_values)
  /\ leaf_count = decoded_leaves binary_values
  /\ 0 <= leaf_count /\ 0 <= internal_count.
Proof.
  rewrite count_nodes_acc.
  assert (H : 0 <= decoded_leaves binary_values
              <= Z.of_nat (List.length binary_values)).
  { unfold decoded_leaves. split; [lia|].
    apply Nat2Z.inj_le, filter_length_le. }
  lia.
Qed.

(** X6.  The declared address width reaches every node and is the smallest
    that does. *)
Theorem addr_width_fits (num_nodes : Z) :
  1 <= num_nodes ->
  num_nodes <= 2 ^ addr_width num_nodes
  /\ (2 <= num_nodes -> 2 ^ (addr_width num_nodes - 1) < num_nodes)
  /\ (addr_width num_nodes = 0 <-> num_nodes = 1).
Proof.
  intros Hn. unfold addr_width, bit_length.
  destruct (num_nodes - 1) as [|p|p] eqn:E; [| |lia].
  - assert (num_nodes = 1) by lia. subst num_nodes.
    split; [cbn; lia|]. split; [lia|]. split; reflexivity.
  - pose proof (Z.log2_spec (Zpos p) ltac:(lia)) as [Hlo Hhi].
    pose proof (Z.log2_nonneg (Zpos p)) as Hl.
    replace (Z.succ (Z.log2 (Zpos p))) with (Z.log2 (Zpos p) + 1) in Hhi by lia.
    replace (Z.log2 (Zpos p) + 1 - 1) with (Z.log2 (Zpos p)) by lia.
    split; [lia|]. split; [lia|]. split; lia.
Qed.

Lemma addr_width_fits_witness :
  5 <= 2 ^ addr_width 5
  /\ (2 <= 5 -> 2 ^ (addr_width 5 - 1) < 5)
  /\ (addr_width 5 = 0 <-> 5 = 1).
Proof. exact (addr_width_fits 5 ltac:(lia)). Defined.

End Table.

(** ** The verification of a table *)

Section Verify.

Lemma py_index_some {A : Type} (l : list A) (i : Z) :
  - Z.of_nat (List.length l) <= i < Z.of_nat (List.length l) ->
  exists x, py_index l i = Some x.
Proof.
  intros Hi. unfold py_index.
  destruct (Z.leb_spec 0 i); destruct (Z.ltb_spec i (Z.of_nat (List.length l)));
    cbn [andb]; try lia.
  - destruct (nth_error l (Z.to_nat i)) eqn:E; [eauto|].
    apply nth_error_None in E. lia.
  - destruct (Z.leb_spec (- Z.of_nat (List.length l)) i); destruct (Z.ltb_spec i 0);
      cbn [andb]; try lia.
    destruct (nth_error l (Z.to_nat (Z.of_nat (List.length l) + i))) eqn:E; [eauto|].
    apply nth_error_None in E. lia.
Qed.

Lemma py_index_same_length {A B : Type} (l : list A) (l' : list B) (i : Z) :
  List.length l = List.length l' ->
  py_index l i = None <-> py_index l' i = None.
Proof.
  intros HL. unfold py_index. rewrite <- HL.
  destruct ((0 <=? i) && (i <? Z.of_nat (List.length l))).
  - rewrite !nth_error_None, HL. reflexivity.
  - destruct ((- Z.of_nat (List.length l) <=? i) && (i <? 0)); [|tauto].
    rewrite !nth_error_None, HL. reflexivity.
Qed.

Lemma sample_errors_cases (r : node_row) (w : Z) :
  sample_errors r w = 0 \/ sample_errors r w = 1.
Proof.
  unfold sample_errors.
  repeat match goal with |- context [if ?b then _ else _] => destruct b end; auto.
Qed.

Lemma sample_errors_zero (r : node_row) (w : Z) :
  sample_errors r w = 0 <->
  node_id (decode_node w) = Node r
  /\ left_child (decode_node w) = Left_Child r
  /\ right_child (decode_node w) = Right_Child r.
Proof.
  unfold sample_errors.
  destruct (Z.eqb_spec (node_id (decode_node w)) (Node r)); cbn [negb];
    [|split; [discriminate|tauto]].
  destruct (Z.eqb_spec (left_child (decode_node w)) (Left_Child r)); cbn [negb];
    [|split; [discriminate|tauto]].
  destruct (Z.eqb_spec (right_child (decode_node w)) (Right_Child r)); cbn [negb];
    [|split; [discriminate|tauto]].
  tauto.
Qed.

Lemma error_at_range (rows : list node_row) (ws : list Z) (i : Z) :
  0 <= error_at rows ws i <= 1.
Proof.
  unfold error_at. destruct (_ <=? _); [lia|].
  destruct (py_index rows i); [|lia]. destruct (py_index ws i); [|lia].
  destruct (sample_errors_cases n z); lia.
Qed.

Lemma verify_samples_sum (rows : list node_row) (ws : list Z) (indices : list Z)
    (errors : Z) :
  List.length rows = List.length ws ->
  Forall (fun i => - Z.of_nat (List.length rows) <= i) indices ->
  verify_samples rows ws indices errors
  = Some (errors + fold_right (fun i s => error_at rows ws i + s) 0 indices).
Proof.
  intros HL HF. revert errors. induction HF as [|i indices Hi HF IH]; intros errors.
  - cbn. f_equal; lia.
  - cbn [verify_samples fold_right]. unfold error_at at 1.
    destruct (Z.leb_spec (Z.of_nat (List.length rows)) i) as [Hs|Hs].
    + rewrite IH. f_equal; lia.
    + destruct (py_index_some rows i ltac:(lia)) as [r Hr].
      destruct (py_index_some ws i ltac:(rewrite <- HL; lia)) as [w Hw].
      rewrite Hr, Hw, IH. f_equal; lia.
Qed.

Lemma fold_errors_zero (rows : list node_row) (ws : list Z) (indices : list Z) :
  fold_right (fun i s => error_at rows ws i + s) 0 indices = 0 <->
  forall i, In i indices -> error_at rows ws i = 0.
Proof.
  induction indices as [|i indices IH]; cbn [fold_right In].
  - split; [intros _ i []|reflexivity].
  - assert (0 <= fold_right (fun i s => error_at rows ws i + s) 0 indices).
    { clear IH. induction indices as [|j indices IHj]; cbn [fold_right]; [lia|].
      pose proof (error_at_range rows ws j). lia. }
    pose proof (error_at_range rows ws i).
    split.
    + intros Hsum j [<-|Hj]; [lia|]. apply IH; [lia|assumption].
    + intros Hall. rewrite (Hall i (or_introl eq_refl)).
      rewrite (proj2 IH); [reflexivity|]. intros j Hj. apply Hall. now right.
Qed.

Lemma sample_indices_bound (n : nat) :
  (1 <= n)%nat -> Forall (fun i => - Z.of_nat n <= i) sample_indices.
Proof. intros Hn. unfold sample_indices. repeat constructor; lia. Qed.

(** X7.  [verify_conversion] raises exactly on the empty table, and a table
    whose length differs from the number of words is rejected before any
    word is decoded. *)
Theorem verify_conversion_outcomes (rows : list node_row) (ws : list Z) :
  (verify_conversion rows ws = IndexErrorRaised <-> rows = [] /\ ws = [])
  /\ (List.length rows <> List.length ws -> verify_conversion rows ws = Verified false).
Proof.
  unfold verify_conversion. split.
  - destruct (Nat.eqb_spec (List.length rows) (List.length ws)) as [HL|HL];
      cbn [negb]; [|split; [discriminate|intros [-> ->]; now elim HL]].
    destruct rows as [|r rows].
    + destruct ws; [|discriminate]. split; [auto|reflexivity].
    + rewrite verify_samples_sum
        by (try assumption; apply sample_indices_bound; cbn; lia).
      split; [discriminate|intros [? _]; discriminate].
  - intros HL. apply Nat.eqb_neq in HL. now rewrite HL.
Qed.

Lemma verify_conversion_outcomes_witness :
  verify_conversion [] [] = IndexErrorRaised
  /\ verify_conversion sample_table [0] = Verified false.
Proof.
  split.
  - exact (proj2 (proj1 (verify_conversion_outcomes [] [])) (conj eq_refl eq_refl)).
  - exact (proj2 (verify_conversion_outcomes sample_table [0]) ltac:(discriminate)).
Defined.

Lemma byte_mod (x : Z) : x mod 256 = x <-> fits_byte x.
Proof.
  unfold fits_byte. split.
  - intros E. pose proof (Z.mod_pos_bound x 256 ltac:(lia)). lia.
  - intros H. apply Z.mod_small. lia.
Qed.

Lemma sample_errors_encoded (r : node_row) (w : Z) :
  node_to_binary r = Ok w ->
  sample_errors r w = 0 <->
  fits_byte (Node r) /\ fits_byte (Left_Child r) /\ fits_byte (Right_Child r).
Proof.
  intros H. rewrite sample_errors_zero.
  destruct (decode_encode_low_bits r w H) as (-> & -> & ->).
  now rewrite !byte_mod.
Qed.

Lemma py_index_Forall2 {A B : Type} (P : A -> B -> Prop) (l : list A) (l' : list B)
    (i : Z) (x : A) (y : B) :
  Forall2 P l l' -> py_index l i = Some x -> py_index l' i = Some y -> P x y.
Proof.
  intros HF. pose proof (Forall2_length HF) as HL.
  unfold py_index. rewrite <- HL.
  assert (N : forall k, nth_error l k = Some x -> nth_error l' k = Some y -> P x y).
  { clear i HL. induction HF as [|a b l l' Hab HF IH]; intros [|k]; cbn; try discriminate.
    - now intros [= <-] [= <-].
    - intros H1 H2. exact (IH k H1 H2). }
  destruct ((0 <=? i) && (i <? Z.of_nat (List.length l))); [apply N|].
  destruct ((- Z.of_nat (List.length l) <=? i) && (i <? 0)); [apply N|discriminate].
Qed.

(** X8.  On a non-empty table and its own encoding, the verification passes
    exactly when every sampled row (indices 0, 1, 2, 10, 50 where they
    exist, and the last row) has its id and both children within
    [0..255]. *)
Theorem verify_conversion_encoded (rows : list node_row) (ws : list Z) :
  rows <> [] -> convert_rows rows [] = Ok ws ->
  exists passed,
    verify_conversion rows ws = Verified passed
    /\ (passed = true <->
        forall i row,
          In i sample_indices -> i < Z.of_nat (List.length rows) ->
          py_index rows i = Some row ->
          fits_byte (Node row) /\ fits_byte (Left_Child row)
          /\ fits_byte (Right_Child row)).
Proof.
  intros Hne Hc. pose proof (convert_rows_cases rows) as T. rewrite Hc in T.
  destruct T as [HF HL].
  assert (Hn : (1 <= List.length rows)%nat)
    by (destruct rows; [contradiction|cbn; lia]).
  unfold verify_conversion.
  replace (List.length rows =? List.length ws)%nat with true
    by (symmetry; apply Nat.eqb_eq; lia).
  cbn [negb].
  rewrite verify_samples_sum by (auto using sample_indices_bound).
  eexists. split; [reflexivity|].
  rewrite Z.eqb_eq, Z.add_0_l, fold_errors_zero.
  split.
  - intros Hall i row Hi Hlt Hrow. specialize (Hall i Hi).
    unfold error_at in Hall. pose proof Hlt as Hlt'.
    apply Z.leb_gt in Hlt'. rewrite Hlt', Hrow in Hall.
    assert (Hb : - Z.of_nat (List.length ws) <= i < Z.of_nat (List.length ws)).
    { rewrite HL. split; [|lia].
      pose proof (sample_indices_bound _ Hn) as B.
      rewrite Forall_forall in B. now apply B. }
    destruct (py_index_some ws i Hb) as [w Hw]. rewrite Hw in Hall.
    apply (sample_errors_encoded row w); [|exact Hall].
    exact (py_index_Forall2 _ _ _ i row w HF Hrow Hw).
  - intros Hall i Hi. unfold error_at.
    destruct (Z.leb_spec (Z.of_nat (List.length rows)) i) as [Hs|Hs]; [reflexivity|].
    destruct (py_index rows i) as [row|] eqn:Hrow; [|reflexivity].
    destruct (py_index ws i) as [w|] eqn:Hw; [|reflexivity].
    apply (sample_errors_encoded row w).
    + exact (py_index_Forall2 _ _ _ i row w HF Hrow Hw).
    + now apply (Hall i row).
Qed.

Lemma verify_conversion_encoded_witness :
  exists passed,
    verify_conversion sample_table sample_words = Verified passed
    /\ (passed = true <->
        forall i row,
          In i sample_indices -> i < Z.of_nat (List.length sample_table) ->
          py_index sample_table i = Some row ->
          fits_byte (Node row) /\ fits_byte (Left_Child row)
          /\ fits_byte (Right_Child row)).
Proof.
  exact (verify_conversion_encoded sample_table sample_words
           ltac:(discriminate) ltac:(vm_compute; reflexivity)).
Defined.

End Verify.

Section VerifyBlind.

Lemma replace_at_length {A : Type} (k : nat) (x : A) (l : list A) :
  (k < List.length l)%nat -> List.length (replace_at k x l) = List.length l.
Proof.
  intros Hk. unfold replace_at.
  rewrite length_app, firstn_length_le by lia. cbn [List.length].
  rewrite length_skipn. lia.
Qed.

Lemma nth_error_replace_at {A : Type} (k j : nat) (x : A) (l : list A) :
  (k < List.length l)%nat -> j <> k ->
  nth_error (replace_at k x l) j = nth_error l j.
Proof.
  intros Hk Hj. unfold replace_at.
  destruct (Nat.lt_ge_cases j k) as [L|G].
  - rewrite nth_error_app1 by (rewrite firstn_length_le; lia).
    now rewrite nth_error_firstn, (proj2 (Nat.ltb_lt j k) L).
  - rewrite nth_error_app2 by (rewrite firstn_length_le; lia).
    rewrite firstn_length_le by lia.
    destruct (j - k)%nat as [|d] eqn:E; [lia|].
    cbn [nth_error]. rewrite nth_error_skipn. f_equal. lia.
Qed.

Lemma nth_error_replace_at_same {A : Type} (k : nat) (x : A) (l : list A) :
  (k < List.length l)%nat -> nth_error (replace_at k x l) k = Some x.
Proof.
  intros Hk. unfold replace_at.
  rewrite nth_error_app2 by (rewrite firstn_length_le; lia).
  rewrite firstn_length_le by lia. now rewrite Nat.sub_diag.
Qed.

(** The position a Python index falls on. *)
Lemma py_index_nth {A : Type} (l : list A) (i : Z) :
  py_index l i =
  if (- Z.of_nat (List.length l) <=? i) && (i <? Z.of_nat (List.length l))
  then nth_error l (Z.to_nat (if 0 <=? i then i else Z.of_nat (List.length l) + i))
  else None.
Proof.
  unfold py_index.
  destruct (Z.leb_spec 0 i), (Z.ltb_spec i (Z.of_nat (List.length l))),
    (Z.leb_spec (- Z.of_nat (List.length l)) i), (Z.ltb_spec i 0);
    cbn [andb]; try reflexivity; lia.
Qed.

Lemma sample_errors_fields (r : node_row) (w w' : Z) :
  node_id (decode_node w) = node_id (decode_node w') ->
  left_child (decode_node w) = left_child (decode_node w') ->
  right_child (decode_node w) = right_child (decode_node w') ->
  sample_errors r w = sample_errors r w'.
Proof. unfold sample_errors. now intros -> -> ->. Qed.

Lemma verify_samples_ext (rows : list node_row) (ws ws' : list Z)
    (indices : list Z) (errors : Z) :
  (forall i, In i indices ->
     match py_index ws i, py_index ws' i with
     | Some w, Some w' => forall r, sample_errors r w = sample_errors r w'
     | None, None => True
     | _, _ => False
     end) ->
  verify_samples rows ws indices errors = verify_samples rows ws' indices errors.
Proof.
  revert errors. induction indices as [|i indices IH]; intros errors H; [reflexivity|].
  cbn [verify_samples].
  rewrite (IH errors) by (intros j Hj; apply H; now right).
  pose proof (H i (or_introl eq_refl)) as Hi.
  destruct (_ <=? _); [reflexivity|].
  destruct (py_index rows i) as [r|]; [|reflexivity].
  destruct (py_index ws i) as [w|], (py_index ws' i) as [w'|]; try contradiction;
    [|reflexivity].
  rewrite (Hi r). apply IH. intros j Hj. apply H. now right.
Qed.

(** X9.  The verification is a spot check.  Replacing a word at a position
    other than 0, 1, 2, 10, 50 and the last one never changes its outcome;
    nor does replacing any word by one with the same id and children
    fields, whatever its feature, threshold and type bits. *)
Theorem verify_conversion_blind (rows : list node_row) (ws : list Z)
    (k : nat) (w' : Z) :
  (k < List.length ws)%nat ->
  (~ In k [0; 1; 2; 10; 50]%nat /\ S k <> List.length ws
   \/ (exists w, nth_error ws k = Some w
        /\ node_id (decode_node w') = node_id (decode_node w)
        /\ left_child (decode_node w') = left_child (decode_node w)
        /\ right_child (decode_node w') = right_child (decode_node w))) ->
  verify_conversion rows (replace_at k w' ws) = verify_conversion rows ws.
Proof.
  intros Hk Hcase. unfold verify_conversion.
  rewrite replace_at_length by assumption.
  destruct (negb _); [reflexivity|].
  rewrite (verify_samples_ext rows (replace_at k w' ws) ws); [reflexivity|].
  intros i Hi. rewrite !py_index_nth, replace_at_length by assumption.
  destruct ((- Z.of_nat (List.length ws) <=? i) && (i <? Z.of_nat (List.length ws)))
    eqn:Hb; [|exact I].
  apply andb_true_iff in Hb. destruct Hb as [Hlo Hhi].
  apply Z.leb_le in Hlo. apply Z.ltb_lt in Hhi.
  set (j := Z.to_nat (if 0 <=? i then i else Z.of_nat (List.length ws) + i)).
  destruct (Nat.eq_dec j k) as [E|N].
  - rewrite E, nth_error_replace_at_same by assumption.
    destruct Hcase as [[Hnot Hlast]|(w & Hw & H1 & H2 & H3)].
    + exfalso. unfold sample_indices in Hi. subst j. cbn [In] in Hi, Hnot.
      destruct Hi as [<-|[<-|[<-|[<-|[<-|[<-|[]]]]]]]; cbn in E; lia.
    + rewrite Hw. intros r. now apply sample_errors_fields.
  - rewrite nth_error_replace_at by assumption.
    destruct (nth_error ws j); [reflexivity|exact I].
Qed.

Lemma verify_conversion_blind_witness :
  verify_conversion sample_table (replace_at 1 216172782113783808 sample_words)
  = verify_conversion sample_table sample_words
  /\ verify_conversion (sample_table ++ sample_table)
       (replace_at 3 0 (sample_words ++ sample_words))
     = verify_conversion (sample_table ++ sample_table) (sample_words ++ sample_words).
Proof.
  split.
  - apply (verify_conversion_blind sample_table sample_words 1 216172782113783808);
      [cbn; lia|right; eexists; split; [reflexivity|]].
    vm_compute. split; [reflexivity|split; reflexivity].
  - apply (verify_conversion_blind (sample_table ++ sample_table)
             (sample_words ++ sample_words) 3 0);
      [cbn; lia|left; split; [cbn; lia|cbn; lia]].
Defined.

End VerifyBlind.

(** ** A word as a line of binary digits *)

Section BinaryText.

Local Open Scope string_scope.

Lemma string_length_app (a b : string) :
  String.length (a ++ b) = (String.length a + String.length b)%nat.
Proof. induction a as [|c a IH]; cbn; [reflexivity|now rewrite IH]. Qed.

Lemma read_binary_app (a b : string) (acc : Z) :
  read_binary (a ++ b) acc =
  match read_binary a acc with
  | Some v => read_binary b v
  | None => None
  end.
Proof.
  revert acc. induction a as [|c a IH]; intros acc; [reflexivity|].
  cbn [append read_binary].
  destruct (Ascii.eqb c "0"); [apply IH|].
  destruct (Ascii.eqb c "1"); [apply IH|reflexivity].
Qed.

Lemma read_binary_zeros (n : nat) : read_binary (zeros n) 0 = Some 0%Z.
Proof. induction n as [|n IH]; [reflexivity|exact IH]. Qed.

Lemma zeros_length (n : nat) : String.length (zeros n) = n.
Proof. induction n as [|n IH]; cbn; [reflexivity|now rewrite IH]. Qed.

Lemma zeros_binary (n : nat) : string_forallb is_binary_digit (zeros n) = true.
Proof. induction n as [|n IH]; [reflexivity|exact IH]. Qed.

Lemma bin_digits_length (p : positive) :
  String.length (bin_digits p) = Pos.to_nat (digits2_pos p).
Proof.
  induction p as [p IH|p IH|]; cbn [bin_digits digits2_pos];
    rewrite ?string_length_app, ?IH, ?Pos2Nat.inj_succ; cbn; lia.
Qed.

Lemma bin_digits_binary (p : positive) :
  string_forallb is_binary_digit (bin_digits p) = true.
Proof.
  induction p as [p IH|p IH|]; cbn [bin_digits];
    rewrite ?string_forallb_app, ?IH; reflexivity.
Qed.

Lemma bin_digits_read (p : positive) : read_binary (bin_digits p) 0 = Some (Zpos p).
Proof.
  induction p as [p IH|p IH|]; cbn [bin_digits];
    rewrite ?read_binary_app, ?IH; reflexivity.
Qed.

Lemma format_064b_word (w : Z) :
  0 <= w < 2 ^ 64 ->
  String.length (format_064b w) = 64%nat
  /\ string_forallb is_binary_digit (format_064b w) = true
  /\ read_binary (format_064b w) 0 = Some w.
Proof.
  intros Hw. destruct w as [|p|p]; [repeat split| |lia].
  unfold format_064b.
  rewrite string_length_app, zeros_length, string_forallb_app, zeros_binary,
    bin_digits_binary, read_binary_app, read_binary_zeros, bin_digits_read.
  split; [|split; reflexivity].
  rewrite bin_digits_length.
  destruct (digits2_bounds p) as [Hlo _].
  assert (Zpos (digits2_pos p) - 1 < 64).
  { apply (Z.pow_lt_mono_r_iff 2); lia. }
  lia.
Qed.

(** X10.  Every word the encoder returns is written as exactly 64 binary
    digits, and these digits denote the word. *)
Theorem encoded_word_text (r : node_row) (w : Z) :
  node_to_binary r = Ok w ->
  String.length (format_064b w) = 64%nat
  /\ string_forallb is_binary_digit (format_064b w) = true
  /\ read_binary (format_064b w) 0 = Some w.
Proof.
  intros H. apply format_064b_word.
  destruct (node_to_binary_packed r w H) as (f & t & k & ->). apply pack_range.
Qed.

Lemma encoded_word_text_witness :
  String.length (format_064b 3188601312803292160) = 64%nat
  /\ string_forallb is_binary_digit (format_064b 3188601312803292160) = true
  /\ read_binary (format_064b 3188601312803292160) 0 = Some 3188601312803292160.
Proof.
  exact (encoded_word_text wide_row 3188601312803292160 ltac:(vm_compute; reflexivity)).
Defined.

End BinaryText.

(** ** Time deltas without NaN *)

Section TimeDelta.

Lemma shr_1_nonneg (mrs : shr_record) : 0 <= shr_m mrs -> 0 <= shr_m (shr_1 mrs).
Proof.
  destruct mrs as [m r s]. cbn [shr_m]. intros H.
  destruct m as [|[p|p|]|p]; cbn; lia.
Qed.

Lemma shr_nonneg (mrs : shr_record) (e n : Z) :
  0 <= shr_m mrs -> 0 <= shr_m (fst (shr mrs e n)).
Proof.
  intros H. unfold shr. destruct n as [|p|p]; cbn [fst]; try assumption.
  rewrite iter_pos_nat. induction (Pos.to_nat p) as [|k IH]; [assumption|].
  rewrite Nat.iter_succ. now apply shr_1_nonneg.
Qed.

Lemma shr_fexp_nonneg (m e : Z) (l : location) :
  0 <= m -> 0 <= shr_m (fst (shr_fexp PyFloat.prec PyFloat.emax m e l)).
Proof.
  intros H. unfold shr_fexp. apply shr_nonneg.
  destruct l as [|[]]; exact H.
Qed.

Lemma round_nearest_even_nonneg (m : Z) (l : location) :
  0 <= m -> 0 <= round_nearest_even m l.
Proof.
  intros H. destruct l as [|[]]; cbn; try lia. destruct (Z.even m); lia.
Qed.

Lemma binary_round_aux_not_nan (s : bool) (m e : Z) (l : location) :
  0 <= m -> is_nan (binary_round_aux PyFloat.prec PyFloat.emax s m e l) = false.
Proof.
  intros H. unfold binary_round_aux.
  pose proof (shr_fexp_nonneg m e l H) as H1.
  destruct (shr_fexp PyFloat.prec PyFloat.emax m e l) as [mrs' e'].
  cbn [fst] in H1.
  pose proof (shr_fexp_nonneg _ e' loc_Exact
                (round_nearest_even_nonneg _ (loc_of_shr_record mrs') H1)) as H2.
  destruct (shr_fexp PyFloat.prec PyFloat.emax _ e' loc_Exact) as [mrs'' e''].
  cbn [fst] in H2.
  destruct (shr_m mrs'') as [|p|p]; [reflexivity| |lia].
  now destruct (e'' <=? _).
Qed.

Lemma binary_normalize_not_nan (m e : Z) (szero : bool) :
  is_nan (binary_normalize PyFloat.prec PyFloat.emax m e szero) = false.
Proof.
  unfold binary_normalize, binary_round.
  destruct m as [|p|p]; [reflexivity| |];
    match goal with
    | |- context [shl_align ?a ?b ?c] => destruct (shl_align a b c) as [mz ez]
    end; now apply binary_round_aux_not_nan.
Qed.

(** The difference of two finite floats is a number (possibly infinite),
    never a NaN. *)
Lemma sub_finite_not_nan (x y : spec_float) :
  is_finite x = true -> is_finite y = true -> is_nan (PyFloat.sub x y) = false.
Proof.
  intros Hx Hy. unfold PyFloat.sub, SFsub.
  destruct x as [sx|sx| |sx mx ex]; try discriminate;
    destruct y as [sy|sy| |sy my ey]; try discriminate; try reflexivity.
  - now destruct sx, sy.
  - apply binary_normalize_not_nan.
Qed.

Lemma SFcompare_antisym (x y : spec_float) (c : comparison) :
  SFcompare x y = Some c -> SFcompare y x = Some (CompOpp c).
Proof.
  destruct x as [sx|sx| |sx mx ex], y as [sy|sy| |sy my ey]; cbn;
    try discriminate; intros [= <-];
    try (now destruct sx); try (now destruct sy); try (now destruct sx, sy).
  destruct sx, sy; try reflexivity;
    rewrite (Z.compare_antisym ex ey); destruct (ex ?= ey); cbn; try reflexivity;
    change (Pos.compare_cont Eq my mx) with (Pos.compare my mx);
    change (Pos.compare_cont Eq mx my) with (Pos.compare mx my);
    rewrite (Pos.compare_antisym mx my); now destruct (mx ?= my)%positive.
Qed.

Lemma SFcompare_defined (x y : spec_float) :
  is_nan x = false -> is_nan y = false -> exists c, SFcompare x y = Some c.
Proof.
  destruct x, y; cbn; try discriminate; eauto.
Qed.

(** Clamping a number into [0, 1] with [max] and [min]. *)
Lemma clamp_unit_range (x : spec_float) :
  is_nan x = false ->
  let d := PyFloat.min (PyFloat.max x zero_float) one_float in
  SFleb zero_float d = true /\ SFleb d one_float = true.
Proof.
  intros Hx. cbv zeta. unfold PyFloat.max, PyFloat.min.
  destruct (SFltb x zero_float) eqn:H0.
  - split; reflexivity.
  - destruct (SFltb one_float x) eqn:H1.
    + split; reflexivity.
    + destruct (SFcompare_defined x zero_float Hx eq_refl) as [c0 C0].
      destruct (SFcompare_defined one_float x eq_refl Hx) as [c1 C1].
      pose proof (SFcompare_antisym _ _ _ C0) as A0.
      pose proof (SFcompare_antisym _ _ _ C1) as A1.
      unfold SFltb in H0, H1. rewrite C0 in H0. rewrite C1 in H1.
      unfold SFleb. rewrite A0, A1.
      destruct c0, c1; try discriminate; split; reflexivity.
Qed.

End TimeDelta.

(** ** Payloads of hexadecimal digits *)

Section Payload.

Local Open Scope string_scope.

Lemma string_pair_ind (P : string -> Prop) :
  P EmptyString ->
  (forall c, P (String c EmptyString)) ->
  (forall c1 c2 s, P s -> P (String c1 (String c2 s))) ->
  forall s, P s.
Proof.
  intros H0 H1 H2 s.
  assert (H : P s /\ forall c, P (String c s)).
  { induction s as [|c s [IH IHc]]; [split; [exact H0|exact H1]|].
    split; [apply IHc|]. intros c'. now apply H2. }
  apply H.
Qed.

Lemma hex_value_range (c : ascii) (d : Z) :
  PyInt.hex_value c = Some d -> 0 <= d <= 15.
Proof.
  unfold PyInt.hex_value.
  repeat match goal with
  | |- context [if ?b then _ else _] => destruct b eqn:?
  end; intros [= <-];
  repeat match goal with
  | H : (_ && _)%bool = true |- _ => apply andb_true_iff in H; destruct H
  | H : (_ <=? _)%N = true |- _ => apply N.leb_le in H
  end; lia.
Qed.

Lemma remove_char_absent (a : ascii) (s : string) :
  string_forallb (fun c => negb (Ascii.eqb c a)) s = true ->
  PyStr.remove (String a EmptyString) s = s.
Proof.
  unfold PyStr.remove. induction s as [|c s IH]; intros H; [reflexivity|].
  cbn [string_forallb] in H. apply andb_true_iff in H. destruct H as [Hc Hs].
  apply negb_true_iff in Hc.
  rewrite remove_from_0, prefix_cons, Ascii.eqb_sym, Hc. now rewrite IH.
Qed.

Lemma lstrip_no_space (s : string) :
  string_forallb (fun c => negb (PyStr.isspace c)) s = true -> PyStr.lstrip s = s.
Proof.
  destruct s as [|c s]; [reflexivity|]. cbn [string_forallb PyStr.lstrip].
  intros H. apply andb_true_iff in H. destruct H as [Hc _].
  apply negb_true_iff in Hc. now rewrite Hc.
Qed.

(** Cleaning leaves a text of hexadecimal digits as it is. *)
Lemma clean_data_hex (d : string) :
  string_forallb is_hex_digit d = true -> clean_data d = d.
Proof.
  intros H. destruct (hex_no_x d H) as (Hx & HX & Hsp).
  unfold clean_data.
  rewrite (remove_absent "0" "x"), (remove_absent "0" "X") by assumption.
  rewrite remove_char_absent.
  - unfold PyStr.strip. rewrite lstrip_no_space by assumption.
    now apply rstrip_no_space.
  - eapply string_forallb_impl; [|exact Hsp]. intros c Hc.
    apply negb_true_iff in Hc. apply negb_true_iff.
    destruct (Ascii.eqb_spec c " ") as [->|]; [discriminate Hc|reflexivity].
Qed.

Lemma int16_hex_pair (c1 c2 : ascii) (a b : Z) :
  PyInt.hex_value c1 = Some a -> PyInt.hex_value c2 = Some b ->
  PyInt.int16 (String c1 (String c2 EmptyString)) = Ok (16 * a + b).
Proof.
  intros Ha Hb. apply int16_hex_digits; [discriminate|].
  cbn [hex_number]. rewrite Ha, Hb. f_equal. lia.
Qed.

Lemma substring_skip (pre t : string) (n : nat) :
  substring (String.length pre) n (pre ++ t) = substring 0 n t.
Proof. induction pre as [|c pre IH]; [reflexivity|exact IH]. Qed.

Lemma append_assoc (a b c : string) : (a ++ b) ++ c = a ++ (b ++ c).
Proof. induction a as [|x a IH]; cbn; [reflexivity|now rewrite IH]. Qed.

Lemma range_from_done (fuel start stop : nat) :
  (stop <= start)%nat -> PyStr.range_from fuel start stop 2 = [].
Proof.
  intros H. destruct fuel; [reflexivity|]. cbn [PyStr.range_from].
  now rewrite (proj2 (Nat.ltb_ge start stop) H).
Qed.

(** The [byte_sum] loop on a text of hexadecimal digits adds up the bytes
    it spells. *)
Lemma byte_sum_loop_hex (s : string) :
  string_forallb is_hex_digit s = true ->
  forall (pre : string) (fuel : nat) (acc : Z),
    (String.length s <= fuel)%nat ->
    byte_sum_loop (pre ++ s)
      (PyStr.range_from fuel (String.length pre) (String.length (pre ++ s)) 2) acc
    = Ok (acc + sum_list (hex_pairs s)).
Proof.
  induction s as [|c|c1 c2 s IH] using string_pair_ind; intros Hall pre fuel acc Hf.
  - rewrite range_from_done by (rewrite string_length_app; cbn; lia).
    cbn. f_equal. lia.
  - destruct fuel as [|fuel]; [cbn in Hf; lia|].
    cbn [PyStr.range_from]. rewrite string_length_app. cbn [String.length].
    replace (String.length pre <? String.length pre + 1)%nat with true
      by (symmetry; apply Nat.ltb_lt; lia).
    rewrite range_from_done by lia.
    cbn [byte_sum_loop]. rewrite string_length_app. cbn [String.length].
    replace (String.length pre + 2 <=? String.length pre + 1)%nat with false
      by (symmetry; apply Nat.leb_gt; lia).
    cbn. f_equal. lia.
  - cbn [string_forallb] in Hall.
    apply andb_true_iff in Hall. destruct Hall as [H1 Hall].
    apply andb_true_iff in Hall. destruct Hall as [H2 Hall].
    unfold is_hex_digit in H1, H2.
    destruct (PyInt.hex_value c1) as [a|] eqn:Ha; [|discriminate].
    destruct (PyInt.hex_value c2) as [b|] eqn:Hb; [|discriminate].
    destruct fuel as [|fuel]; [cbn in Hf; lia|].
    cbn [PyStr.range_from]. rewrite string_length_app. cbn [String.length].
    replace (String.length pre <? String.length pre + S (S (String.length s)))%nat
      with true by (symmetry; apply Nat.ltb_lt; lia).
    cbn [byte_sum_loop]. rewrite string_length_app. cbn [String.length].
    replace (String.length pre + 2 <=? String.length pre + S (S (String.length s)))%nat
      with true by (symmetry; apply Nat.leb_le; lia).
    unfold PyStr.slice. rewrite substring_skip.
    change (substring 0 2 (String c1 (String c2 s)))
      with (String c1 (String c2 (substring 0 0 s))).
    replace (substring 0 0 s) with EmptyString by (now destruct s).
    rewrite (int16_hex_pair c1 c2 a b Ha Hb). cbn [bind].
    specialize (IH Hall (pre ++ String c1 (String c2 EmptyString)) fuel
                  (acc + (16 * a + b))).
    rewrite append_assoc in IH. cbn [append] in IH.
    rewrite !string_length_app in IH. cbn [String.length] in IH.
    replace (String.length pre + 2)%nat with (String.length pre + 2)%nat in IH by lia.
    rewrite IH by (cbn in Hf; lia).
    cbn [hex_pairs]. rewrite Ha, Hb. cbn [sum_list fold_right].
    f_equal. unfold sum_list. lia.
Qed.

Lemma compute_byte_sum_hex (s : string) :
  string_forallb is_hex_digit s = true ->
  compute_byte_sum s = Ok (sum_list (hex_pairs s)).
Proof.
  intros H. unfold compute_byte_sum, PyStr.range.
  pose proof (byte_sum_loop_hex s H EmptyString (String.length s) 0 (le_n _)) as L.
  cbn [append String.length] in L. now rewrite L.
Qed.

End Payload.

Section Bytes.

Local Open Scope string_scope.

Lemma length_substring (s : string) :
  forall i n : nat, (i + n <= String.length s)%nat ->
  String.length (substring i n s) = n.
Proof.
  induction s as [|c s IH]; intros i n H.
  - cbn in H. assert (i = 0%nat) by lia. assert (n = 0%nat) by lia. now subst.
  - destruct i as [|i].
    + destruct n as [|n]; [reflexivity|]. cbn [substring String.length].
      f_equal. apply IH. cbn in H. lia.
    + cbn [substring]. apply IH. cbn in H. lia.
Qed.

Lemma substring_forallb (p : ascii -> bool) (s : string) :
  string_forallb p s = true ->
  forall i n : nat, string_forallb p (substring i n s) = true.
Proof.
  induction s as [|c s IH]; intros H i n.
  - now destruct i, n.
  - cbn [string_forallb] in H. apply andb_true_iff in H. destruct H as [Hc Hs].
    destruct i as [|i].
    + destruct n as [|n]; [reflexivity|]. cbn [substring string_forallb].
      now rewrite Hc, IH.
    + cbn [substring]. now apply IH.
Qed.

Lemma two_chars (s : string) :
  String.length s = 2%nat -> exists c1 c2, s = String c1 (String c2 EmptyString).
Proof.
  destruct s as [|c1 [|c2 [|c3 s]]]; try discriminate. intros _. now exists c1, c2.
Qed.

Lemma chunk_in_range_2 (c1 c2 : ascii) :
  chunk_in_range (String c1 (String c2 EmptyString)) = true.
Proof.
  revert c2. apply ascii_forall. revert c1.
  apply (ascii_forall (fun c1 =>
    forallb (fun n => chunk_in_range (String c1 (String (ascii_of_nat n) EmptyString)))
      (seq 0 256))).
  vm_compute. reflexivity.
Qed.

Lemma int16_chunk_range (s : string) (v : Z) :
  String.length s = 2%nat -> PyInt.int16 s = Ok v -> -15 <= v <= 255.
Proof.
  intros L H. destruct (two_chars s L) as (c1 & c2 & ->).
  pose proof (chunk_in_range_2 c1 c2) as R. unfold chunk_in_range in R.
  rewrite H in R. apply andb_true_iff in R. destruct R as [A B].
  apply Z.leb_le in A. apply Z.leb_le in B. lia.
Qed.

(** The [byte_sum] loop adds one number from -15 to 255 for each complete
    pair of characters. *)
Lemma byte_sum_loop_range (s : string) (fuel : nat) :
  forall (start : nat) (acc v : Z),
    byte_sum_loop s (PyStr.range_from fuel start (String.length s) 2) acc = Ok v ->
    2 * acc - 15 * Z.of_nat (String.length s - start) <= 2 * v
    /\ 2 * v <= 2 * acc + 255 * Z.of_nat (String.length s - start).
Proof.
  induction fuel as [|fuel IH]; intros start acc v H.
  - cbn in H. injection H as <-. lia.
  - cbn [PyStr.range_from] in H.
    destruct (Nat.ltb_spec start (String.length s)) as [Hlt|Hge].
    + cbn [byte_sum_loop] in H.
      destruct (Nat.leb_spec (start + 2) (String.length s)) as [Hin|Hout].
      * destruct (PyInt.int16 (PyStr.slice start 2 s)) as [b|e] eqn:Hb;
          [|discriminate].
        cbn [bind] in H. apply IH in H.
        assert (Hr : -15 <= b <= 255).
        { apply (int16_chunk_range (PyStr.slice start 2 s)); [|exact Hb].
          unfold PyStr.slice. now apply length_substring. }
        lia.
      * apply IH in H. lia.
    + cbn in H. injection H as <-. lia.
Qed.

Lemma hex_pairs_range (s : string) :
  Forall fits_byte (hex_pairs s)
  /\ (2 * Z.of_nat (List.length (hex_pairs s)) <= Z.of_nat (String.length s)).
Proof.
  induction s as [|c|c1 c2 s [IH IHl]] using string_pair_ind.
  - split; [constructor|cbn; lia].
  - split; [constructor|cbn; lia].
  - cbn [hex_pairs].
    destruct (PyInt.hex_value c1) as [a|] eqn:Ha; [|split; [constructor|cbn; lia]].
    destruct (PyInt.hex_value c2) as [b|] eqn:Hb; [|split; [constructor|cbn; lia]].
    apply hex_value_range in Ha. apply hex_value_range in Hb.
    split; [constructor; [unfold fits_byte; lia|exact IH]|].
    cbn [List.length String.length]. lia.
Qed.

Lemma hex_pairs_length (s : string) :
  string_forallb is_hex_digit s = true ->
  List.length (hex_pairs s) = (String.length s / 2)%nat.
Proof.
  induction s as [|c|c1 c2 s IH] using string_pair_ind; intros H;
    [reflexivity|reflexivity|].
  cbn [string_forallb] in H.
  apply andb_true_iff in H. destruct H as [H1 H].
  apply andb_true_iff in H. destruct H as [H2 H].
  unfold is_hex_digit in H1, H2. cbn [hex_pairs].
  destruct (PyInt.hex_value c1); [|discriminate].
  destruct (PyInt.hex_value c2); [|discriminate].
  cbn [List.length String.length]. rewrite (IH H).
  change (S (S (String.length s))) with (1 * 2 + String.length s)%nat.
  rewrite Nat.div_add_l by discriminate. lia.
Qed.

Lemma sum_list_range (l : list Z) :
  Forall fits_byte l -> 0 <= sum_list l <= 255 * Z.of_nat (List.length l).
Proof.
  induction 1 as [|x l Hx _ IH]; [cbn; lia|].
  unfold fits_byte in Hx. cbn [sum_list fold_right List.length] in *.
  unfold sum_list in IH. lia.
Qed.

Lemma first_byte_hex (d : string) :
  string_forallb is_hex_digit d = true ->
  (if (2 <=? String.length d)%nat then PyInt.int16 (PyStr.first_n 2 d) else Ok 0)
  = Ok (hd 0 (hex_pairs d)).
Proof.
  destruct d as [|c1 [|c2 s]]; intros H; [reflexivity|reflexivity|].
  cbn [string_forallb] in H.
  apply andb_true_iff in H. destruct H as [H1 H].
  apply andb_true_iff in H. destruct H as [H2 H].
  unfold is_hex_digit in H1, H2.
  destruct (PyInt.hex_value c1) as [a|] eqn:Ha; [|discriminate].
  destruct (PyInt.hex_value c2) as [b|] eqn:Hb; [|discriminate].
  cbn [String.length Nat.leb]. unfold PyStr.first_n.
  change (substring 0 2 (String c1 (String c2 s)))
    with (String c1 (String c2 (substring 0 0 s))).
  replace (substring 0 0 s) with EmptyString by (now destruct s).
  rewrite (int16_hex_pair c1 c2 a b Ha Hb). cbn [hex_pairs]. now rewrite Ha, Hb.
Qed.

Lemma last_byte_hex (d : string) :
  string_forallb is_hex_digit d = true ->
  (if (2 <=? String.length d)%nat then PyInt.int16 (PyStr.last_n 2 d) else Ok 0)
  = Ok (hd 0 (hex_pairs (PyStr.last_n 2 d))).
Proof.
  intros H. destruct (Nat.leb_spec 2 (String.length d)) as [L|L].
  - assert (L2 : String.length (PyStr.last_n 2 d) = 2%nat)
      by (unfold PyStr.last_n; apply length_substring; lia).
    destruct (two_chars _ L2) as (c1 & c2 & E).
    pose proof (substring_forallb is_hex_digit d H (String.length d - 2) 2) as A.
    fold (PyStr.last_n 2 d) in A. rewrite E in *.
    cbn [string_forallb] in A.
    apply andb_true_iff in A. destruct A as [H1 A].
    apply andb_true_iff in A. destruct A as [H2 _].
    unfold is_hex_digit in H1, H2.
    destruct (PyInt.hex_value c1) as [a|] eqn:Ha; [|discriminate].
    destruct (PyInt.hex_value c2) as [b|] eqn:Hb; [|discriminate].
    rewrite (int16_hex_pair c1 c2 a b Ha Hb). cbn [hex_pairs]. now rewrite Ha, Hb.
  - destruct d as [|c [|c' s]]; [reflexivity|reflexivity|cbn in L; lia].
Qed.

(** With an even number of digits the last two are the last byte. *)
Lemma last_pair_even (d : string) :
  string_forallb is_hex_digit d = true ->
  Nat.even (String.length d) = true ->
  hd 0 (hex_pairs (PyStr.last_n 2 d)) = last (hex_pairs d) 0.
Proof.
  induction d as [|c|c1 c2 s IH] using string_pair_ind; intros H E;
    [reflexivity|discriminate|].
  cbn [string_forallb] in H.
  apply andb_true_iff in H. destruct H as [H1 H].
  apply andb_true_iff in H. destruct H as [H2 H].
  change (Nat.even (String.length s) = true) in E.
  specialize (IH H E).
  unfold is_hex_digit in H1, H2.
  destruct (PyInt.hex_value c1) as [a|] eqn:Ha; [|discriminate].
  destruct (PyInt.hex_value c2) as [b|] eqn:Hb; [|discriminate].
  destruct s as [|c3 [|c4 s]]; [|discriminate|].
  - cbn. now rewrite Ha, Hb.
  - unfold PyStr.last_n in *. cbn [String.length] in *.
    replace (S (S (S (S (String.length s)))) - 2)%nat
      with (S (S (S (S (String.length s)) - 2)))%nat by lia.
    change (substring (S (S (S (S (String.length s)) - 2))) 2
              (String c1 (String c2 (String c3 (String c4 s)))))
      with (substring (S (S (String.length s)) - 2) 2 (String c3 (String c4 s))).
    rewrite IH.
    cbn [hex_pairs]. rewrite Ha, Hb.
    cbn [string_forallb] in H.
    apply andb_true_iff in H. destruct H as [H3 H].
    apply andb_true_iff in H. destruct H as [H4 H].
    unfold is_hex_digit in H3, H4.
    destruct (PyInt.hex_value c3); [|discriminate].
    destruct (PyInt.hex_value c4); [|discriminate].
    reflexivity.
Qed.

End Bytes.

(** [validate_features] accepts exactly the records whose six values are
    in their ranges. *)
Lemma validate_features_spec (f : features) :
  validate_features f = true <->
  0 <= arb_id_dec f <= 2047 /\ 0 <= data_length f <= 16
  /\ 0 <= first_byte f <= 255 /\ 0 <= last_byte f <= 255
  /\ 0 <= byte_sum f <= 2047
  /\ SFleb zero_float (time_delta f) = true /\ SFleb (time_delta f) one_float = true.
Proof.
  unfold validate_features, checks, validate_loop, features_get, number_le.
  cbn [String.eqb Ascii.eqb Bool.eqb].
  change (PyFloat.of_int 0) with zero_float.
  repeat match goal with
  | |- context [(?a <=? ?b)] =>
      let E := fresh "E" in destruct (Z.leb_spec a b) as [E|E]; cbn [andb negb]
  end;
  try (split; [discriminate|intros; lia]).
  destruct (SFleb zero_float (time_delta f)), (SFleb (time_delta f) one_float);
    cbn [andb negb]; split; intros; try discriminate;
    repeat split; try lia; try reflexivity;
    repeat match goal with H : _ /\ _ |- _ => destruct H end; discriminate.
Qed.

(** ** Ranges of the features *)

Lemma convert_single_hex (self : converter) (a : arb_id) (d : string)
    (ts : option spec_float) (n : Z) :
  parse_arb_id a = Ok n ->
  string_forallb is_hex_digit d = true ->
  convert_single self a d ts
  = (Ok {| arb_id_dec := n;
           data_length := Z.of_nat (String.length d);
           first_byte := hd 0 (hex_pairs d);
           last_byte := hd 0 (hex_pairs (PyStr.last_n 2 d));
           byte_sum := sum_list (hex_pairs d);
           time_delta := fst (compute_time_delta self ts) |},
     snd (compute_time_delta self ts)).
Proof.
  intros Ha Hd. unfold convert_single. rewrite Ha. cbv zeta.
  rewrite (clean_data_hex d Hd), (first_byte_hex d Hd), (last_byte_hex d Hd),
    (compute_byte_sum_hex d Hd).
  now destruct (compute_time_delta self ts).
Qed.

(** X12.  A payload written as hexadecimal digits is read two digits per byte:
    [data_length] is the number of digits, [first_byte] the first byte,
    [last_byte] the number the last two digits spell (the last byte when
    the number of digits is even) and [byte_sum] the sum of the bytes; a
    last digit without a partner is counted in [data_length] only. *)
Theorem hex_payload_features (self : converter) (a : arb_id) (d : string)
    (ts : option spec_float) (n : Z) :
  parse_arb_id a = Ok n ->
  string_forallb is_hex_digit d = true ->
  exists f,
    convert_single self a d ts = (Ok f, snd (compute_time_delta self ts))
    /\ arb_id_dec f = n
    /\ data_length f = Z.of_nat (String.length d)
    /\ List.length (hex_pairs d) = (String.length d / 2)%nat
    /\ first_byte f = hd 0 (hex_pairs d)
    /\ last_byte f = hd 0 (hex_pairs (PyStr.last_n 2 d))
    /\ (Nat.even (String.length d) = true -> last_byte f = last (hex_pairs d) 0)
    /\ byte_sum f = sum_list (hex_pairs d).
Proof.
  intros Ha Hd. eexists. split; [exact (convert_single_hex self a d ts n Ha Hd)|].
  cbn [arb_id_dec data_length first_byte last_byte byte_sum].
  split; [reflexivity|]. split; [reflexivity|].
  split; [now apply hex_pairs_length|]. split; [reflexivity|].
  split; [reflexivity|]. split; [|reflexivity].
  now apply last_pair_even.
Qed.

Lemma hex_payload_features_witness :
  exists f,
    convert_single new_converter (ArbStr "0x1A3") "01ff0A2" None
    = (Ok f, snd (compute_time_delta new_converter None))
    /\ arb_id_dec f = 419
    /\ data_length f = Z.of_nat (String.length "01ff0A2")
    /\ List.length (hex_pairs "01ff0A2") = (String.length "01ff0A2" / 2)%nat
    /\ first_byte f = hd 0 (hex_pairs "01ff0A2")
    /\ last_byte f = hd 0 (hex_pairs (PyStr.last_n 2 "01ff0A2"))
    /\ (Nat.even (String.length "01ff0A2") = true ->
        last_byte f = last (hex_pairs "01ff0A2") 0)
    /\ byte_sum f = sum_list (hex_pairs "01ff0A2").
Proof.
  exact (hex_payload_features new_converter (ArbStr "0x1A3") "01ff0A2" None 419
           ltac:(vm_compute; reflexivity) ltac:(vm_compute; reflexivity)).
Defined.

Lemma hd_fits_byte (l : list Z) : Forall fits_byte l -> 0 <= hd 0 l <= 255.
Proof. destruct 1 as [|x l Hx _]; [cbn; lia|exact Hx]. Qed.

Lemma time_delta_range (self : converter) (ts : option spec_float) :
  finite_opt ts = true -> finite_opt (last_timestamp self) = true ->
  let d := fst (compute_time_delta self ts) in
  is_nan d = false /\ SFleb zero_float d = true /\ SFleb d one_float = true.
Proof.
  intros Hts Hlast. cbv zeta. unfold compute_time_delta.
  destruct ts as [t|]; [|repeat split].
  destruct (last_timestamp self) as [last|] eqn:E; cbn [fst]; [|repeat split].
  cbn [finite_opt] in Hts, Hlast.
  pose proof (sub_finite_not_nan t last Hts Hlast) as Hn.
  destruct (clamp_unit_range _ Hn) as [H0 H1].
  split; [|split; assumption].
  destruct (PyFloat.min _ _); try reflexivity. discriminate H0.
Qed.

(** X16.  A standard CAN frame passes [validate_features]: an identifier of at
    most 11 bits, a payload of at most 16 hexadecimal digits and a finite
    timestamp (or none) after a finite one (or none) give a record that is
    accepted. *)
Theorem standard_frame_validates (self : converter) (a : arb_id) (d : string)
    (ts : option spec_float) (n : Z) :
  parse_arb_id a = Ok n -> 0 <= n <= 2047 ->
  string_forallb is_hex_digit d = true -> (String.length d <= 16)%nat ->
  finite_opt ts = true -> finite_opt (last_timestamp self) = true ->
  exists f,
    convert_single self a d ts = (Ok f, snd (compute_time_delta self ts))
    /\ validate_features f = true.
Proof.
  intros Ha Hn Hd Hlen Hts Hlast. eexists.
  split; [exact (convert_single_hex self a d ts n Ha Hd)|].
  apply validate_features_spec.
  cbn [arb_id_dec data_length first_byte last_byte byte_sum time_delta].
  destruct (hex_pairs_range d) as [Hb Hl].
  destruct (hex_pairs_range (PyStr.last_n 2 d)) as [Hb' _].
  pose proof (sum_list_range _ Hb) as Hs.
  pose proof (hd_fits_byte _ Hb). pose proof (hd_fits_byte _ Hb').
  destruct (time_delta_range self ts Hts Hlast) as (_ & T0 & T1).
  repeat (split; [lia|]). split; assumption.
Qed.

Lemma standard_frame_validates_witness :
  exists f,
    convert_single {| last_timestamp := Some ts_100 |} (ArbStr "0x7FF")
      "0102030405060708" (Some ts_101_5)
    = (Ok f, snd (compute_time_delta {| last_timestamp := Some ts_100 |} (Some ts_101_5)))
    /\ validate_features f = true.
Proof.
  exact (standard_frame_validates {| last_timestamp := Some ts_100 |} (ArbStr "0x7FF")
           "0102030405060708" (Some ts_101_5) 2047
           ltac:(vm_compute; reflexivity) ltac:(lia) ltac:(vm_compute; reflexivity)
           ltac:(cbn; lia) ltac:(reflexivity) ltac:(reflexivity)).
Defined.

(** X13.  Whatever the input, a record that [convert_single] returns has
    [first_byte] and [last_byte] between -15 and 255 (a two-character
    text such as "-f" is a negative number for [int]), and [byte_sum]
    between -15 and 255 times the number of complete character pairs. *)
Theorem byte_features_bounded (self : converter) (a : arb_id) (d : string)
    (ts : option spec_float) (f : features) (self' : converter) :
  convert_single self a d ts = (Ok f, self') ->
  0 <= data_length f
  /\ -15 <= first_byte f <= 255
  /\ -15 <= last_byte f <= 255
  /\ -15 * data_length f <= 2 * byte_sum f <= 255 * data_length f.
Proof.
  unfold convert_single.
  destruct (parse_arb_id a) as [arb|e]; [|discriminate]. cbv zeta.
  set (s := clean_data d).
  destruct (Nat.leb_spec 2 (String.length s)) as [L|L].
  - destruct (PyInt.int16 (PyStr.first_n 2 s)) as [fb|e] eqn:Hf; [|discriminate].
    destruct (PyInt.int16 (PyStr.last_n 2 s)) as [lb|e] eqn:Hl; [|discriminate].
    destruct (compute_byte_sum s) as [bs|e] eqn:Hs; [|discriminate].
    destruct (compute_time_delta self ts) as [delta st]. intros [= <- _].
    cbn [data_length first_byte last_byte byte_sum].
    apply int16_chunk_range in Hf;
      [|unfold PyStr.first_n; apply length_substring; lia].
    apply int16_chunk_range in Hl;
      [|unfold PyStr.last_n; apply length_substring; lia].
    repeat (split; [lia|]).
    unfold compute_byte_sum, PyStr.range in Hs.
    destruct (byte_sum_loop s _ 0) as [v|e] eqn:Hv.
    + injection Hs as <-. apply byte_sum_loop_range in Hv. lia.
    + destruct e; [injection Hs as <-; lia|discriminate].
  - destruct (compute_byte_sum s) as [bs|e] eqn:Hs; [|discriminate].
    destruct (compute_time_delta self ts) as [delta st]. intros [= <- _].
    cbn [data_length first_byte last_byte byte_sum].
    repeat (split; [lia|]).
    unfold compute_byte_sum, PyStr.range in Hs.
    destruct (byte_sum_loop s _ 0) as [v|e] eqn:Hv.
    + injection Hs as <-. apply byte_sum_loop_range in Hv. lia.
    + destruct e; [injection Hs as <-; lia|discriminate].
Qed.

Lemma byte_features_bounded_witness :
  0 <= data_length minus_record
  /\ -15 <= first_byte minus_record <= 255
  /\ -15 <= last_byte minus_record <= 255
  /\ -15 * data_length minus_record <= 2 * byte_sum minus_record
     <= 255 * data_length minus_record.
Proof.
  exact (byte_features_bounded new_converter (ArbInt 5) "-f+1" None
           minus_record new_converter ltac:(vm_compute; reflexivity)).
Defined.

(** X14.  With finite timestamps the time delta of a returned record is a number
    from 0.0 to 1.0, never NaN. *)
Theorem time_delta_in_unit_range (self : converter) (a : arb_id) (d : string)
    (ts : option spec_float) (f : features) (self' : converter) :
  finite_opt ts = true -> finite_opt (last_timestamp self) = true ->
  convert_single self a d ts = (Ok f, self') ->
  is_nan (time_delta f) = false
  /\ SFleb zero_float (time_delta f) = true
  /\ SFleb (time_delta f) one_float = true.
Proof.
  intros Hts Hlast H.
  destruct (convert_single_cases self a d ts) as [[e E]|(f' & E & T)];
    rewrite E in H; [discriminate|].
  injection H as <- _. rewrite T. now apply time_delta_range.
Qed.

Lemma time_delta_in_unit_range_witness :
  is_nan (time_delta late_record) = false
  /\ SFleb zero_float (time_delta late_record) = true
  /\ SFleb (time_delta late_record) one_float = true.
Proof.
  exact (time_delta_in_unit_range {| last_timestamp := Some ts_100 |} (ArbInt 5) "-f+1"
           (Some ts_101_5) late_record {| last_timestamp := Some ts_101_5 |}
           ltac:(reflexivity) ltac:(reflexivity) ltac:(vm_compute; reflexivity)).
Defined.

(** X15.  A NaN timestamp is not clamped: after a record with a timestamp, a
    record whose timestamp is NaN gets the time delta NaN, and so does the
    record that follows it, whatever its timestamp; [validate_features]
    rejects both. *)
Theorem nan_timestamp_spreads (self : converter) (a1 a2 : arb_id) (d1 d2 : string)
    (last ts : spec_float) :
  record_parses a1 d1 = true -> record_parses a2 d2 = true ->
  last_timestamp self = Some last ->
  exists f1 self1 f2,
    convert_single self a1 d1 (Some S754_nan) = (Ok f1, self1)
    /\ convert_single self1 a2 d2 (Some ts) = (Ok f2, {| last_timestamp := Some ts |})
    /\ is_nan (time_delta f1) = true /\ is_nan (time_delta f2) = true
    /\ validate_features f1 = false /\ validate_features f2 = false.
Proof.
  intros P1 P2 Hlast.
  destruct (convert_single_parses a1 d1 P1 self (Some S754_nan)) as (f1 & E1 & T1).
  destruct (convert_single_parses a2 d2 P2 (snd (compute_time_delta self (Some S754_nan)))
              (Some ts)) as (f2 & E2 & T2).
  exists f1, (snd (compute_time_delta self (Some S754_nan))), f2.
  split; [exact E1|]. split; [exact E2|].
  assert (N1 : is_nan (time_delta f1) = true).
  { rewrite T1. unfold compute_time_delta. rewrite Hlast. now destruct last. }
  assert (N2 : is_nan (time_delta f2) = true).
  { rewrite T2. cbn. now destruct ts. }
  split; [exact N1|]. split; [exact N2|].
  assert (V : forall f, is_nan (time_delta f) = true -> validate_features f = false).
  { intros f N. destruct (validate_features f) eqn:V; [|reflexivity].
    apply validate_features_spec in V. destruct V as (_ & _ & _ & _ & _ & V & _).
    destruct (time_delta f); discriminate. }
  split; now apply V.
Qed.

Lemma nan_timestamp_spreads_witness :
  exists f1 self1 f2,
    convert_single {| last_timestamp := Some ts_100 |} (ArbStr "0x123") "0102"
      (Some S754_nan) = (Ok f1, self1)
    /\ convert_single self1 (ArbInt 7) "ff" (Some ts_101_5)
       = (Ok f2, {| last_timestamp := Some ts_101_5 |})
    /\ is_nan (time_delta f1) = true /\ is_nan (time_delta f2) = true
    /\ validate_features f1 = false /\ validate_features f2 = false.
Proof.
  exact (nan_timestamp_spreads {| last_timestamp := Some ts_100 |} (ArbStr "0x123")
           (ArbInt 7) "0102" "ff" ts_100 ts_101_5
           ltac:(vm_compute; reflexivity) ltac:(vm_compute; reflexivity) eq_refl).
Defined.

Section SpacedPayload.

Local Open Scope string_scope.

Lemma remove_spaces_hex (d : string) :
  string_forallb is_hex_or_space d = true ->
  string_forallb is_hex_digit (PyStr.remove " " d) = true.
Proof.
  unfold PyStr.remove. induction d as [|c d IH]; intros H; [reflexivity|].
  cbn [string_forallb] in H. apply andb_true_iff in H. destruct H as [Hc Hd].
  rewrite remove_from_0, prefix_cons. cbn [String.length Nat.sub].
  destruct (Ascii.eqb_spec " " c) as [<-|N].
  - replace (prefix "" d) with true by (now destruct d). now apply IH.
  - cbn [string_forallb]. rewrite (IH Hd), andb_true_r.
    unfold is_hex_or_space in Hc. apply orb_true_iff in Hc.
    destruct Hc as [Hc|Hc]; [exact Hc|].
    apply Ascii.eqb_eq in Hc. now elim N.
Qed.

Lemma clean_data_spaced (d : string) :
  string_forallb is_hex_or_space d = true ->
  clean_data d = PyStr.remove " " d.
Proof.
  intros H. pose proof (remove_spaces_hex d H) as Hh.
  assert (Hx : forall x, Ascii.eqb x "x" = true \/ Ascii.eqb x "X" = true ->
               string_forallb (fun c => negb (Ascii.eqb c x)) d = true).
  { intros x Hx. eapply string_forallb_impl; [|exact H]. intros c Hc.
    unfold is_hex_or_space in Hc. apply negb_true_iff.
    destruct (Ascii.eqb_spec c x) as [->|]; [|reflexivity].
    apply orb_true_iff in Hc. destruct Hc as [Hc|Hc].
    - apply hex_digit_class in Hc. destruct Hc as (_ & _ & A & B & _).
      destruct Hx as [Hx|Hx]; congruence.
    - apply Ascii.eqb_eq in Hc. subst x. destruct Hx as [Hx|Hx]; discriminate Hx. }
  unfold clean_data.
  rewrite (remove_absent "0" "x") by (apply Hx; now left).
  rewrite (remove_absent "0" "X") by (apply Hx; now right).
  destruct (hex_no_x _ Hh) as (_ & _ & Hs).
  unfold PyStr.strip. rewrite lstrip_no_space by exact Hs.
  now apply rstrip_no_space.
Qed.

End SpacedPayload.

(** X20.  Spaces in a payload of hexadecimal digits are ignored: the payload
    with the spaces is converted exactly as the payload without them,
    which consists of hexadecimal digits only. *)
Theorem spaced_payload_ignored (self : converter) (a : arb_id) (d : string)
    (ts : option spec_float) :
  string_forallb is_hex_or_space d = true ->
  convert_single self a d ts = convert_single self a (PyStr.remove " " d) ts
  /\ string_forallb is_hex_digit (PyStr.remove " " d) = true.
Proof.
  intros H. split; [|now apply remove_spaces_hex].
  unfold convert_single.
  rewrite (clean_data_spaced d H), (clean_data_hex _ (remove_spaces_hex d H)).
  reflexivity.
Qed.

Lemma spaced_payload_ignored_witness :
  convert_single new_converter (ArbStr "0x123") " 01 ff 0A " None
  = convert_single new_converter (ArbStr "0x123") (PyStr.remove " " " 01 ff 0A ") None
  /\ string_forallb is_hex_digit (PyStr.remove " " " 01 ff 0A ") = true.
Proof.
  exact (spaced_payload_ignored new_converter (ArbStr "0x123") " 01 ff 0A " None
           ltac:(vm_compute; reflexivity)).
Defined.

(** ** The two extractors and the frame converter *)

Lemma compute_byte_sum_any_eq (s : string) :
  compute_byte_sum_any s = compute_byte_sum s.
Proof.
  unfold compute_byte_sum_any, compute_byte_sum.
  destruct (byte_sum_loop s _ 0) as [v|e] eqn:H; [reflexivity|].
  apply byte_sum_loop_value_error in H. now subst.
Qed.

(** X17.  The extractor of the test model and [convert_single] are in step: from
    the same [last_timestamp] and on the same record they raise the same
    exception and keep their state, or return the same six features and
    store the same timestamp; the bare [except] of [extract_features]
    catches nothing that [except ValueError] lets through. *)
Theorem extract_features_agrees (det : detector) (self : converter)
    (a : arb_id) (d : string) (ts : option spec_float) :
  detector_last_timestamp det = last_timestamp self ->
  match extract_features det a d ts, convert_single self a d ts with
  | (Ok (f, m), det'), (Ok f', self') =>
      f = f' /\ detector_last_timestamp det' = last_timestamp self'
      /\ raw_arb_id m = a /\ raw_data m = d /\ raw_timestamp m = ts
      /\ data_str_length m = data_length f /\ data_hex m = clean_data d
  | (Raise e, det'), (Raise e', self') => e = e' /\ det' = det /\ self' = self
  | _, _ => False
  end.
Proof.
  intros Hs. unfold extract_features, convert_single.
  rewrite compute_byte_sum_any_eq.
  destruct (parse_arb_id a) as [arb|e]; [|repeat split]. cbv zeta.
  destruct (if (2 <=? String.length (clean_data d))%nat
            then PyInt.int16 (PyStr.first_n 2 (clean_data d))
            else Ok 0) as [fb|e]; [|repeat split].
  destruct (if (2 <=? String.length (clean_data d))%nat
            then PyInt.int16 (PyStr.last_n 2 (clean_data d))
            else Ok 0) as [lb|e]; [|repeat split].
  destruct (compute_byte_sum (clean_data d)) as [bs|e]; [|repeat split].
  unfold compute_time_delta. rewrite Hs.
  destruct ts as [t|]; cbn; repeat split; assumption.
Qed.

Lemma extract_features_agrees_witness :
  match extract_features {| detector_last_timestamp := Some ts_100 |}
          (ArbStr "0x123") "01 02" (Some ts_101_5),
        convert_single {| last_timestamp := Some ts_100 |}
          (ArbStr "0x123") "01 02" (Some ts_101_5) with
  | (Ok (f, m), det'), (Ok f', self') =>
      f = f' /\ detector_last_timestamp det' = last_timestamp self'
      /\ raw_arb_id m = ArbStr "0x123" /\ raw_data m = "01 02"%string
      /\ raw_timestamp m = Some ts_101_5
      /\ data_str_length m = data_length f /\ data_hex m = clean_data "01 02"
  | (Raise e, det'), (Raise e', self') =>
      e = e' /\ det' = {| detector_last_timestamp := Some ts_100 |}
      /\ self' = {| last_timestamp := Some ts_100 |}
  | _, _ => False
  end.
Proof.
  exact (extract_features_agrees {| detector_last_timestamp := Some ts_100 |}
           {| last_timestamp := Some ts_100 |} (ArbStr "0x123") "01 02"
           (Some ts_101_5) eq_refl).
Defined.

(** The payload features of a record do not depend on the state or the
    timestamp. *)
Lemma convert_single_payload (a : arb_id) (d : string) :
  record_parses a d = true ->
  exists f0, convert_single new_converter a d None = (Ok f0, new_converter)
    /\ forall (self : converter) (ts : option spec_float),
       exists f, convert_single self a d ts = (Ok f, snd (compute_time_delta self ts))
         /\ payload_features f = payload_features f0
         /\ time_delta f = fst (compute_time_delta self ts).
Proof.
  unfold record_parses, convert_single.
  destruct (parse_arb_id a) as [arb|e]; [|discriminate]. cbv zeta.
  destruct (if (2 <=? String.length (clean_data d))%nat
            then PyInt.int16 (PyStr.first_n 2 (clean_data d))
            else Ok 0) as [fb|e]; [|discriminate].
  destruct (if (2 <=? String.length (clean_data d))%nat
            then PyInt.int16 (PyStr.last_n 2 (clean_data d))
            else Ok 0) as [lb|e]; [|discriminate].
  destruct (compute_byte_sum (clean_data d)) as [bs|e]; [|discriminate].
  intros _. eexists. split; [reflexivity|]. intros self ts.
  destruct (compute_time_delta self ts) as [delta st]. eexists.
  split; [reflexivity|]. split; reflexivity.
Qed.

Section Frames.

Variable has_timestamp : bool.

Local Abbreviation parses :=
  (fun r : arb_id * string * spec_float =>
     record_parses (fst (fst r)) (snd (fst r)) = true).

(** The state after the rows [rs], starting from [self]. *)
Local Abbreviation state_after self rs :=
  (if has_timestamp
   then {| last_timestamp := last (map (fun r => Some (snd r)) rs) (last_timestamp self) |}
   else self).

Lemma last_cons_default {A : Type} (x : A) (l : list A) (d : A) :
  last (x :: l) d = last l x.
Proof.
  revert x d. induction l as [|y l IH]; intros x d; [reflexivity|].
  change (last (x :: y :: l) d) with (last (y :: l) d). now rewrite !IH.
Qed.

Lemma converter_eta (self : converter) :
  {| last_timestamp := last_timestamp self |} = self.
Proof. now destruct self. Qed.

Lemma convert_frame_rows_ok (rs : list (arb_id * string * spec_float)) :
  Forall parses rs ->
  forall (self : converter) (acc : list features),
  exists fs,
    convert_frame_rows self has_timestamp rs acc = (Ok (acc ++ fs), state_after self rs)
    /\ List.length fs = List.length rs
    /\ forall (i : nat) (a : arb_id) (d : string) (t : spec_float),
         nth_error rs i = Some (a, d, t) ->
         exists f f0,
           nth_error fs i = Some f
           /\ convert_single new_converter a d None = (Ok f0, new_converter)
           /\ payload_features f = payload_features f0
           /\ time_delta f =
              fst (compute_time_delta
                     match i with
                     | O => self
                     | S j => state_after self (firstn i rs)
                     end
                     (if has_timestamp then Some t else None)).
Proof.
  induction 1 as [|[[a d] t] rs Hp _ IH]; intros self acc.
  - exists []. rewrite app_nil_r. cbn [convert_frame_rows map last].
    split; [destruct has_timestamp; [now rewrite converter_eta|reflexivity]|].
    split; [reflexivity|]. intros [|i] ? ? ? E; discriminate E.
  - cbn [fst snd] in Hp.
    destruct (convert_single_payload a d Hp) as (f0 & E0 & Hf).
    set (ts := if has_timestamp then Some t else None).
    destruct (Hf self ts) as (f & E & P & T).
    set (self1 := snd (compute_time_delta self ts)) in *.
    destruct (IH self1 (acc ++ [f])) as (fs & Efs & Lfs & Hfs).
    exists (f :: fs). cbn [convert_frame_rows]. fold ts. rewrite E, Efs.
    assert (S1 : state_after self1 rs = state_after self ((a, d, t) :: rs)).
    { unfold self1, ts. destruct has_timestamp; cbn [compute_time_delta snd];
        [|reflexivity].
      cbn [map snd last_timestamp]. now rewrite last_cons_default. }
    split; [now rewrite <- app_assoc, S1|].
    split; [cbn; now rewrite Lfs|].
    intros [|i] a' d' t' Hn.
    + cbn in Hn. injection Hn as <- <- <-. exists f, f0. repeat split; assumption.
    + cbn [nth_error] in Hn. destruct (Hfs i a' d' t' Hn) as (f' & f0' & N & E' & P' & T').
      exists f', f0'. split; [exact N|]. split; [exact E'|]. split; [exact P'|].
      rewrite T'. f_equal. f_equal.
      destruct i as [|i].
      * unfold self1, ts. destruct has_timestamp; cbn; [reflexivity|reflexivity].
      * unfold self1, ts. destruct has_timestamp; [|reflexivity].
        cbn [compute_time_delta snd last_timestamp].
        change (firstn (S (S i)) ((a, d, t) :: rs)) with ((a, d, t) :: firstn (S i) rs).
        cbn [map snd]. now rewrite last_cons_default.
Qed.


End Frames.

Lemma rows_parse_Forall (rs : list (arb_id * string * spec_float)) :
  rows_parse rs = true <->
  Forall (fun r => record_parses (fst (fst r)) (snd (fst r)) = true) rs.
Proof. unfold rows_parse. now rewrite forallb_forall, Forall_forall. Qed.


Lemma last_firstn_map {A B : Type} (g : A -> B) (l : list A) :
  forall (j : nat) (r : A) (d : B),
    nth_error l j = Some r -> last (map g (firstn (S j) l)) d = g r.
Proof.
  induction l as [|x l IH]; intros j r d H; [destruct j; discriminate H|].
  destruct j as [|j].
  - cbn in H. injection H as ->. now destruct l.
  - cbn [nth_error] in H.
    change (firstn (S (S j)) (x :: l)) with (x :: firstn (S j) l).
    cbn [map]. rewrite last_cons_default. now apply IH.
Qed.

Lemma assign_default (fs : list features) :
  assign_features (default_index (List.length fs)) fs = map Some fs.
Proof.
  unfold assign_features, default_index. rewrite map_map.
  assert (E : forall i : nat, assigned_record fs (Z.of_nat i) = nth_error fs i).
  { intros i. unfold assigned_record.
    replace (0 <=? Z.of_nat i) with true by (symmetry; apply Z.leb_le; lia).
    now rewrite Nat2Z.id. }
  rewrite (map_ext _ _ E). clear E.
  induction fs as [|f fs IH]; [reflexivity|].
  cbn [List.length seq map nth_error]. f_equal.
  rewrite <- seq_shift, map_map. exact IH.
Qed.

Lemma assign_outside (fs : list features) (labels : list Z) :
  forallb (label_outside (List.length fs)) labels = true ->
  assign_features labels fs = map (fun _ => None) labels.
Proof.
  intros H. unfold assign_features. apply map_ext_in. intros l Hl.
  rewrite forallb_forall in H. specialize (H l Hl).
  unfold label_outside in H. unfold assigned_record.
  destruct (Z.leb_spec 0 l) as [H0|H0]; [|reflexivity].
  apply orb_true_iff in H. destruct H as [H|H].
  - apply Z.ltb_lt in H. lia.
  - apply Z.leb_le in H. apply nth_error_None. lia.
Qed.

(** X18.  A frame whose rows all parse is converted row by row from a fresh
    state, whatever the converter had seen before: one record is computed
    per row, its five payload features are those of a call of
    [convert_single] on that row alone, and its time delta is 0.0 in the
    first row (and in every row when the frame has no timestamp column) and
    the clamped difference to the timestamp of the row before otherwise.
    The frame that is returned takes them by index label: the row with
    label [l] holds the record computed for the row at position [l], and
    missing cells when there is no such row.  With the labels 0, 1, 2, ...
    every row holds its own record; with labels that are all outside
    [0 .. n-1] every feature cell is missing.  Afterwards [last_timestamp]
    is the timestamp of the last row, or [None] without a timestamp column
    or without rows. *)
Theorem convert_dataframe_rows (self : converter) (df : frame)
    (arb_id_col data_col timestamp_col : string) :
  has_column df arb_id_col = true -> has_column df data_col = true ->
  rows_parse (rows df) = true ->
  exists fs,
    convert_dataframe self df arb_id_col data_col timestamp_col
    = (Ok (assign_features (index df) fs),
       {| last_timestamp :=
            if has_column df timestamp_col then last_row_timestamp (rows df)
            else None |})
    /\ List.length fs = List.length (rows df)
    /\ (forall (i : nat) (a : arb_id) (d : string) (t : spec_float),
         nth_error (rows df) i = Some (a, d, t) ->
         exists f f0,
           nth_error fs i = Some f
           /\ convert_single new_converter a d None = (Ok f0, new_converter)
           /\ payload_features f = payload_features f0
           /\ time_delta f =
              if has_column df timestamp_col then
                match i with
                | O => zero_float
                | S j =>
                    match nth_error (rows df) j with
                    | Some (_, _, t') => clamped_delta t t'
                    | None => zero_float
                    end
                end
              else zero_float)
    /\ (index df = default_index (List.length (rows df)) ->
        assign_features (index df) fs = map Some fs)
    /\ (forallb (label_outside (List.length (rows df))) (index df) = true ->
        assign_features (index df) fs = map (fun _ => None) (index df)).
Proof.
  intros Ha Hd Hp. apply rows_parse_Forall in Hp.
  unfold convert_dataframe. rewrite Ha, Hd. cbn [negb].
  destruct (convert_frame_rows_ok (has_column df timestamp_col) (rows df) Hp
              {| last_timestamp := None |} []) as (fs & E & L & N).
  exists fs. split.
  - cbv zeta. rewrite E. cbn [app]. f_equal.
    now destruct (has_column df timestamp_col).
  - split; [exact L|]. split; [|split].
    + intros i a d t Hi.
      destruct (N i a d t Hi) as (f & f0 & Hf & E0 & P & T).
      exists f, f0. split; [exact Hf|]. split; [exact E0|]. split; [exact P|].
      rewrite T. destruct (has_column df timestamp_col); [|now destruct i].
      destruct i as [|j]; [reflexivity|].
      assert (Hj : (j < List.length (rows df))%nat).
      { apply Nat.lt_succ_l. apply nth_error_Some. now rewrite Hi. }
      destruct (nth_error (rows df) j) as [[[a' d'] t']|] eqn:Ej;
        [|apply nth_error_None in Ej; lia].
      cbn [last_timestamp].
      rewrite (last_firstn_map (fun r => Some (snd r)) (rows df) j _ None Ej).
      reflexivity.
    + intros Hi. rewrite Hi, <- L. apply assign_default.
    + intros Ho. apply assign_outside. now rewrite L.
Qed.

Lemma convert_dataframe_rows_witness :
  exists fs,
    convert_dataframe {| last_timestamp := Some ts_99 |} shifted_frame
      "arbitration_id" "data_field" "timestamp"
    = (Ok (assign_features (index shifted_frame) fs),
       {| last_timestamp :=
            if has_column shifted_frame "timestamp"
            then last_row_timestamp (rows shifted_frame)
            else None |})
    /\ List.length fs = List.length (rows shifted_frame)
    /\ (forall (i : nat) (a : arb_id) (d : string) (t : spec_float),
         nth_error (rows shifted_frame) i = Some (a, d, t) ->
         exists f f0,
           nth_error fs i = Some f
           /\ convert_single new_converter a d None = (Ok f0, new_converter)
           /\ payload_features f = payload_features f0
           /\ time_delta f =
              if has_column shifted_frame "timestamp" then
                match i with
                | O => zero_float
                | S j =>
                    match nth_error (rows shifted_frame) j with
                    | Some (_, _, t') => clamped_delta t t'
                    | None => zero_float
                    end
                end
              else zero_float)
    /\ (index shifted_frame = default_index (List.length (rows shifted_frame)) ->
        assign_features (index shifted_frame) fs = map Some fs)
    /\ (forallb (label_outside (List.length (rows shifted_frame)))
          (index shifted_frame) = true ->
        assign_features (index shifted_frame) fs
        = map (fun _ => None) (index shifted_frame)).
Proof.
  exact (convert_dataframe_rows {| last_timestamp := Some ts_99 |} shifted_frame
           "arbitration_id" "data_field" "timestamp"
           eq_refl eq_refl ltac:(vm_compute; reflexivity)).
Defined.


(** ** The memory file and its cleaning *)

Section MemFile.

Local Open Scope string_scope.

Lemma append_nil_r (s : string) : s ++ "" = s.
Proof. induction s as [|c s IH]; cbn; [reflexivity|now rewrite IH]. Qed.

Lemma file_lines_from_line (l : string) :
  string_forallb no_line_break l = true ->
  forall (current rest : string),
    file_lines_from current (l ++ newline ++ rest)
    = (current ++ l ++ newline) :: file_lines_from "" rest.
Proof.
  induction l as [|c l IH]; intros H current rest.
  - cbn [append newline file_lines_from]. now rewrite Ascii.eqb_refl.
  - cbn [string_forallb] in H. apply andb_true_iff in H. destruct H as [Hc Hl].
    unfold no_line_break in Hc. apply andb_true_iff in Hc. destruct Hc as [H10 H13].
    apply negb_true_iff in H10. apply negb_true_iff in H13.
    cbn [append file_lines_from]. rewrite H10, H13, (IH Hl).
    now rewrite append_assoc.
Qed.

Lemma file_lines_written (ls : list string) :
  Forall is_line ls -> file_lines (written ls) = ls.
Proof.
  unfold file_lines. induction 1 as [|l ls (body & -> & Hb) _ IH]; [reflexivity|].
  cbn [written]. rewrite append_assoc, (file_lines_from_line body Hb).
  cbn [append]. now rewrite IH.
Qed.

(** A property of characters that follows from another one. *)
Lemma class_impl (p q : ascii -> bool) (s : string) :
  forallb (fun n => implb (p (ascii_of_nat n)) (q (ascii_of_nat n))) (seq 0 256) = true ->
  string_forallb p s = true -> string_forallb q s = true.
Proof.
  intros H. apply string_forallb_impl. intros c Hc.
  pose proof (ascii_forall (fun c => implb (p c) (q c)) H c) as A.
  cbv beta in A. now rewrite Hc in A.
Qed.

Lemma uint_decimal (u : Decimal.uint) :
  string_forallb is_decimal_char (NilEmpty.string_of_uint u) = true.
Proof. induction u; cbn [NilEmpty.string_of_uint string_forallb]; auto. Qed.

Lemma format_d_decimal (n : Z) : string_forallb is_decimal_char (format_d n) = true.
Proof.
  unfold format_d, NilZero.string_of_int, NilZero.string_of_uint.
  destruct (Z.to_int n) as [u|u]; pose proof (uint_decimal u) as H;
    destruct u; cbn [string_forallb]; try exact H; try reflexivity;
    rewrite H; reflexivity.
Qed.

Lemma spaces_decimal (n : nat) : string_forallb is_decimal_char (spaces n) = true.
Proof. induction n; auto. Qed.

Lemma format_3d_decimal (n : Z) : string_forallb is_decimal_char (format_3d n) = true.
Proof.
  unfold format_3d. cbv zeta.
  now rewrite string_forallb_app, spaces_decimal, format_d_decimal.
Qed.

Lemma format_d_no_break (n : Z) : string_forallb no_line_break (format_d n) = true.
Proof.
  apply (class_impl is_decimal_char); [vm_compute; reflexivity|apply format_d_decimal].
Qed.

Lemma format_3d_no_break (n : Z) : string_forallb no_line_break (format_3d n) = true.
Proof.
  apply (class_impl is_decimal_char); [vm_compute; reflexivity|apply format_3d_decimal].
Qed.

Lemma node_comment_no_break (w : Z) :
  string_forallb no_line_break (node_comment w) = true.
Proof.
  unfold node_comment. cbv zeta.
  destruct (node_type (decode_node w)).
  - destruct (prediction (decode_node w)) as [[|[| |]|]|];
      rewrite !string_forallb_app, format_3d_no_break; reflexivity.
  - now rewrite !string_forallb_app, !format_3d_no_break, format_d_no_break.
Qed.

Lemma format_064b_chars (w : Z) :
  string_forallb is_word_char (format_064b w) = true.
Proof.
  assert (B : forall s, string_forallb is_binary_digit s = true ->
                        string_forallb is_word_char s = true).
  { intros s. apply class_impl. vm_compute. reflexivity. }
  destruct w as [|p|p]; cbn [format_064b string_forallb].
  - apply B. rewrite string_forallb_app, zeros_binary. reflexivity.
  - apply B. now rewrite string_forallb_app, zeros_binary, bin_digits_binary.
  - cbn. apply B. now rewrite string_forallb_app, zeros_binary, bin_digits_binary.
Qed.

Lemma bin_digits_nonempty (p : positive) : bin_digits p <> "".
Proof.
  intros E. pose proof (bin_digits_length p) as L. rewrite E in L. cbn in L. lia.
Qed.

Lemma format_064b_nonempty (w : Z) : format_064b w <> "".
Proof.
  destruct w as [|p|p]; cbn [format_064b]; [discriminate| |discriminate].
  intros E. apply (f_equal String.length) in E.
  rewrite string_length_app in E. cbn [String.length] in E.
  pose proof (bin_digits_nonempty p) as N.
  destruct (bin_digits p); [now elim N|cbn in E; lia].
Qed.

Lemma mem_line_is_line (w : Z) : is_line (mem_line w).
Proof.
  exists (format_064b w ++ "  // " ++ node_comment w). split.
  - unfold mem_line. now rewrite !append_assoc.
  - rewrite !string_forallb_app, node_comment_no_break.
    rewrite (class_impl is_word_char no_line_break);
      [reflexivity|vm_compute; reflexivity|apply format_064b_chars].
Qed.

(** The fifteen comment lines of the header and, after them, the empty
    line. *)
Lemma mem_header_lines (ws : list Z) :
  exists hs,
    mem_file_text ws = written (hs ++ [newline] ++ map mem_line ws)
    /\ Forall is_line hs
    /\ Forall (fun h => prefix "//" h = true) hs.
Proof.
  exists
    [ "// Pure Binary Memory Initialization File for FPGA" ++ newline;
      "// Decision Tree Nodes (64-bit pure binary format)" ++ newline;
      "// Total Nodes: " ++ format_d (Z.of_nat (List.length ws)) ++ newline;
      "// Format: [NodeID][FeatureID][Threshold][Right][Left][Type][Reserved]" ++ newline;
      "// Each line: 64 binary digits (0 or 1)" ++ newline;
      "//" ++ newline;
      "// Node Structure:" ++ newline;
      "//   [63:56] Node ID (8-bit)" ++ newline;
      "//   [55:53] Feature ID (3-bit)" ++ newline;
      "//   [52:26] Threshold (27-bit fixed-point)" ++ newline;
      "//   [25:18] Right Child (8-bit)" ++ newline;
      "//   [17:10] Left Child (8-bit)" ++ newline;
      "//   [9:2]   Node Type (8-bit: 0x00=Internal, 0x01=Leaf)" ++ newline;
      "//   [1:0]   Reserved (2-bit)" ++ newline;
      "//" ++ newline ].
  split; [reflexivity|]. split.
  - repeat (apply Forall_cons; [|]); try apply Forall_nil;
      try (eexists; split; [reflexivity|reflexivity]).
    exists ("// Total Nodes: " ++ format_d (Z.of_nat (List.length ws))).
    split; [now rewrite append_assoc|].
    now rewrite string_forallb_app, format_d_no_break.
  - repeat (apply Forall_cons; [reflexivity|]). apply Forall_nil.
Qed.

Lemma clean_step_comment (f_out line : string) :
  prefix "//" line = true -> clean_step f_out line = f_out.
Proof.
  intros H. unfold clean_step. destruct line as [|c line]; [reflexivity|].
  cbn [before_first]. now rewrite H.
Qed.

Lemma before_first_cons (sep : string) (c : ascii) (s : string) :
  before_first sep (String c s)
  = if prefix sep (String c s) then "" else String c (before_first sep s).
Proof. reflexivity. Qed.

Lemma before_first_comment (b rest : string) :
  string_forallb (fun c => negb (Ascii.eqb c "/")) b = true ->
  before_first "//" (b ++ "  //" ++ rest) = b ++ "  ".
Proof.
  induction b as [|c b IH]; intros H.
  - cbn [append before_first]. rewrite !prefix_cons. cbn [Ascii.eqb Bool.eqb].
    now destruct rest.
  - cbn [string_forallb] in H. apply andb_true_iff in H. destruct H as [Hc Hb].
    apply negb_true_iff in Hc.
    change (String c b ++ "  //" ++ rest) with (String c (b ++ "  //" ++ rest)).
    change (String c b ++ "  ") with (String c (b ++ "  ")).
    rewrite before_first_cons, prefix_cons, Ascii.eqb_sym, Hc. now rewrite IH.
Qed.

Lemma clean_step_node (f_out : string) (w : Z) :
  clean_step f_out (mem_line w) = f_out ++ format_064b w ++ newline.
Proof.
  unfold clean_step, mem_line.
  change ("  // " ++ node_comment w ++ newline)
    with ("  //" ++ (" " ++ node_comment w ++ newline)).
  pose proof (format_064b_chars w) as C.
  rewrite before_first_comment
    by (revert C; apply class_impl; vm_compute; reflexivity).
  assert (S : string_forallb (fun c => negb (PyStr.isspace c)) (format_064b w) = true)
    by (revert C; apply class_impl; vm_compute; reflexivity).
  unfold PyStr.strip.
  assert (L : PyStr.lstrip (format_064b w ++ "  ") = format_064b w ++ "  ").
  { pose proof (format_064b_nonempty w) as N.
    destruct (format_064b w) as [|c s]; [now elim N|].
    cbn [string_forallb] in S. apply andb_true_iff in S. destruct S as [Sc _].
    apply negb_true_iff in Sc. cbn [append PyStr.lstrip]. now rewrite Sc. }
  rewrite L, rstrip_app_spaces by reflexivity.
  rewrite rstrip_no_space by exact S.
  pose proof (format_064b_nonempty w) as N.
  destruct (format_064b w); [now elim N|reflexivity].
Qed.

Lemma clean_nodes (ws : list Z) :
  forall f_out,
    fold_left clean_step (map mem_line ws) f_out
    = f_out ++ written (map (fun w => format_064b w ++ newline) ws).
Proof.
  induction ws as [|w ws IH]; intros f_out; cbn [map fold_left written].
  - now rewrite append_nil_r.
  - now rewrite clean_step_node, IH, !append_assoc.
Qed.

Lemma clean_comments (hs : list string) (f_out : string) (rest : list string) :
  Forall (fun h => prefix "//" h = true) hs ->
  fold_left clean_step (hs ++ rest) f_out = fold_left clean_step rest f_out.
Proof.
  induction 1 as [|h hs Hh _ IH]; [reflexivity|].
  cbn [app fold_left]. now rewrite clean_step_comment.
Qed.

End MemFile.

(** X11.  [clean.py] applied to the memory file that [generate_binary_mem_file]
    writes leaves exactly one line per node, in order: the digits of the
    node's word; the header, the empty line and the comments are gone. *)
Theorem clean_mem_file (binary_values : list Z) :
  clean_file (mem_file_text binary_values)
  = written (map (fun w => (format_064b w ++ newline)%string) binary_values).
Proof.
  destruct (mem_header_lines binary_values) as (hs & E & Hl & Hc).
  unfold clean_file. rewrite E, file_lines_written.
  - rewrite clean_comments by exact Hc.
    cbn [app fold_left]. change (clean_step "" newline) with EmptyString.
    now rewrite clean_nodes.
  - apply Forall_app. split; [exact Hl|].
    apply Forall_cons; [exists EmptyString; split; reflexivity|].
    apply Forall_forall. intros l Hin. apply in_map_iff in Hin.
    destruct Hin as (w & <- & _). apply mem_line_is_line.
Qed.

(** ** The cleaning of any file *)

Section Clean.

Local Open Scope string_scope.

Lemma clean_step_line (f_out line : string) :
  clean_step f_out line
  = if is_empty (clean_line line) then f_out else f_out ++ clean_line line ++ newline.
Proof.
  unfold clean_step, clean_line. cbv zeta.
  destruct (PyStr.strip (before_first "//" line)); reflexivity.
Qed.

Lemma clean_fold (ls : list string) :
  forall f_out,
    fold_left clean_step ls f_out
    = f_out ++ written (map (fun c => c ++ newline)
                          (filter (fun c => negb (is_empty c)) (map clean_line ls))).
Proof.
  induction ls as [|l ls IH]; intros f_out; cbn [fold_left map filter].
  - cbn. now rewrite append_nil_r.
  - rewrite IH, clean_step_line.
    destruct (is_empty (clean_line l)); cbn [negb map written]; [reflexivity|].
    now rewrite !append_assoc.
Qed.

Lemma has_comment_cons (c : ascii) (s : string) :
  has_comment (String c s) = prefix "//" (String c s) || has_comment s.
Proof. reflexivity. Qed.

Lemma before_first_free (s : string) :
  has_comment s = false -> before_first "//" s = s.
Proof.
  induction s as [|c s IH]; intros H; [reflexivity|].
  rewrite has_comment_cons in H. apply orb_false_iff in H. destruct H as [Hp Hs].
  rewrite before_first_cons, Hp. now rewrite IH.
Qed.

Lemma prefix_slash_before (s : string) :
  prefix "/" s = false -> prefix "/" (before_first "//" s) = false.
Proof.
  destruct s as [|c s]; [reflexivity|].
  rewrite before_first_cons, !prefix_cons.
  destruct (Ascii.eqb "/" c) eqn:Hc; [|now rewrite prefix_cons, Hc].
  replace (prefix "" s) with true by (now destruct s). discriminate.
Qed.

Lemma before_first_is_free (s : string) : has_comment (before_first "//" s) = false.
Proof.
  induction s as [|c s IH]; [reflexivity|].
  rewrite before_first_cons. destruct (prefix "//" (String c s)) eqn:Hp; [reflexivity|].
  rewrite has_comment_cons, IH, orb_false_r.
  rewrite prefix_cons in *. destruct (Ascii.eqb "/" c); [|reflexivity].
  now apply prefix_slash_before.
Qed.

Lemma before_first_prefix (s : string) :
  exists rest, s = before_first "//" s ++ rest.
Proof.
  induction s as [|c s [rest E]]; [now exists ""|].
  rewrite before_first_cons. destruct (prefix "//" (String c s)).
  - now exists (String c s).
  - exists rest. cbn [append]. now rewrite <- E.
Qed.

Lemma has_comment_app (a b : string) :
  has_comment (a ++ b) = false -> has_comment a = false /\ has_comment b = false.
Proof.
  induction a as [|c a IH]; intros H; [split; [reflexivity|exact H]|].
  cbn [append] in H. rewrite has_comment_cons in *.
  apply orb_false_iff in H. destruct H as [Hp Hs].
  destruct (IH Hs) as [Ha Hb]. split; [|exact Hb].
  rewrite Ha, orb_false_r.
  rewrite prefix_cons in *. destruct (Ascii.eqb "/" c); [|reflexivity].
  destruct a as [|c' a']; [reflexivity|].
  cbn [append] in Hp. rewrite prefix_cons in *.
  destruct (Ascii.eqb "/" c'); [|reflexivity].
  replace (prefix "" (a' ++ b)) with true in Hp by (now destruct (a' ++ b)).
  discriminate Hp.
Qed.

Lemma prefix_app_newline (c : ascii) (body : string) :
  prefix "//" (String c (body ++ newline)) = prefix "//" (String c body).
Proof.
  rewrite !prefix_cons. destruct (Ascii.eqb "/" c); [|reflexivity].
  destruct body as [|c' body']; [reflexivity|].
  cbn [append]. rewrite !prefix_cons. destruct (Ascii.eqb "/" c'); [|reflexivity].
  destruct body'; reflexivity.
Qed.

(** A line break after a text adds no comment marker. *)
Lemma before_first_newline (body : string) :
  before_first "//" (body ++ newline)
  = if has_comment body then before_first "//" body else body ++ newline.
Proof.
  induction body as [|c body IH]; [reflexivity|].
  cbn [append]. rewrite !before_first_cons, has_comment_cons, prefix_app_newline, IH.
  destruct (prefix "//" (String c body)); [reflexivity|]. cbn [orb].
  now destruct (has_comment body).
Qed.

Lemma strip_newline (u : string) : PyStr.strip (u ++ newline) = PyStr.strip u.
Proof.
  unfold PyStr.strip. induction u as [|c u IH]; [reflexivity|].
  cbn [append PyStr.lstrip]. destruct (PyStr.isspace c); [exact IH|].
  change (String c (u ++ newline)) with (String c u ++ newline).
  now apply rstrip_app_spaces.
Qed.

(** The line break of a line plays no part in its cleaning. *)
Lemma clean_line_newline (body : string) :
  clean_line (body ++ newline) = clean_line body.
Proof.
  unfold clean_line. rewrite before_first_newline.
  destruct (has_comment body) eqn:H; [reflexivity|].
  now rewrite strip_newline, before_first_free.
Qed.

Lemma rstrip_idem (s : string) : PyStr.rstrip (PyStr.rstrip s) = PyStr.rstrip s.
Proof.
  induction s as [|c s IH]; [reflexivity|].
  cbn [PyStr.rstrip]. destruct (PyStr.rstrip s) as [|d t] eqn:E.
  - destruct (PyStr.isspace c) eqn:Hc; [reflexivity|].
    cbn [PyStr.rstrip]. now rewrite Hc.
  - change (PyStr.rstrip (String c (String d t)))
      with (match PyStr.rstrip (String d t) with
            | EmptyString => if PyStr.isspace c then EmptyString else String c EmptyString
            | u => String c u
            end).
    now rewrite IH.
Qed.

Lemma lstrip_decompose (s : string) : exists lead, s = lead ++ PyStr.lstrip s.
Proof.
  induction s as [|c s [lead E]]; [now exists ""|].
  cbn [PyStr.lstrip]. destruct (PyStr.isspace c); [|now exists ""].
  exists (String c lead). cbn [append]. now rewrite <- E.
Qed.

Lemma lstrip_rstrip (x : string) :
  PyStr.lstrip x = x -> PyStr.lstrip (PyStr.rstrip x) = PyStr.rstrip x.
Proof.
  destruct x as [|c x]; [reflexivity|].
  cbn [PyStr.lstrip]. destruct (PyStr.isspace c) eqn:Hc.
  - intros E. exfalso.
    destruct (lstrip_decompose x) as [lead D].
    apply (f_equal String.length) in E. apply (f_equal String.length) in D.
    rewrite string_length_app in D. cbn [String.length] in E. lia.
  - intros _. cbn [PyStr.rstrip].
    destruct (PyStr.rstrip x); rewrite ?Hc; cbn [PyStr.lstrip]; now rewrite Hc.
Qed.

Lemma strip_idem (s : string) : PyStr.strip (PyStr.strip s) = PyStr.strip s.
Proof.
  unfold PyStr.strip.
  rewrite (lstrip_rstrip (PyStr.lstrip s) (lstrip_idem s)). apply rstrip_idem.
Qed.

(** A text and the white space stripped from its two ends. *)
Lemma strip_decompose (s : string) :
  exists lead trail, s = lead ++ PyStr.strip s ++ trail.
Proof.
  destruct (lstrip_decompose s) as [lead E].
  destruct (rstrip_decompose (PyStr.lstrip s)) as (w & D & _).
  exists lead, w. unfold PyStr.strip. now rewrite <- D.
Qed.

(** What is kept of a line without line break is empty or clean. *)
Lemma clean_line_clean (body : string) :
  string_forallb no_line_break body = true ->
  is_empty (clean_line body) = false -> is_clean (clean_line body) = true.
Proof.
  intros Hb Hne. unfold is_clean. rewrite Hne. cbn [negb andb].
  unfold clean_line in *. rewrite strip_idem, String.eqb_refl. cbn [andb].
  destruct (before_first_prefix body) as [rest Ep].
  destruct (strip_decompose (before_first "//" body)) as (lead & trail & Es).
  set (c := PyStr.strip (before_first "//" body)) in *.
  pose proof (before_first_is_free body) as F. rewrite Es in F.
  apply has_comment_app in F. destruct F as [_ F].
  apply has_comment_app in F. destruct F as [F _]. rewrite F. cbn [negb andb].
  rewrite Ep, Es, !string_forallb_app in Hb.
  apply andb_true_iff in Hb. destruct Hb as [Hb _].
  apply andb_true_iff in Hb. destruct Hb as [_ Hb].
  apply andb_true_iff in Hb. now destruct Hb as [Hb _].
Qed.

(** Every line of a file is a text without line break, with a line feed
    after it or, for the last line, without. *)
Lemma file_lines_from_shape (n : nat) :
  forall (text current : string),
    (String.length text <= n)%nat ->
    string_forallb no_line_break current = true ->
    Forall (fun l => exists body,
              string_forallb no_line_break body = true
              /\ (l = body ++ newline \/ l = body))
           (file_lines_from current text).
Proof.
  induction n as [|n IH]; intros text current Hn Hc.
  - destruct text; [|cbn in Hn; lia]. cbn [file_lines_from].
    destruct current; [constructor|].
    constructor; [|constructor]. eexists. split; [exact Hc|now right].
  - destruct text as [|c text].
    + cbn [file_lines_from]. destruct current; [constructor|].
      constructor; [|constructor]. eexists. split; [exact Hc|now right].
    + cbn [String.length] in Hn. cbn [file_lines_from].
      destruct (Ascii.eqb c (ascii_of_nat 10)) eqn:H10.
      { constructor; [eexists; split; [exact Hc|now left]|].
        apply IH; [lia|reflexivity]. }
      destruct (Ascii.eqb c (ascii_of_nat 13)) eqn:H13.
      { destruct text as [|c' text'].
        - constructor; [|constructor]. eexists. split; [exact Hc|now left].
        - cbn [String.length] in Hn.
          destruct (Ascii.eqb c' (ascii_of_nat 10));
            (constructor; [eexists; split; [exact Hc|now left]|]);
            (apply IH; [cbn [String.length]; lia|reflexivity]). }
      apply IH; [lia|].
      rewrite string_forallb_app, Hc. cbn [string_forallb andb].
      unfold no_line_break. now rewrite H10, H13.
Qed.

Lemma clean_lines_clean (text : string) : forallb is_clean (clean_lines text) = true.
Proof.
  apply forallb_forall. intros c Hin. unfold clean_lines in Hin.
  apply filter_In in Hin. destruct Hin as [Hin Hne].
  apply negb_true_iff in Hne.
  apply in_map_iff in Hin. destruct Hin as (l & <- & Hl).
  pose proof (file_lines_from_shape (String.length text) text "" (le_n _) eq_refl) as S.
  rewrite Forall_forall in S. destruct (S l Hl) as (body & Hb & [-> | ->]).
  - rewrite clean_line_newline in *. now apply clean_line_clean.
  - now apply clean_line_clean.
Qed.

(** Cleaning a file of clean lines changes nothing. *)
Lemma clean_file_clean (cs : list string) :
  forallb is_clean cs = true ->
  clean_file (written (map (fun c => c ++ newline) cs))
  = written (map (fun c => c ++ newline) cs).
Proof.
  intros H. rewrite forallb_forall in H. unfold clean_file.
  rewrite file_lines_written.
  - rewrite clean_fold. cbn [append]. f_equal. f_equal.
    induction cs as [|c cs IH]; [reflexivity|].
    cbn [map filter]. rewrite clean_line_newline.
    pose proof (H c (or_introl eq_refl)) as Hc. unfold is_clean in Hc.
    apply andb_true_iff in Hc. destruct Hc as [Hc _].
    apply andb_true_iff in Hc. destruct Hc as [Hc Hfree].
    apply andb_true_iff in Hc. destruct Hc as [Hne Hstrip].
    apply negb_true_iff in Hfree. apply String.eqb_eq in Hstrip.
    unfold clean_line. rewrite (before_first_free c Hfree), Hstrip, Hne.
    f_equal. apply IH. intros x Hx. apply H. now right.
  - apply Forall_forall. intros l Hl. apply in_map_iff in Hl.
    destruct Hl as (c & <- & Hc). exists c. split; [reflexivity|].
    apply H in Hc. unfold is_clean in Hc.
    now apply andb_true_iff in Hc.
Qed.

End Clean.

(** X21.  Whatever the input file, [clean.py] writes only clean lines, each
    with its line feed: no empty line, no white space at either end of a
    line, no comment marker, at most one line per line read; cleaning the
    output again gives the output. *)
Theorem clean_file_output (text : string) :
  clean_file text = written (map (fun c => (c ++ newline)%string) (clean_lines text))
  /\ forallb is_clean (clean_lines text) = true
  /\ (List.length (clean_lines text) <= List.length (file_lines text))%nat
  /\ clean_file (clean_file text) = clean_file text.
Proof.
  assert (E : clean_file text
              = written (map (fun c => (c ++ newline)%string) (clean_lines text))).
  { unfold clean_file, clean_lines. now rewrite clean_fold. }
  split; [exact E|]. split; [apply clean_lines_clean|]. split.
  - unfold clean_lines. rewrite <- (length_map clean_line (file_lines text)).
    apply filter_length_le.
  - rewrite E. apply clean_file_clean, clean_lines_clean.
Qed.
